(** * Warehouse management: stock ledger, purchase orders and ERP import

    A shallow embedding of [app/models.py], [app/schemas.py] and the
    business operations of [app/crud.py].

    Modelling choices.
    - Primary keys and dates are [Z]; text columns are [string];
      nullable columns are [option].
    - Quantities (Python [float], SQL [Float]/[Numeric]) are exact
      rationals [Q]: rounding, NaN and infinities are outside the model.
    - A SQLAlchemy [Session] is a pair of database states: the state
      last committed and the working state of the open transaction.
      Every function of [crud.py] runs in a small state-and-exception
      monad over the session.
    - The database engine decides at every [flush] and [commit] whether
      the rows written are acceptable; its verdict is the parameter
      [integrity_ok].  A rejected write raises [IntegrityError] and the
      open transaction is rolled back. *)

From Stdlib Require Import ZArith QArith Qminmax List String Ascii Bool Lia Lqa.
From Stdlib Require Import Permutation Sorted.
Import ListNotations.

Open Scope string_scope.
Open Scope list_scope.
Open Scope Z_scope.
Open Scope Q_scope.

(** ** Enumerations ([models.py]) *)

Inductive TransactionType := RECEIPT | SHIPMENT | ADJUSTMENT.

Inductive PurchaseOrderStatus := DRAFT | RELEASED | COMPLETED | CANCELLED.

(** ** Tables ([models.py]) *)

Record Item := mkItem {
  item_id : Z;
  sku : string;
  item_name : string;
  item_description : option string;
  unit_of_measure : string;
  reorder_level : Z }.

Record StorageLocation := mkStorageLocation {
  location_id : Z;
  location_name : string;
  location_description : option string }.

Record Supplier := mkSupplier {
  supplier_id : Z;
  supplier_name : string;
  contact_email : option string;
  contact_phone : option string;
  supplier_notes : option string }.

Record StockLevel := mkStockLevel {
  sl_id : Z;
  sl_item_id : Z;
  sl_location_id : Z;
  sl_quantity : Q }.

Record InventoryTransaction := mkInventoryTransaction {
  tx_id : Z;
  tx_item_id : Z;
  tx_location_id : Z;
  tx_quantity : Q;
  tx_transaction_type : TransactionType;
  tx_reference : option string;
  tx_note : option string;
  tx_created_at : Z }.

Record PurchaseOrderLine := mkPurchaseOrderLine {
  line_id : Z;
  line_item_id : option Z;
  line_description : option string;
  ordered_quantity : Q;
  received_quantity : Q;
  unit_price : option Q }.

(** The [lines] relationship of an order is owned by the order
    (cascade "all, delete-orphan"), so the lines are nested in it. *)
Record PurchaseOrder := mkPurchaseOrder {
  po_id : Z;
  order_number : string;
  po_supplier_id : option Z;
  po_status : PurchaseOrderStatus;
  expected_date : option Z;
  po_notes : option string;
  po_created_at : Z;
  po_lines : list PurchaseOrderLine }.

Record DB := mkDB {
  items : list Item;
  locations : list StorageLocation;
  suppliers : list Supplier;
  stock_levels : list StockLevel;
  transactions : list InventoryTransaction;
  purchase_orders : list PurchaseOrder }.

(** ** Input schemas ([schemas.py]) *)

Record InventoryTransactionCreate := mkInventoryTransactionCreate {
  in_item_id : Z;
  in_location_id : Z;
  in_quantity : Q;
  in_transaction_type : TransactionType;
  in_reference : option string;
  in_note : option string }.

Record SupplierCreate := mkSupplierCreate {
  sc_name : string;
  sc_contact_email : option string;
  sc_contact_phone : option string;
  sc_notes : option string }.

Record ERPPurchaseOrderLine := mkERPPurchaseOrderLine {
  erp_sku : string;
  erp_name : string;
  erp_ordered_quantity : Q;
  erp_unit_price : option Q;
  erp_description : option string }.

Record ERPPurchaseOrder := mkERPPurchaseOrder {
  erp_order_number : string;
  erp_supplier_name : string;
  erp_expected_date : option Z;
  erp_status : PurchaseOrderStatus;
  erp_notes : option string;
  erp_lines : list ERPPurchaseOrderLine }.

Record ERPImportResult := mkERPImportResult {
  imported : Z;
  updated : Z;
  skipped : Z;
  details : list string }.

(** ** Exceptions

    [crud.py] has one exception class, [CRUDException], told apart by
    its message; each constructor of [CRUDMessage] is one message of the
    source. *)

Inductive CRUDMessage :=
| ItemOrLocationNotFound   (* "Artikel oder Lagerort wurde nicht gefunden." *)
| QuantityIsZero           (* "Die Bewegungsmenge darf nicht 0 sein." *)
| ReceiptNotPositive       (* "Wareneingang benoetigt eine positive Menge." *)
| ShipmentNotPositive      (* "Warenausgang benoetigt eine positive Menge." *)
| StockWouldBeNegative     (* "Der Bestand darf nicht negativ werden." *)
| SupplierExists           (* "Lieferant existiert bereits." *)
| ReceivedIsNegative.      (* "Gelieferte Menge darf nicht negativ sein." *)

Inductive Exception :=
| CRUDException (m : CRUDMessage)
| IntegrityError.

Inductive ErrorKind := NotFound | InvalidInput | Conflict.

(** The error classes of the specification (section 7), assigned to the
    messages of the source, which raises [CRUDException] for all of
    them: a missing reference is [NotFound], a refused quantity
    [InvalidInput], a duplicate business key [Conflict]. *)
Definition error_kind (m : CRUDMessage) : ErrorKind :=
  match m with
  | ItemOrLocationNotFound => NotFound
  | QuantityIsZero | ReceiptNotPositive | ShipmentNotPositive
  | StockWouldBeNegative | ReceivedIsNegative => InvalidInput
  | SupplierExists => Conflict
  end.

(** ** The session monad *)

Record Session := mkSession {
  committed : DB;
  working : DB }.

Inductive Result (A : Type) :=
| Ok (a : A)
| Raise (e : Exception).
Arguments Ok {A} a.
Arguments Raise {A} e.

Definition M (A : Type) : Type := Session -> Result A * Session.

Definition ret {A} (a : A) : M A := fun s => (Ok a, s).

Definition raise {A} (e : Exception) : M A := fun s => (Raise e, s).

Definition bind {A B} (m : M A) (f : A -> M B) : M B :=
  fun s =>
    match m s with
    | (Ok a, s') => f a s'
    | (Raise e, s') => (Raise e, s')
    end.

Declare Scope session_scope.
Delimit Scope session_scope with session.
Notation "x <- m ;; k" := (bind m (fun x => k))
  (at level 100, m at next level, right associativity) : session_scope.
Notation "m ;;; k" := (bind m (fun _ => k))
  (at level 100, right associativity) : session_scope.
Open Scope session_scope.

(** Reads of, and writes to, the open transaction. *)
Definition query {A} (f : DB -> A) : M A := fun s => (Ok (f (working s)), s).

Definition modify (f : DB -> DB) : M unit :=
  fun s => (Ok tt, mkSession (committed s) (f (working s))).

(** [db.rollback()], also what [db.close()] does to an open transaction. *)
Definition rollback : M unit :=
  fun s => (Ok tt, mkSession (committed s) (committed s)).

(** The ids handed out by the engine: one more than the largest in use. *)
Definition next_id (ids : list Z) : Z := (1 + fold_right Z.max 0 ids)%Z.

(** ASCII lower-casing, as SQLite's [lower()] does it. *)
Definition lower_ascii (c : ascii) : ascii :=
  let n := nat_of_ascii c in
  if (Nat.leb 65 n && Nat.leb n 90)%bool then ascii_of_nat (n + 32) else c.

Fixpoint lower (s : string) : string :=
  match s with
  | EmptyString => EmptyString
  | String c r => String (lower_ascii c) (lower r)
  end.

(** Field updates of persistent objects. *)
Definition set_quantity (q : Q) (sl : StockLevel) : StockLevel :=
  mkStockLevel (sl_id sl) (sl_item_id sl) (sl_location_id sl) q.

Definition set_received (q : Q) (l : PurchaseOrderLine) : PurchaseOrderLine :=
  mkPurchaseOrderLine (line_id l) (line_item_id l) (line_description l)
    (ordered_quantity l) q (unit_price l).

Definition set_lines (ls : list PurchaseOrderLine) (o : PurchaseOrder) : PurchaseOrder :=
  mkPurchaseOrder (po_id o) (order_number o) (po_supplier_id o) (po_status o)
    (expected_date o) (po_notes o) (po_created_at o) ls.

Definition with_items (f : list Item -> list Item) (d : DB) : DB :=
  mkDB (f (items d)) (locations d) (suppliers d) (stock_levels d)
    (transactions d) (purchase_orders d).

Definition with_suppliers (f : list Supplier -> list Supplier) (d : DB) : DB :=
  mkDB (items d) (locations d) (f (suppliers d)) (stock_levels d)
    (transactions d) (purchase_orders d).

Definition with_stock_levels (f : list StockLevel -> list StockLevel) (d : DB) : DB :=
  mkDB (items d) (locations d) (suppliers d) (f (stock_levels d))
    (transactions d) (purchase_orders d).

Definition with_transactions
    (f : list InventoryTransaction -> list InventoryTransaction) (d : DB) : DB :=
  mkDB (items d) (locations d) (suppliers d) (stock_levels d)
    (f (transactions d)) (purchase_orders d).

Definition with_purchase_orders
    (f : list PurchaseOrder -> list PurchaseOrder) (d : DB) : DB :=
  mkDB (items d) (locations d) (suppliers d) (stock_levels d)
    (transactions d) (f (purchase_orders d)).

(** [db.get(Item, id)] and [db.get(StorageLocation, id)]. *)
Definition find_item (d : DB) (id : Z) : option Item :=
  find (fun i => (item_id i =? id)%Z) (items d).

Definition find_location (d : DB) (id : Z) : option StorageLocation :=
  find (fun l => (location_id l =? id)%Z) (locations d).

(** The quantity on hand of a pair, 0 when it has no row. *)
Definition find_stock_level (d : DB) (item location : Z) : option StockLevel :=
  find (fun sl => ((sl_item_id sl =? item) && (sl_location_id sl =? location))%Z%bool)
       (stock_levels d).

Definition stock_quantity (d : DB) (item location : Z) : Q :=
  match find_stock_level d item location with
  | Some sl => sl_quantity sl
  | None => 0
  end.

Section Store.

(** The verdict of the database engine on the rows of a transaction. *)
Variable integrity_ok : DB -> bool.

(** [db.flush()]: the pending rows are written; a refused write raises
    [IntegrityError] and the transaction is rolled back. *)
Definition flush : M unit :=
  fun s =>
    if integrity_ok (working s) then (Ok tt, s)
    else (Raise IntegrityError, mkSession (committed s) (committed s)).

(** [db.commit()]: flush, then make the transaction permanent. *)
Definition commit : M unit :=
  fun s =>
    if integrity_ok (working s) then (Ok tt, mkSession (working s) (working s))
    else (Raise IntegrityError, mkSession (committed s) (committed s)).

(** ** Stock ledger ([crud.py], lines 128-186) *)

Definition get_item (id : Z) : M (option Item) :=
  query (fun d => find_item d id).

Definition get_location (id : Z) : M (option StorageLocation) :=
  query (fun d => find_location d id).

Definition get_stock_level (item location : Z) : M (option StockLevel) :=
  query (fun d => find_stock_level d item location).

(** [StockLevel(item=item, location=location, quantity=0)], [db.add]. *)
Definition add_stock_level (item location : Z) : M StockLevel :=
  fun s =>
    let sl := mkStockLevel (next_id (map sl_id (stock_levels (working s))))
                item location 0 in
    (Ok sl, mkSession (committed s)
              (with_stock_levels (fun l => l ++ [sl]) (working s))).

(** Assignment to [stock_level.quantity] of the row with primary key [id]. *)
Definition assign_quantity (id : Z) (q : Q) (sl : StockLevel) : StockLevel :=
  if (sl_id sl =? id)%Z then set_quantity q sl else sl.

Definition set_stock_level_quantity (id : Z) (q : Q) : M unit :=
  modify (with_stock_levels (map (assign_quantity id q))).

Definition add_transaction (item location : Z) (q : Q) (t : TransactionType)
    (reference note : option string) (now : Z) : M InventoryTransaction :=
  fun s =>
    let tx := mkInventoryTransaction
                (next_id (map tx_id (transactions (working s))))
                item location q t reference note now in
    (Ok tx, mkSession (committed s)
              (with_transactions (fun l => l ++ [tx]) (working s))).

(** [now] is the reading of [datetime.utcnow()].  The final [else] of
    the source ("Unbekannter Bewegungstyp") has no case here: the
    enumeration is closed. *)
Definition register_inventory_transaction (now : Z)
    (transaction_in : InventoryTransactionCreate) : M InventoryTransaction :=
  item <- get_item (in_item_id transaction_in) ;;
  location <- get_location (in_location_id transaction_in) ;;
  match item, location with
  | Some item, Some location =>
      if Qeq_bool (in_quantity transaction_in) 0
      then raise (CRUDException QuantityIsZero)
      else
        found <- get_stock_level (item_id item) (location_id location) ;;
        stock_level <-
          match found with
          | Some sl => ret sl
          | None =>
              sl <- add_stock_level (item_id item) (location_id location) ;;
              flush ;;;
              ret sl
          end ;;
        let quantity_delta := in_quantity transaction_in in
        new_quantity <-
          match in_transaction_type transaction_in with
          | RECEIPT =>
              if Qle_bool quantity_delta 0
              then raise (CRUDException ReceiptNotPositive)
              else ret (sl_quantity stock_level + quantity_delta)
          | SHIPMENT =>
              if Qle_bool quantity_delta 0
              then raise (CRUDException ShipmentNotPositive)
              else if negb (Qle_bool 0 (sl_quantity stock_level - quantity_delta))
              then raise (CRUDException StockWouldBeNegative)
              else ret (sl_quantity stock_level - quantity_delta)
          | ADJUSTMENT =>
              let new_quantity := sl_quantity stock_level + quantity_delta in
              if negb (Qle_bool 0 new_quantity)
              then raise (CRUDException StockWouldBeNegative)
              else ret new_quantity
          end ;;
        set_stock_level_quantity (sl_id stock_level) new_quantity ;;;
        transaction <-
          add_transaction (item_id item) (location_id location) quantity_delta
            (in_transaction_type transaction_in)
            (in_reference transaction_in) (in_note transaction_in) now ;;
        commit ;;;
        ret transaction
  | _, _ => raise (CRUDException ItemOrLocationNotFound)
  end.

(** ** Suppliers ([crud.py], lines 100-116 and 351-358) *)

(** [db.add] of a new supplier row. *)
Definition add_supplier (name : string) (email phone notes : option string) : M Supplier :=
  fun s =>
    let supplier := mkSupplier (next_id (map supplier_id (suppliers (working s))))
                      name email phone notes in
    (Ok supplier, mkSession (committed s)
                    (with_suppliers (fun l => l ++ [supplier]) (working s))).

Definition create_supplier (supplier_in : SupplierCreate) : M Supplier :=
  existing <- query (fun d =>
                find (fun s => String.eqb (supplier_name s) (sc_name supplier_in))
                     (suppliers d)) ;;
  match existing with
  | Some _ => raise (CRUDException SupplierExists)
  | None =>
      supplier <- add_supplier (sc_name supplier_in) (sc_contact_email supplier_in)
                    (sc_contact_phone supplier_in) (sc_notes supplier_in) ;;
      commit ;;;
      ret supplier
  end.

Definition get_supplier_by_name (name : string) : M (option Supplier) :=
  query (fun d =>
    find (fun s => String.eqb (lower (supplier_name s)) (lower name)) (suppliers d)).

Definition get_or_create_supplier_by_name (name : string) : M Supplier :=
  supplier <- get_supplier_by_name name ;;
  match supplier with
  | Some supplier => ret supplier
  | None =>
      supplier <- add_supplier name None None None ;;
      flush ;;;
      ret supplier
  end.

(** ** Purchase orders ([crud.py], lines 298-315) *)

Definition update_line (id : Z) (f : PurchaseOrderLine -> PurchaseOrderLine)
    (o : PurchaseOrder) : PurchaseOrder :=
  set_lines (map (fun l => if (line_id l =? id)%Z then f l else l) (po_lines o)) o.

(** [line] is the row the caller fetched by primary key. *)
Definition set_purchase_order_line_received (line : PurchaseOrderLine)
    (received : Q) : M PurchaseOrderLine :=
  if negb (Qle_bool 0 received)
  then raise (CRUDException ReceivedIsNegative)
  else
    modify (with_purchase_orders
              (map (update_line (line_id line) (set_received received)))) ;;;
    commit ;;;
    ret (set_received received line).

Definition find_order (number : string) (os : list PurchaseOrder)
    : option PurchaseOrder :=
  find (fun o => String.eqb (order_number o) number) os.

Definition get_purchase_order_by_number (number : string) : M (option PurchaseOrder) :=
  query (fun d => find_order number (purchase_orders d)).

(** ** ERP import ([crud.py], lines 334-423) *)

(** The [defaults] dictionary: an absent key is [None]. *)
Record ItemDefaults := mkItemDefaults {
  default_name : option string;
  default_description : option string;
  default_unit_of_measure : option string;
  default_reorder_level : option Z }.

Definition no_defaults : ItemDefaults := mkItemDefaults None None None None.

Definition or_default {A} (o : option A) (d : A) : A :=
  match o with Some a => a | None => d end.

Definition add_item (sku name : string) (description : option string)
    (unit : string) (level : Z) : M Item :=
  fun s =>
    let item := mkItem (next_id (map item_id (items (working s))))
                  sku name description unit level in
    (Ok item, mkSession (committed s)
                (with_items (fun l => l ++ [item]) (working s))).

Definition get_or_create_item_by_sku (sku0 : string)
    (defaults : option ItemDefaults) : M Item :=
  item <- query (fun d => find (fun i => String.eqb (sku i) sku0) (items d)) ;;
  match item with
  | Some item => ret item
  | None =>
      let defaults := or_default defaults no_defaults in
      item <- add_item sku0
                (or_default (default_name defaults) sku0)
                (default_description defaults)
                (or_default (default_unit_of_measure defaults) "Stk"%string)
                (or_default (default_reorder_level defaults) 0%Z) ;;
      flush ;;;
      ret item
  end.

(** A [PurchaseOrder] object is either not yet added to the session
    (the object itself is passed around) or a row of the open
    transaction (named by its primary key). *)
Inductive OrderRef :=
| Transient (o : PurchaseOrder)
| Persistent (id : Z).

Definition all_line_ids (d : DB) : list Z :=
  flat_map (fun o => map line_id (po_lines o)) (purchase_orders d).

Definition set_line_id (id : Z) (l : PurchaseOrderLine) : PurchaseOrderLine :=
  mkPurchaseOrderLine id (line_item_id l) (line_description l)
    (ordered_quantity l) (received_quantity l) (unit_price l).

Fixpoint number_lines (base : Z) (ls : list PurchaseOrderLine) : list PurchaseOrderLine :=
  match ls with
  | [] => []
  | l :: rest => set_line_id base l :: number_lines (base + 1)%Z rest
  end.

Definition on_order_with_id (id : Z) (f : PurchaseOrder -> PurchaseOrder)
    (o : PurchaseOrder) : PurchaseOrder :=
  if (po_id o =? id)%Z then f o else o.

(** [purchase_order.lines.clear()]. *)
Definition clear_lines (ref : OrderRef) : M OrderRef :=
  match ref with
  | Transient o => ret (Transient (set_lines [] o))
  | Persistent id =>
      modify (with_purchase_orders (map (on_order_with_id id (set_lines [])))) ;;;
      ret ref
  end.

(** [purchase_order.lines.append(line)].  A line of a persistent order
    is numbered as it joins the transaction; the lines of a transient
    order are numbered when the order is added. *)
Definition append_line (ref : OrderRef) (line : PurchaseOrderLine) : M OrderRef :=
  match ref with
  | Transient o => ret (Transient (set_lines (po_lines o ++ [line]) o))
  | Persistent id =>
      fun s =>
        let line' := set_line_id (next_id (all_line_ids (working s))) line in
        (Ok ref, mkSession (committed s)
                   (with_purchase_orders
                      (map (on_order_with_id id
                              (fun o => set_lines (po_lines o ++ [line']) o)))
                      (working s)))
  end.

(** The body of the loop of [_replace_purchase_order_lines]; a new line
    has the column default [received_quantity = 0]. *)
Fixpoint materialize_lines (ref : OrderRef) (lines : list ERPPurchaseOrderLine)
    : M OrderRef :=
  match lines with
  | [] => ret ref
  | line :: rest =>
      item <- get_or_create_item_by_sku (erp_sku line)
                (Some (mkItemDefaults (Some (erp_name line)) (erp_description line)
                         None None)) ;;
      ref' <- append_line ref
                (mkPurchaseOrderLine 0 (Some (item_id item)) (erp_description line)
                   (erp_ordered_quantity line) 0 (erp_unit_price line)) ;;
      materialize_lines ref' rest
  end.

Definition _replace_purchase_order_lines (ref : OrderRef)
    (lines : list ERPPurchaseOrderLine) : M OrderRef :=
  ref1 <- clear_lines ref ;;
  ref2 <- materialize_lines ref1 lines ;;
  flush ;;;
  ret ref2.

(** [db.add(purchase_order)] of a transient order. *)
Definition add_purchase_order (ref : OrderRef) : M unit :=
  match ref with
  | Transient o =>
      modify (fun d =>
        let o' := mkPurchaseOrder (next_id (map po_id (purchase_orders d)))
                    (order_number o) (po_supplier_id o) (po_status o)
                    (expected_date o) (po_notes o) (po_created_at o)
                    (number_lines (next_id (all_line_ids d)) (po_lines o)) in
        with_purchase_orders (fun l => l ++ [o']) d)
  | Persistent _ => ret tt
  end.

(** The four header assignments of the update branch. *)
Definition overwrite_header (supplier : Supplier) (order : ERPPurchaseOrder)
    (o : PurchaseOrder) : PurchaseOrder :=
  mkPurchaseOrder (po_id o) (order_number o) (Some (supplier_id supplier))
    (erp_status order) (erp_expected_date order) (erp_notes order)
    (po_created_at o) (po_lines o).

(** The engine's text of an [IntegrityError], [str(exc)]. *)
Variable integrity_text : string.

Definition skip_detail (order : ERPPurchaseOrder) : string :=
  ("Bestellung " ++ erp_order_number order
     ++ " konnte nicht gespeichert werden: " ++ integrity_text)%string.

Definition count_imported (r : ERPImportResult) : ERPImportResult :=
  mkERPImportResult (imported r + 1)%Z (updated r) (skipped r) (details r).

Definition count_updated (r : ERPImportResult) : ERPImportResult :=
  mkERPImportResult (imported r) (updated r + 1)%Z (skipped r) (details r).

Definition count_skipped (detail : string) (r : ERPImportResult) : ERPImportResult :=
  mkERPImportResult (imported r) (updated r) (skipped r + 1)%Z (details r ++ [detail]).

(** [try: m except IntegrityError: handler]. *)
Definition try_except_integrity {A} (m : M A) (handler : M A) : M A :=
  fun s =>
    match m s with
    | (Raise IntegrityError, s') => handler s'
    | other => other
    end.

(** One pass of the loop of [import_purchase_orders_from_payload]; [r]
    holds the counters and [now] the clock reading of the insert. *)
Definition import_order (now : Z) (order : ERPPurchaseOrder)
    (r : ERPImportResult) : M ERPImportResult :=
  supplier <- get_or_create_supplier_by_name (erp_supplier_name order) ;;
  existing <- get_purchase_order_by_number (erp_order_number order) ;;
  r1 <-
    match existing with
    | None =>
        let purchase_order :=
          mkPurchaseOrder 0 (erp_order_number order) (Some (supplier_id supplier))
            (erp_status order) (erp_expected_date order) (erp_notes order) now [] in
        ref <- _replace_purchase_order_lines (Transient purchase_order)
                 (erp_lines order) ;;
        add_purchase_order ref ;;;
        ret (count_imported r)
    | Some existing =>
        modify (with_purchase_orders
                  (map (on_order_with_id (po_id existing)
                          (overwrite_header supplier order)))) ;;;
        _replace_purchase_order_lines (Persistent (po_id existing))
          (erp_lines order) ;;;
        ret (count_updated r)
    end ;;
  try_except_integrity
    (commit ;;; ret r1)
    (rollback ;;; ret (count_skipped (skip_detail order) r1)).

Fixpoint import_loop (now : Z) (payload : list ERPPurchaseOrder)
    (r : ERPImportResult) : M ERPImportResult :=
  match payload with
  | [] => ret r
  | order :: rest =>
      r' <- import_order now order r ;;
      import_loop now rest r'
  end.

Definition import_purchase_orders_from_payload (now : Z)
    (payload : list ERPPurchaseOrder) : M ERPImportResult :=
  import_loop now payload (mkERPImportResult 0 0 0 []).

(** ** Catalog and purchase orders ([crud.py], lines 31-93 and 242-331)

    The functions below raise messages of [crud.py] that the ledger and
    the suppliers do not have; they run in the same monad with the
    wider set of failures [Failure], into which [lift] carries the
    operations defined so far. *)

Record ItemCreate := mkItemCreate {
  ic_sku : string;
  ic_name : string;
  ic_description : option string;
  ic_unit_of_measure : string;
  ic_reorder_level : Z }.

Record ItemUpdate := mkItemUpdate {
  iu_name : option string;
  iu_description : option string;
  iu_unit_of_measure : option string;
  iu_reorder_level : option Z }.

Record StorageLocationCreate := mkStorageLocationCreate {
  lc_name : string;
  lc_description : option string }.

Record PurchaseOrderLineCreate := mkPurchaseOrderLineCreate {
  plc_item_id : option Z;
  plc_description : option string;
  plc_ordered_quantity : Q;
  plc_unit_price : option Q }.

Record PurchaseOrderCreate := mkPurchaseOrderCreate {
  poc_order_number : string;
  poc_supplier_id : option Z;
  poc_status : PurchaseOrderStatus;
  poc_expected_date : option Z;
  poc_notes : option string;
  poc_lines : option (list PurchaseOrderLineCreate) }.

Record PurchaseOrderUpdate := mkPurchaseOrderUpdate {
  pou_supplier_id : option Z;
  pou_status : option PurchaseOrderStatus;
  pou_expected_date : option Z;
  pou_notes : option string }.

Inductive CRUDFailure :=
| Message (m : CRUDMessage)
| ItemExists               (* "Artikelnummer existiert bereits." *)
| LocationExists           (* "Lagerort existiert bereits." *)
| OrderNumberExists        (* "Bestellnummer existiert bereits." *)
| LineItemNotFound.        (* "Artikel fuer Bestellposition nicht gefunden." *)

Inductive Failure :=
| CRUDFailed (m : CRUDFailure)
| IntegrityFailed.

Inductive Outcome (A : Type) :=
| Done (a : A)
| Failed (e : Failure).
Arguments Done {A} a.
Arguments Failed {A} e.

Definition N (A : Type) : Type := Session -> Outcome A * Session.

Definition done {A} (a : A) : N A := fun s => (Done a, s).

Definition fail {A} (m : CRUDFailure) : N A := fun s => (Failed (CRUDFailed m), s).

Definition and_then {A B} (m : N A) (f : A -> N B) : N B :=
  fun s =>
    match m s with
    | (Done a, s') => f a s'
    | (Failed e, s') => (Failed e, s')
    end.

Definition lift {A} (m : M A) : N A :=
  fun s =>
    match m s with
    | (Ok a, s') => (Done a, s')
    | (Raise (CRUDException e), s') => (Failed (CRUDFailed (Message e)), s')
    | (Raise IntegrityError, s') => (Failed IntegrityFailed, s')
    end.

Definition create_item (item_in : ItemCreate) : N Item :=
  and_then (lift (query (fun d =>
              find (fun i => String.eqb (sku i) (ic_sku item_in)) (items d))))
    (fun existing =>
       match existing with
       | Some _ => fail ItemExists
       | None =>
           and_then (lift (add_item (ic_sku item_in) (ic_name item_in)
                             (ic_description item_in) (ic_unit_of_measure item_in)
                             (ic_reorder_level item_in)))
             (fun item => and_then (lift commit) (fun _ => done item))
       end).

(** The loop of [update_item]: a field that is not [None] is assigned. *)
Definition apply_item_update (item_in : ItemUpdate) (i : Item) : Item :=
  mkItem (item_id i) (sku i)
    (or_default (iu_name item_in) (item_name i))
    (match iu_description item_in with
     | Some d => Some d
     | None => item_description i
     end)
    (or_default (iu_unit_of_measure item_in) (unit_of_measure i))
    (or_default (iu_reorder_level item_in) (reorder_level i)).

Definition on_item_with_id (id : Z) (f : Item -> Item) (i : Item) : Item :=
  if (item_id i =? id)%Z then f i else i.

(** [item] is the row the caller fetched by primary key. *)
Definition update_item (item : Item) (item_in : ItemUpdate) : M Item :=
  modify (with_items (map (on_item_with_id (item_id item)
                             (apply_item_update item_in)))) ;;;
  commit ;;;
  ret (apply_item_update item_in item).

Definition forget_item (id : Z) (l : PurchaseOrderLine) : PurchaseOrderLine :=
  match line_item_id l with
  | Some i =>
      if (i =? id)%Z
      then mkPurchaseOrderLine (line_id l) None (line_description l)
             (ordered_quantity l) (received_quantity l) (unit_price l)
      else l
  | None => l
  end.

(** [db.delete(item)] with the cascades of [models.py]: the stock
    levels and transactions of the item are deleted with it
    ("all, delete-orphan"), and the order lines that name it keep
    their place with the item set to NULL. *)
Definition delete_item_rows (id : Z) (d : DB) : DB :=
  mkDB (filter (fun i => negb (item_id i =? id)%Z) (items d))
       (locations d) (suppliers d)
       (filter (fun sl => negb (sl_item_id sl =? id)%Z) (stock_levels d))
       (filter (fun tx => negb (tx_item_id tx =? id)%Z) (transactions d))
       (map (fun o => set_lines (map (forget_item id) (po_lines o)) o)
            (purchase_orders d)).

Definition delete_item (item : Item) : M unit :=
  modify (delete_item_rows (item_id item)) ;;;
  commit.

Definition add_location (name : string) (description : option string)
    : M StorageLocation :=
  fun s =>
    let location := mkStorageLocation
                      (next_id (map location_id (locations (working s))))
                      name description in
    (Ok location,
     mkSession (committed s)
       (mkDB (items (working s)) (locations (working s) ++ [location])
          (suppliers (working s)) (stock_levels (working s))
          (transactions (working s)) (purchase_orders (working s)))).

Definition create_location (location_in : StorageLocationCreate)
    : N StorageLocation :=
  and_then (lift (query (fun d =>
              find (fun l => String.eqb (location_name l) (lc_name location_in))
                   (locations d))))
    (fun existing =>
       match existing with
       | Some _ => fail LocationExists
       | None =>
           and_then (lift (add_location (lc_name location_in)
                             (lc_description location_in)))
             (fun location => and_then (lift commit) (fun _ => done location))
       end).

(** [order_by(StorageLocation.id).first()]: the row with the least id. *)
Fixpoint first_location (ls : list StorageLocation) : option StorageLocation :=
  match ls with
  | [] => None
  | l :: rest =>
      match first_location rest with
      | None => Some l
      | Some m => if (location_id l <=? location_id m)%Z then Some l else Some m
      end
  end.

Definition ensure_default_location : M StorageLocation :=
  location <- query (fun d => first_location (locations d)) ;;
  match location with
  | Some location => ret location
  | None =>
      location <- add_location "Hauptlager"
                    (Some "Automatisch erzeugter Standardlagerort"%string) ;;
      commit ;;;
      ret location
  end.

Definition _build_purchase_order_line (line_in : PurchaseOrderLineCreate)
    : N PurchaseOrderLine :=
  and_then
    (match plc_item_id line_in with
     | Some id =>
         and_then (lift (get_item id))
           (fun item =>
              match item with
              | Some item => done (Some (item_id item))
              | None => fail LineItemNotFound
              end)
     | None => done None
     end)
    (fun item =>
       done (mkPurchaseOrderLine 0 item (plc_description line_in)
               (plc_ordered_quantity line_in) 0 (plc_unit_price line_in))).

Fixpoint build_order_lines (lines : list PurchaseOrderLineCreate)
    : N (list PurchaseOrderLine) :=
  match lines with
  | [] => done []
  | line_in :: rest =>
      and_then (_build_purchase_order_line line_in)
        (fun line =>
           and_then (build_order_lines rest) (fun ls => done (line :: ls)))
  end.

(** The row [db.add] stores for a transient order, as
    [add_purchase_order] numbers it. *)
Definition stored_order (d : DB) (o : PurchaseOrder) : PurchaseOrder :=
  mkPurchaseOrder (next_id (map po_id (purchase_orders d)))
    (order_number o) (po_supplier_id o) (po_status o)
    (expected_date o) (po_notes o) (po_created_at o)
    (number_lines (next_id (all_line_ids d)) (po_lines o)).

(** [now] is the clock reading of the insert; [if order_in.lines:] is
    false for [None] and for the empty list alike. *)
Definition create_purchase_order (now : Z) (order_in : PurchaseOrderCreate)
    : N PurchaseOrder :=
  and_then (lift (get_purchase_order_by_number (poc_order_number order_in)))
    (fun existing =>
       match existing with
       | Some _ => fail OrderNumberExists
       | None =>
           and_then (build_order_lines (or_default (poc_lines order_in) []))
             (fun ls =>
                let purchase_order :=
                  mkPurchaseOrder 0 (poc_order_number order_in)
                    (poc_supplier_id order_in) (poc_status order_in)
                    (poc_expected_date order_in) (poc_notes order_in) now ls in
                and_then (lift (query (fun d => stored_order d purchase_order)))
                  (fun stored =>
                     and_then (lift (add_purchase_order (Transient purchase_order)))
                       (fun _ => and_then (lift commit) (fun _ => done stored))))
       end).

(** The loop of [update_purchase_order]. *)
Definition apply_order_update (order_in : PurchaseOrderUpdate) (o : PurchaseOrder)
    : PurchaseOrder :=
  mkPurchaseOrder (po_id o) (order_number o)
    (match pou_supplier_id order_in with
     | Some id => Some id
     | None => po_supplier_id o
     end)
    (or_default (pou_status order_in) (po_status o))
    (match pou_expected_date order_in with
     | Some d => Some d
     | None => expected_date o
     end)
    (match pou_notes order_in with
     | Some n => Some n
     | None => po_notes o
     end)
    (po_created_at o) (po_lines o).

Definition update_purchase_order (purchase_order : PurchaseOrder)
    (order_in : PurchaseOrderUpdate) : M PurchaseOrder :=
  modify (with_purchase_orders
            (map (on_order_with_id (po_id purchase_order)
                    (apply_order_update order_in)))) ;;;
  commit ;;;
  ret (apply_order_update order_in purchase_order).

Definition add_purchase_order_line (purchase_order : PurchaseOrder)
    (line_in : PurchaseOrderLineCreate) : N PurchaseOrderLine :=
  and_then (_build_purchase_order_line line_in)
    (fun line =>
       and_then (lift (query (fun d => set_line_id (next_id (all_line_ids d)) line)))
         (fun stored =>
            and_then (lift (append_line (Persistent (po_id purchase_order)) line))
              (fun _ => and_then (lift commit) (fun _ => done stored)))).

End Store.

Arguments Done {A} a.
Arguments Failed {A} e.

(** ** Planning ([schemas.py], lines 203-216) *)

Record PlanningSuggestion := mkPlanningSuggestion {
  ps_item_id : Z;
  ps_sku : string;
  ps_name : string;
  ps_reorder_level : Z;
  on_hand : Q;
  on_order : Q;
  coverage_gap : Q;
  shortfall : Q;
  suggested_order : Q;
  needs_reorder : bool }.

Definition Qsum (l : list Q) : Q := fold_right Qplus 0 l.

(** The stock of an item summed over all locations. *)
Definition item_on_hand (d : DB) (item : Item) : Q :=
  Qsum (map sl_quantity
          (filter (fun sl => (sl_item_id sl =? item_id item)%Z) (stock_levels d))).

(** The open quantity of a line, as [show_planning] computes it. *)
Definition open_quantity (l : PurchaseOrderLine) : Q :=
  ordered_quantity l - received_quantity l.

Definition is_outstanding (l : PurchaseOrderLine) : bool :=
  negb (Qle_bool (open_quantity l) 0).

Definition status_is_open (st : PurchaseOrderStatus) : bool :=
  match st with
  | COMPLETED | CANCELLED => false
  | DRAFT | RELEASED => true
  end.

(** Modelled from the spec: an order is open when its status is
    neither COMPLETED nor CANCELLED and one of its lines has a positive
    open quantity (section 4.2). *)
Definition order_is_open (o : PurchaseOrder) : bool :=
  (status_is_open (po_status o) && existsb is_outstanding (po_lines o))%bool.

(** Modelled from the spec: the open purchase-order quantity of an
    item, the positive open quantities of its lines on open orders,
    summed (sections 4.2 and 4.4). *)
Definition item_on_order (d : DB) (item : Item) : Q :=
  Qsum (map open_quantity
          (filter (fun l =>
                     (match line_item_id l with
                      | Some id => (id =? item_id item)%Z
                      | None => false
                      end && is_outstanding l)%bool)
             (flat_map po_lines (filter order_is_open (purchase_orders d))))).

(** Modelled from the spec: [crud.get_planning_overview], which
    [show_planning] calls and [crud.py] lacks.  One suggestion per item,
    with the fields of section 4.4. *)
Definition planning_suggestion (d : DB) (item : Item) : PlanningSuggestion :=
  let on_hand := item_on_hand d item in
  let on_order := item_on_order d item in
  let coverage_gap := inject_Z (reorder_level item) - on_hand in
  let shortfall := Qmax 0 (coverage_gap - on_order) in
  mkPlanningSuggestion (item_id item) (sku item) (item_name item)
    (reorder_level item) on_hand on_order coverage_gap shortfall shortfall
    (negb (Qle_bool shortfall 0)).

Definition get_planning_overview (d : DB) : list PlanningSuggestion :=
  map (planning_suggestion d) (items d).

(** What a ledger call on a resolved item and location comes to: the
    write was refused by the engine, or the call was rejected and
    nothing of the pair changed, or the quantity was applied and one
    transaction with the input quantity was appended. *)
Definition rejected (tin : InventoryTransactionCreate) (prior : Q) : Prop :=
  let q := in_quantity tin in
  q == 0 \/
  match in_transaction_type tin with
  | RECEIPT => q <= 0
  | SHIPMENT => q <= 0 \/ prior - q < 0
  | ADJUSTMENT => prior + q < 0
  end.

Definition applied (tin : InventoryTransactionCreate) (prior after : Q) : Prop :=
  let q := in_quantity tin in
  ~ q == 0 /\
  match in_transaction_type tin with
  | RECEIPT => 0 < q /\ after = prior + q
  | SHIPMENT => 0 < q /\ 0 <= prior - q /\ after = prior - q
  | ADJUSTMENT => 0 <= prior + q /\ after = prior + q
  end.

Ltac step_session :=
  unfold bind, ret, raise, query, modify, get_item, get_location,
    get_stock_level, add_stock_level, set_stock_level_quantity,
    add_transaction, flush, commit; simpl.

(** ** Sample data

    The scenario of the specification: item 5 with stock 3 at location 1,
    in a session that has nothing pending. *)

Definition accept_all : DB -> bool := fun _ => true.

Definition sample_db : DB :=
  mkDB [mkItem 5 "A1" "Bolt" None "Stk" 20]
       [mkStorageLocation 1 "Hauptlager" None]
       [mkSupplier 1 "Acme" None None None]
       [mkStockLevel 1 5 1 3]
       []
       [mkPurchaseOrder 1 "PO-1" (Some 1%Z) RELEASED None None 0
          [mkPurchaseOrderLine 1 (Some 5%Z) None 10 4 None]].

Definition sample_session : Session := mkSession sample_db sample_db.

Definition movement (item location : Z) (q : Q) (t : TransactionType)
    : InventoryTransactionCreate :=
  mkInventoryTransactionCreate item location q t None None.

(** Two orders with the same header, and a line that differs from
    another at most in its received quantity. *)
Definition same_header (o o' : PurchaseOrder) : Prop :=
  po_id o' = po_id o /\ order_number o' = order_number o /\
  po_supplier_id o' = po_supplier_id o /\ po_status o' = po_status o /\
  expected_date o' = expected_date o /\ po_notes o' = po_notes o /\
  po_created_at o' = po_created_at o.

Definition same_line_but_received (l l' : PurchaseOrderLine) : Prop :=
  line_id l' = line_id l /\ line_item_id l' = line_item_id l /\
  line_description l' = line_description l /\
  ordered_quantity l' = ordered_quantity l /\ unit_price l' = unit_price l.

(** A second database for the planning scenario: reorder level 20, a
    stock of 2 + 3 over two locations, and open lines of 6 and 4; the
    cancelled order and the fully received line do not count. *)
Definition planning_db : DB :=
  mkDB [mkItem 5 "A1" "Bolt" None "Stk" 20]
       [mkStorageLocation 1 "Hauptlager" None; mkStorageLocation 2 "Aussenlager" None]
       []
       [mkStockLevel 1 5 1 2; mkStockLevel 2 5 2 3]
       []
       [mkPurchaseOrder 1 "PO-1" None RELEASED None None 0
          [mkPurchaseOrderLine 1 (Some 5%Z) None 10 4 None;
           mkPurchaseOrderLine 2 (Some 5%Z) None 7 7 None];
        mkPurchaseOrder 2 "PO-2" None DRAFT None None 0
          [mkPurchaseOrderLine 3 (Some 5%Z) None 4 0 None];
        mkPurchaseOrder 3 "PO-3" None CANCELLED None None 0
          [mkPurchaseOrderLine 4 (Some 5%Z) None 50 0 None]].

(** ** The import when no write is refused

    What the operations of the import come to on the working state when
    the engine accepts every write; used to state and prove the
    properties of the import. *)

Definition resolve_supplier (name : string) (d : DB) : Supplier * DB :=
  match find (fun x => String.eqb (lower (supplier_name x)) (lower name))
             (suppliers d) with
  | Some x => (x, d)
  | None =>
      let x := mkSupplier (next_id (map supplier_id (suppliers d)))
                 name None None None in
      (x, with_suppliers (fun l => l ++ [x]) d)
  end.

Definition resolve_item (line : ERPPurchaseOrderLine) (d : DB) : Item * DB :=
  match find (fun i => String.eqb (sku i) (erp_sku line)) (items d) with
  | Some i => (i, d)
  | None =>
      let i := mkItem (next_id (map item_id (items d))) (erp_sku line)
                 (erp_name line) (erp_description line) "Stk"%string 0%Z in
      (i, with_items (fun l => l ++ [i]) d)
  end.

Definition built_line (item : Item) (line : ERPPurchaseOrderLine)
    : PurchaseOrderLine :=
  mkPurchaseOrderLine 0 (Some (item_id item)) (erp_description line)
    (erp_ordered_quantity line) 0 (erp_unit_price line).

Fixpoint build_lines (lines : list ERPPurchaseOrderLine) (d : DB)
    : list PurchaseOrderLine * DB :=
  match lines with
  | [] => ([], d)
  | line :: rest =>
      let (item, d1) := resolve_item line d in
      let (ls, d2) := build_lines rest d1 in
      (built_line item line :: ls, d2)
  end.

Definition append_lines (ls : list PurchaseOrderLine) (o : PurchaseOrder)
    : PurchaseOrder :=
  set_lines (po_lines o ++ ls) o.

(** The contents of the database: the line ids, which the engine hands
    out afresh whenever a line set is rebuilt, are blanked. *)
Definition erase_line_ids (o : PurchaseOrder) : PurchaseOrder :=
  set_lines (map (set_line_id 0) (po_lines o)) o.

Definition contents (d : DB) : DB :=
  with_purchase_orders (map erase_line_ids) d.

(** The header and the lines an imported order ends up with. *)
Definition replace_order (supplier : Supplier) (order : ERPPurchaseOrder)
    (ls : list PurchaseOrderLine) (o : PurchaseOrder) : PurchaseOrder :=
  set_lines ls (overwrite_header supplier order o).

(** One imported order, on contents. *)
Definition import_contents (now : Z) (order : ERPPurchaseOrder) (d : DB) : DB :=
  let (supplier, d1) := resolve_supplier (erp_supplier_name order) d in
  let (ls, d2) := build_lines (erp_lines order) d1 in
  match find_order (erp_order_number order) (purchase_orders d) with
  | None =>
      with_purchase_orders
        (fun os => os ++ [mkPurchaseOrder (next_id (map po_id os))
                            (erp_order_number order) (Some (supplier_id supplier))
                            (erp_status order) (erp_expected_date order)
                            (erp_notes order) now ls]) d2
  | Some existing =>
      with_purchase_orders
        (map (on_order_with_id (po_id existing) (replace_order supplier order ls)))
        d2
  end.

Definition count_order (order : ERPPurchaseOrder) (d : DB) (r : ERPImportResult)
    : ERPImportResult :=
  match find_order (erp_order_number order) (purchase_orders d) with
  | None => count_imported r
  | Some _ => count_updated r
  end.

Definition import_all_contents (now : Z) (payload : list ERPPurchaseOrder)
    (d : DB) : DB :=
  fold_left (fun d order => import_contents now order d) payload d.

Fixpoint count_all (now : Z) (payload : list ERPPurchaseOrder) (d : DB)
    (r : ERPImportResult) : ERPImportResult :=
  match payload with
  | [] => r
  | order :: rest =>
      count_all now rest (import_contents now order d) (count_order order d r)
  end.

(** Replacement of the first element that satisfies a test. *)
Fixpoint update_first {A} (p : A -> bool) (f : A -> A) (l : list A) : list A :=
  match l with
  | [] => []
  | x :: rest => if p x then f x :: rest else x :: update_first p f rest
  end.

Definition has_number (number : string) (o : PurchaseOrder) : bool :=
  String.eqb (order_number o) number.

(** The header and lines an incoming order gets in database [d]. *)
Definition target (order : ERPPurchaseOrder) (d : DB)
    : PurchaseOrder -> PurchaseOrder :=
  replace_order (fst (resolve_supplier (erp_supplier_name order) d)) order
    (fst (build_lines (erp_lines order) d)).

Definition settle (d : DB) (os : list PurchaseOrder) (order : ERPPurchaseOrder)
    : list PurchaseOrder :=
  update_first (has_number (erp_order_number order)) (target order d) os.

(** Supplier and items of an incoming order are in the database. *)
Definition known (order : ERPPurchaseOrder) (d : DB) : Prop :=
  snd (resolve_supplier (erp_supplier_name order) d) = d /\
  snd (build_lines (erp_lines order) d) = d.

Definition same_number (o o' : ERPPurchaseOrder) : bool :=
  String.eqb (erp_order_number o') (erp_order_number o).

(** Every incoming order that is the last of its number in the payload
    is in the database as it would be written. *)
Fixpoint last_writers_settled (d : DB) (payload : list ERPPurchaseOrder) : Prop :=
  match payload with
  | [] => True
  | order :: rest =>
      (existsb (same_number order) rest = true \/
       exists ex, find_order (erp_order_number order) (purchase_orders d) = Some ex /\
                  target order d ex = ex) /\
      last_writers_settled d rest
  end.

(** The catalog only grows: suppliers and items are appended. *)
Definition extends (d d' : DB) : Prop :=
  (exists es, suppliers d' = suppliers d ++ es) /\
  (exists ei, items d' = items d ++ ei).

(** An item as [get_or_create_item_by_sku] creates it for a line. *)
Definition created_for (line : ERPPurchaseOrderLine) (item : Item) : Prop :=
  sku item = erp_sku line /\ item_name item = erp_name line /\
  item_description item = erp_description line /\
  unit_of_measure item = "Stk"%string /\ reorder_level item = 0%Z.

(** A line as the import writes it for an incoming line: nothing
    received, the incoming description, quantity and price, and an item
    with the incoming SKU that was in the database before or was created
    for a line of the payload with that SKU, unknown until then. *)
Definition imported_line (before after : list Item)
    (payload_lines : list ERPPurchaseOrderLine)
    (line : ERPPurchaseOrderLine) (l : PurchaseOrderLine) : Prop :=
  received_quantity l = 0 /\
  line_description l = erp_description line /\
  ordered_quantity l = erp_ordered_quantity line /\
  unit_price l = erp_unit_price line /\
  exists item,
    In item after /\ line_item_id l = Some (item_id item) /\
    sku item = erp_sku line /\
    (In item before \/
     (find (fun i => String.eqb (sku i) (erp_sku line)) before = None /\
      exists line0, In line0 payload_lines /\ created_for line0 item)).

Definition sample_payload : list ERPPurchaseOrder :=
  [mkERPPurchaseOrder "PO-1" "ACME" (Some 20261224%Z) COMPLETED (Some "changed")
     [mkERPPurchaseOrderLine "A1" "Bolt M8" 7 (Some (1 # 2)) None;
      mkERPPurchaseOrderLine "B7" "Nut" 3 None (Some "hex")];
   mkERPPurchaseOrder "PO-2" "Nordwerk" None RELEASED None
     [mkERPPurchaseOrderLine "B7" "Nut, other name" 12 None None]].

(** An engine that refuses every write of an order numbered "PO-9"
    (its number is taken, say, by a writer the session does not see),
    and a payload whose first order has that number. *)
Definition refuses_po9 : DB -> bool :=
  fun d => negb (existsb (has_number "PO-9") (purchase_orders d)).

Definition refused_payload : list ERPPurchaseOrder :=
  [mkERPPurchaseOrder "PO-9" "Nordwerk" None RELEASED None
     [mkERPPurchaseOrderLine "B7" "Nut" 3 None None];
   mkERPPurchaseOrder "PO-2" "Acme" None RELEASED None
     [mkERPPurchaseOrderLine "A1" "Bolt" 12 None None]].

(** An engine that refuses to write order "PO-1" as completed. *)
Definition refuses_completed_po1 : DB -> bool :=
  fun d =>
    negb (existsb (fun o => (has_number "PO-1" o &&
                             match po_status o with COMPLETED => true | _ => false end)%bool)
            (purchase_orders d)).

(** A database with one location and nothing else, and the incoming
    order of the import scenario of the specification. *)
Definition fresh_db : DB :=
  mkDB [] [mkStorageLocation 1 "Hauptlager" None] [] [] [] [].

Definition scenario_order : ERPPurchaseOrder :=
  mkERPPurchaseOrder "PO-1" "Acme" None RELEASED None
    [mkERPPurchaseOrderLine "A1" "Bolt" 10 None None].

(** ** The writes of a ledger call

    The row a call adds for a pair without stock level, and the
    working state a successful call leaves: the quantity assigned to
    the row of the pair and the transaction appended. *)
Definition new_stock_row (d : DB) (item location : Z) : StockLevel :=
  mkStockLevel (next_id (map sl_id (stock_levels d))) item location 0.

Definition with_new_stock_row (d : DB) (item location : Z) : DB :=
  with_stock_levels (fun r => r ++ [new_stock_row d item location]) d.

Definition ledger_entry (now : Z) (tin : InventoryTransactionCreate) (d : DB)
    : InventoryTransaction :=
  mkInventoryTransaction (next_id (map tx_id (transactions d)))
    (in_item_id tin) (in_location_id tin) (in_quantity tin)
    (in_transaction_type tin) (in_reference tin) (in_note tin) now.

Definition ledger_write (now : Z) (tin : InventoryTransactionCreate) (d : DB)
    (sl : StockLevel) (q : Q) : DB :=
  with_transactions (fun l => l ++ [ledger_entry now tin d])
    (with_stock_levels (map (assign_quantity (sl_id sl) q)) d).

Definition nonnegative (sl : StockLevel) : Prop := 0 <= sl_quantity sl.

Definition stock_pair (sl : StockLevel) : Z * Z := (sl_item_id sl, sl_location_id sl).

(** A session with nothing pending, as [get_db] hands it out. *)
Definition clean (s : Session) : Prop := committed s = working s.

(** ** Listings and the dashboard ([crud.py], lines 31-32, 119-125 and 189-239)

    [ORDER BY] is an insertion sort on the sort key; rows with equal
    keys keep their order. *)
Fixpoint insert_by {A} (leb : A -> A -> bool) (x : A) (l : list A) : list A :=
  match l with
  | [] => [x]
  | y :: rest => if leb x y then x :: l else y :: insert_by leb x rest
  end.

Definition sort_by {A} (leb : A -> A -> bool) (l : list A) : list A :=
  fold_right (insert_by leb) [] l.

Definition list_items (d : DB) : list Item :=
  sort_by (fun a b => String.leb (item_name a) (item_name b)) (items d).

Definition list_stock_levels (d : DB) : list StockLevel :=
  sort_by (fun a b => (sl_id a <=? sl_id b)%Z) (stock_levels d).

(** Newest first, at most [limit] rows. *)
Definition list_transactions (d : DB) (limit : nat) : list InventoryTransaction :=
  firstn limit
    (sort_by (fun a b => (tx_created_at b <=? tx_created_at a)%Z) (transactions d)).

Definition list_purchase_orders (d : DB) : list PurchaseOrder :=
  sort_by (fun a b => (po_created_at b <=? po_created_at a)%Z) (purchase_orders d).

Record LowStockEntry := mkLowStockEntry {
  low_item_id : Z;
  low_sku : string;
  low_name : string;
  low_quantity : Q;
  low_reorder_level : Z }.

Record DashboardMetrics := mkDashboardMetrics {
  total_items : Z;
  total_quantity : Q;
  open_orders : Z;
  low_stock : list LowStockEntry;
  recent_transactions : list InventoryTransaction }.

(** The HAVING clause: the summed stock of the item, 0 without rows,
    is at most its reorder level. *)
Definition is_low (d : DB) (i : Item) : bool :=
  Qle_bool (item_on_hand d i) (inject_Z (reorder_level i)).

Definition low_stock_entry (d : DB) (i : Item) : LowStockEntry :=
  mkLowStockEntry (item_id i) (sku i) (item_name i) (item_on_hand d i)
    (reorder_level i).

Definition not_completed (o : PurchaseOrder) : bool :=
  match po_status o with COMPLETED => false | _ => true end.

Definition get_inventory_overview (d : DB) : DashboardMetrics :=
  mkDashboardMetrics
    (Z.of_nat (List.length (items d)))
    (Qsum (map sl_quantity (stock_levels d)))
    (Z.of_nat (List.length (filter not_completed (purchase_orders d))))
    (map (low_stock_entry d)
       (sort_by (fun a b => String.leb (item_name a) (item_name b))
          (filter (is_low d) (items d))))
    (list_transactions d 10).

(** ** Open orders of the planning page ([web.py], lines 56-84) *)

Record OpenOrder := mkOpenOrder {
  open_order : PurchaseOrder;
  remaining : Q;
  outstanding_lines : Z }.

(** The inner loop, with its two accumulators: the open quantity of
    the lines with something outstanding, and their number. *)
Fixpoint count_outstanding (ls : list PurchaseOrderLine) (remaining : Q)
    (outstanding_lines : Z) : Q * Z :=
  match ls with
  | [] => (remaining, outstanding_lines)
  | l :: rest =>
      if negb (Qle_bool (open_quantity l) 0)
      then count_outstanding rest (remaining + open_quantity l)
             (outstanding_lines + 1)%Z
      else count_outstanding rest remaining outstanding_lines
  end.

Definition outstanding (ls : list PurchaseOrderLine) : Q * Z :=
  count_outstanding ls 0 0%Z.

Definition planning_entry (o : PurchaseOrder) : option OpenOrder :=
  match po_status o with
  | CANCELLED | COMPLETED => None
  | DRAFT | RELEASED =>
      let (r, n) := outstanding (po_lines o) in
      if ((n =? 0)%Z && Qle_bool r 0)%bool then None
      else Some (mkOpenOrder o r n)
  end.

Fixpoint keep_some {A} (l : list (option A)) : list A :=
  match l with
  | [] => []
  | Some a :: rest => a :: keep_some rest
  | None :: rest => keep_some rest
  end.

(** The sort key [(expected_date or date.max, order_number)], dates
    being numbers of the form yyyymmdd. *)
Definition date_max : Z := 99991231%Z.

Definition due_date (e : OpenOrder) : Z :=
  or_default (expected_date (open_order e)) date_max.

Definition due_before (a b : OpenOrder) : bool :=
  if (due_date a =? due_date b)%Z
  then String.leb (order_number (open_order a)) (order_number (open_order b))
  else (due_date a <? due_date b)%Z.

Definition open_orders_data (d : DB) : list OpenOrder :=
  sort_by due_before (keep_some (map planning_entry (list_purchase_orders d))).

(** ** Inventory snapshot ([erp.py], lines 89-105) *)

Record InventorySnapshotEntry := mkInventorySnapshotEntry {
  entry_sku : string;
  entry_item_name : string;
  entry_location : string;
  entry_quantity : Q;
  entry_unit_of_measure : string }.

(** [level.item] and [level.location] are the rows the foreign keys
    name; without such a row the attribute access fails ([None]). *)
Definition snapshot_entry (d : DB) (level : StockLevel)
    : option InventorySnapshotEntry :=
  match find_item d (sl_item_id level), find_location d (sl_location_id level) with
  | Some item, Some location =>
      Some (mkInventorySnapshotEntry (sku item) (item_name item)
              (location_name location) (sl_quantity level) (unit_of_measure item))
  | _, _ => None
  end.

Fixpoint all_some {A} (l : list (option A)) : option (list A) :=
  match l with
  | [] => Some []
  | Some a :: rest =>
      match all_some rest with Some r => Some (a :: r) | None => None end
  | None :: _ => None
  end.

Record InventorySnapshot := mkInventorySnapshot {
  generated_at : Z;
  warehouse : string;
  entries : list InventorySnapshotEntry }.

(** [now] is the reading of [datetime.utcnow()]. *)
Definition build_inventory_snapshot (now : Z) (d : DB) : option InventorySnapshot :=
  match all_some (map (snapshot_entry d) (list_stock_levels d)) with
  | Some es => Some (mkInventorySnapshot now "Maschinenbau-Zentrallager" es)
  | None => None
  end.

(** Every stock level names an item and a location of the database. *)
Definition references_resolve (d : DB) : Prop :=
  forall sl, In sl (stock_levels d) ->
    find_item d (sl_item_id sl) <> None /\
    find_location d (sl_location_id sl) <> None.

(** ** What an import leaves in place *)

(** The incoming order has a number that no order of [d] has. *)
Definition is_new (d : DB) (order : ERPPurchaseOrder) : bool :=
  match find_order (erp_order_number order) (purchase_orders d) with
  | None => true
  | Some _ => false
  end.

(** The columns of an order that the import never assigns. *)
Definition order_key (o : PurchaseOrder) : Z * string * Z :=
  (po_id o, order_number o, po_created_at o).

(** ** The import under any engine *)

(** An operation that commits nothing and that fails only by a refused
    write, which rolls the transaction back. *)
Definition pending_only {A} (m : M A) : Prop :=
  forall s,
    committed (snd (m s)) = committed s /\
    match fst (m s) with
    | Ok _ => True
    | Raise e => e = IntegrityError /\ working (snd (m s)) = committed s
    end.

(** An operation that ends with nothing pending and never raises a
    [CRUDException]. *)
Definition settles {A} (m : M A) : Prop :=
  forall s,
    clean (snd (m s)) /\ forall x, fst (m s) <> Raise (CRUDException x).

(** The unique constraints and primary keys of [models.py] on the
    tables the import writes. *)
Record unique_keys (d : DB) : Prop := mkUniqueKeys {
  unique_skus : NoDup (map sku (items d));
  unique_item_ids : NoDup (map item_id (items d));
  unique_supplier_names : NoDup (map supplier_name (suppliers d));
  unique_supplier_ids : NoDup (map supplier_id (suppliers d));
  unique_order_numbers : NoDup (map order_number (purchase_orders d));
  unique_order_ids : NoDup (map po_id (purchase_orders d)) }.

(** * Properties *)

(** ** Lists and rationals *)

Lemma find_app_first {A} (p : A -> bool) (l1 l2 : list A) :
  find p (l1 ++ l2) =
  match find p l1 with Some x => Some x | None => find p l2 end.
Proof.
  induction l1 as [|a l1 IH]; simpl; [reflexivity|].
  destruct (p a); [reflexivity | exact IH].
Qed.

Lemma find_map_same {A} (p : A -> bool) (f : A -> A) (l : list A) :
  (forall x, p (f x) = p x) ->
  find p (map f l) = option_map f (find p l).
Proof.
  intros Hp. induction l as [|a l IH]; simpl; [reflexivity|].
  rewrite Hp. destruct (p a); [reflexivity | exact IH].
Qed.

Lemma Qle_bool_false (x y : Q) : Qle_bool x y = false <-> y < x.
Proof.
  split; intros H.
  - apply Qnot_le_lt. intros Hle. apply Qle_bool_iff in Hle. congruence.
  - destruct (Qle_bool x y) eqn:E; [|reflexivity].
    apply Qle_bool_iff in E. apply Qle_not_lt in E. contradiction.
Qed.

Lemma Qeq_bool_false (x y : Q) : Qeq_bool x y = false <-> ~ x == y.
Proof.
  split; intros H.
  - intros He. apply Qeq_bool_iff in He. congruence.
  - destruct (Qeq_bool x y) eqn:E; [|reflexivity].
    apply Qeq_bool_iff in E. contradiction.
Qed.

(** ** Stock ledger *)

Lemma find_item_id d id item : find_item d id = Some item -> item_id item = id.
Proof.
  unfold find_item. intros H. apply find_some in H. destruct H as [_ H].
  now apply Z.eqb_eq in H.
Qed.

Lemma find_location_id d id l :
  find_location d id = Some l -> location_id l = id.
Proof.
  unfold find_location. intros H. apply find_some in H. destruct H as [_ H].
  now apply Z.eqb_eq in H.
Qed.

Lemma stock_quantity_assigned d f i l sl q :
  find_stock_level d i l = Some sl ->
  stock_quantity
    (with_transactions f (with_stock_levels (map (assign_quantity (sl_id sl) q)) d))
    i l = q.
Proof.
  intros H. unfold stock_quantity, find_stock_level in *. simpl.
  rewrite find_map_same.
  - rewrite H. simpl. unfold assign_quantity. now rewrite Z.eqb_refl.
  - intros x. unfold assign_quantity. destruct (sl_id x =? sl_id sl)%Z; reflexivity.
Qed.

Lemma stock_quantity_created d f i l id q :
  find_stock_level d i l = None ->
  stock_quantity
    (with_transactions f
       (with_stock_levels (map (assign_quantity id q))
          (with_stock_levels (fun r => r ++ [mkStockLevel id i l 0]) d)))
    i l = q.
Proof.
  intros H. unfold stock_quantity, find_stock_level in *. simpl.
  rewrite find_map_same.
  - rewrite find_app_first, H. simpl. rewrite !Z.eqb_refl. simpl.
    unfold assign_quantity. simpl. now rewrite Z.eqb_refl.
  - intros x. unfold assign_quantity. destruct (sl_id x =? id)%Z; reflexivity.
Qed.

Lemma stock_quantity_row_added d i l id :
  find_stock_level d i l = None ->
  stock_quantity (with_stock_levels (fun r => r ++ [mkStockLevel id i l 0]) d) i l
  = stock_quantity d i l.
Proof.
  intros H. unfold stock_quantity, find_stock_level in *. simpl.
  rewrite find_app_first, H. simpl. now rewrite !Z.eqb_refl.
Qed.

Lemma register_outcome integrity_ok now tin s item location r s' :
  find_item (working s) (in_item_id tin) = Some item ->
  find_location (working s) (in_location_id tin) = Some location ->
  register_inventory_transaction integrity_ok now tin s = (r, s') ->
  let i := in_item_id tin in
  let l := in_location_id tin in
  let prior := stock_quantity (working s) i l in
  (r = Raise IntegrityError /\ exists d, integrity_ok d = false) \/
  (exists m, r = Raise (CRUDException m) /\ error_kind m = InvalidInput /\
     rejected tin prior /\
     stock_quantity (working s') i l = prior /\
     transactions (working s') = transactions (working s) /\
     committed s' = committed s) \/
  (exists tx, r = Ok tx /\
     applied tin prior (stock_quantity (working s') i l) /\
     tx_quantity tx = in_quantity tin /\
     tx_transaction_type tx = in_transaction_type tin /\
     transactions (working s') = transactions (working s) ++ [tx] /\
     committed s' = working s').
Proof.
  intros Hi Hl. pose proof (find_item_id _ _ _ Hi) as Ei.
  pose proof (find_location_id _ _ _ Hl) as El.
  unfold register_inventory_transaction. step_session.
  rewrite Hi, Hl, Ei, El. unfold rejected, applied.
  destruct (Qeq_bool (in_quantity tin) 0) eqn:Hz.
  { intros H; inversion H; subst. right; left.
    exists QuantityIsZero. apply Qeq_bool_iff in Hz. simpl. tauto. }
  apply Qeq_bool_false in Hz.
  change (stock_quantity (working s) (in_item_id tin) (in_location_id tin))
    with (match find_stock_level (working s) (in_item_id tin) (in_location_id tin)
          with Some sl => sl_quantity sl | None => 0 end).
  destruct (find_stock_level (working s) (in_item_id tin) (in_location_id tin))
    as [sl|] eqn:Hsl.
  - (* the pair has a row *)
    destruct (in_transaction_type tin) eqn:Ht.
    + destruct (Qle_bool (in_quantity tin) 0) eqn:Hq.
      { intros H; inversion H; subst. right; left.
        exists ReceiptNotPositive. apply Qle_bool_iff in Hq.
        unfold stock_quantity. rewrite Hsl. simpl. tauto. }
      apply Qle_bool_false in Hq. simpl.
      match goal with |- context [integrity_ok ?d] =>
        destruct (integrity_ok d) eqn:Hc end;
        intros H; inversion H; subst; simpl.
      * right; right. eexists. split; [reflexivity|].
        rewrite (stock_quantity_assigned _ _ _ _ _ _ Hsl). simpl. tauto.
      * left. split; [reflexivity|]. eauto.
    + destruct (Qle_bool (in_quantity tin) 0) eqn:Hq.
      { intros H; inversion H; subst. right; left.
        exists ShipmentNotPositive. apply Qle_bool_iff in Hq.
        unfold stock_quantity. rewrite Hsl. simpl. tauto. }
      apply Qle_bool_false in Hq.
      destruct (Qle_bool 0 (sl_quantity sl - in_quantity tin)) eqn:Hn; simpl.
      2:{ intros H; inversion H; subst. right; left.
          exists StockWouldBeNegative. apply Qle_bool_false in Hn.
          unfold stock_quantity. rewrite Hsl. simpl. tauto. }
      apply Qle_bool_iff in Hn.
      match goal with |- context [integrity_ok ?d] =>
        destruct (integrity_ok d) eqn:Hc end;
        intros H; inversion H; subst; simpl.
      * right; right. eexists. split; [reflexivity|].
        rewrite (stock_quantity_assigned _ _ _ _ _ _ Hsl). simpl. tauto.
      * left. split; [reflexivity|]. eauto.
    + destruct (Qle_bool 0 (sl_quantity sl + in_quantity tin)) eqn:Hn; simpl.
      2:{ intros H; inversion H; subst. right; left.
          exists StockWouldBeNegative. apply Qle_bool_false in Hn.
          unfold stock_quantity. rewrite Hsl. simpl. tauto. }
      apply Qle_bool_iff in Hn.
      match goal with |- context [integrity_ok ?d] =>
        destruct (integrity_ok d) eqn:Hc end;
        intros H; inversion H; subst; simpl.
      * right; right. eexists. split; [reflexivity|].
        rewrite (stock_quantity_assigned _ _ _ _ _ _ Hsl). simpl. tauto.
      * left. split; [reflexivity|]. eauto.
  - (* the pair gets its row, at quantity 0 *)
    match goal with |- context [integrity_ok ?d] =>
      destruct (integrity_ok d) eqn:Hf end.
    2:{ intros H; inversion H; subst. left. split; [reflexivity|]. eauto. }
    pose proof (stock_quantity_row_added (working s) _ _
      (next_id (map sl_id (stock_levels (working s)))) Hsl) as Hsame.
    unfold stock_quantity at 2 in Hsame. rewrite Hsl in Hsame.
    destruct (in_transaction_type tin) eqn:Ht; simpl.
    + destruct (Qle_bool (in_quantity tin) 0) eqn:Hq.
      { intros H; inversion H; subst. right; left.
        exists ReceiptNotPositive. apply Qle_bool_iff in Hq. simpl.
        rewrite Hsame. tauto. }
      apply Qle_bool_false in Hq. simpl.
      match goal with |- context [integrity_ok ?d] =>
        destruct (integrity_ok d) eqn:Hc end;
        intros H; inversion H; subst; simpl.
      * right; right. eexists. split; [reflexivity|].
        rewrite (stock_quantity_created _ _ _ _ _ _ Hsl). simpl. tauto.
      * left. split; [reflexivity|]. eauto.
    + destruct (Qle_bool (in_quantity tin) 0) eqn:Hq.
      { intros H; inversion H; subst. right; left.
        exists ShipmentNotPositive. apply Qle_bool_iff in Hq. simpl.
        rewrite Hsame. tauto. }
      apply Qle_bool_false in Hq.
      destruct (Qle_bool 0 (0 - in_quantity tin)) eqn:Hn; simpl.
      2:{ intros H; inversion H; subst. right; left.
          exists StockWouldBeNegative. apply Qle_bool_false in Hn. simpl.
          rewrite Hsame. tauto. }
      apply Qle_bool_iff in Hn.
      match goal with |- context [integrity_ok ?d] =>
        destruct (integrity_ok d) eqn:Hc end;
        intros H; inversion H; subst; simpl.
      * right; right. eexists. split; [reflexivity|].
        rewrite (stock_quantity_created _ _ _ _ _ _ Hsl). simpl. tauto.
      * left. split; [reflexivity|]. eauto.
    + destruct (Qle_bool 0 (0 + in_quantity tin)) eqn:Hn; simpl.
      2:{ intros H; inversion H; subst. right; left.
          exists StockWouldBeNegative. apply Qle_bool_false in Hn. simpl.
          rewrite Hsame. tauto. }
      apply Qle_bool_iff in Hn.
      match goal with |- context [integrity_ok ?d] =>
        destruct (integrity_ok d) eqn:Hc end;
        intros H; inversion H; subst; simpl.
      * right; right. eexists. split; [reflexivity|].
        rewrite (stock_quantity_created _ _ _ _ _ _ Hsl). simpl. tauto.
      * left. split; [reflexivity|]. eauto.
Qed.

Lemma register_zero_quantity integrity_ok now tin s item location :
  find_item (working s) (in_item_id tin) = Some item ->
  find_location (working s) (in_location_id tin) = Some location ->
  in_quantity tin == 0 ->
  register_inventory_transaction integrity_ok now tin s
  = (Raise (CRUDException QuantityIsZero), s).
Proof.
  intros Hi Hl Hz. unfold register_inventory_transaction. step_session.
  rewrite Hi, Hl. apply Qeq_bool_iff in Hz. now rewrite Hz.
Qed.

Lemma register_success_resolves integrity_ok now tin s tx s' :
  register_inventory_transaction integrity_ok now tin s = (Ok tx, s') ->
  exists item location,
    find_item (working s) (in_item_id tin) = Some item /\
    find_location (working s) (in_location_id tin) = Some location.
Proof.
  unfold register_inventory_transaction. step_session.
  destruct (find_item (working s) (in_item_id tin)) as [item|];
    [|discriminate].
  destruct (find_location (working s) (in_location_id tin)) as [location|];
    [|discriminate].
  intros _. eauto.
Qed.

(** C8: registering a transaction for an item id or a location id that
    is not in the database raises the "not found" error, and the session
    is left as it was: no stock level and no transaction is created. *)
Theorem register_unknown_reference_not_found :
  forall integrity_ok now tin s,
    find_item (working s) (in_item_id tin) = None \/
    find_location (working s) (in_location_id tin) = None ->
    let out := register_inventory_transaction integrity_ok now tin s in
    fst out = Raise (CRUDException ItemOrLocationNotFound) /\
    error_kind ItemOrLocationNotFound = NotFound /\
    stock_levels (working (snd out)) = stock_levels (working s) /\
    transactions (working (snd out)) = transactions (working s) /\
    snd out = s.
Proof.
  intros ok now tin s H. unfold register_inventory_transaction. step_session.
  destruct H as [H|H]; rewrite H; simpl.
  - tauto.
  - destruct (find_item (working s) (in_item_id tin)); simpl; tauto.
Qed.

Lemma register_unknown_reference_witness :
  let out := register_inventory_transaction accept_all 0
               (movement 99 1 2 RECEIPT) sample_session in
  fst out = Raise (CRUDException ItemOrLocationNotFound) /\
  error_kind ItemOrLocationNotFound = NotFound /\
  stock_levels (working (snd out)) = stock_levels (working sample_session) /\
  transactions (working (snd out)) = transactions (working sample_session) /\
  snd out = sample_session.
Proof.
  apply (register_unknown_reference_not_found accept_all 0
           (movement 99 1 2 RECEIPT) sample_session).
  left. reflexivity.
Defined.

(** C4: on a resolved item and location, with the engine accepting the
    writes, a SHIPMENT of q > 0 out of a prior stock of at least q leaves
    prior - q, appends one transaction and commits; a SHIPMENT of more
    than the prior stock raises an invalid-input error and leaves the
    stock of the pair, the ledger and the committed state as they were. *)
Theorem shipment_subtracts_or_is_rejected :
  forall integrity_ok now tin s item location,
    (forall d, integrity_ok d = true) ->
    find_item (working s) (in_item_id tin) = Some item ->
    find_location (working s) (in_location_id tin) = Some location ->
    in_transaction_type tin = SHIPMENT ->
    let i := in_item_id tin in
    let l := in_location_id tin in
    let q := in_quantity tin in
    let prior := stock_quantity (working s) i l in
    let out := register_inventory_transaction integrity_ok now tin s in
    (0 < q -> q <= prior ->
       exists tx, fst out = Ok tx /\
         stock_quantity (working (snd out)) i l = prior - q /\
         transactions (working (snd out)) = transactions (working s) ++ [tx] /\
         committed (snd out) = working (snd out)) /\
    (prior < q ->
       exists m, fst out = Raise (CRUDException m) /\
         error_kind m = InvalidInput /\
         stock_quantity (working (snd out)) i l = prior /\
         transactions (working (snd out)) = transactions (working s) /\
         committed (snd out) = committed s).
Proof.
  intros ok now tin s item location Hok Hi Hl Ht. cbv zeta.
  destruct (register_inventory_transaction ok now tin s) as [r s'] eqn:E.
  apply (register_outcome _ _ _ _ _ _ _ _ Hi Hl) in E. cbv zeta in E.
  unfold rejected, applied in E. rewrite Ht in E. simpl.
  destruct E as [[_ [d Hd]] | [(m & -> & Hk & Hr & Hs & Htx & Hc)
                              | (tx & -> & (Hz & Hq & Hn & Ha) & _ & _ & Htx & Hc)]].
  - rewrite Hok in Hd. discriminate.
  - split.
    + intros Hpos Hle. exfalso. destruct Hr as [Hr | [Hr | Hr]]; lra.
    + intros _. exists m. tauto.
  - split.
    + intros _ _. exists tx. tauto.
    + intros Hlt. exfalso. lra.
Qed.

Lemma shipment_witness :
  let out := register_inventory_transaction accept_all 0
               (movement 5 1 3 SHIPMENT) sample_session in
  exists tx, fst out = Ok tx /\
    stock_quantity (working (snd out)) 5 1 = 3 - 3 /\
    transactions (working (snd out)) = transactions sample_db ++ [tx] /\
    committed (snd out) = working (snd out).
Proof.
  refine (proj1 (shipment_subtracts_or_is_rejected accept_all 0
                   (movement 5 1 3 SHIPMENT) sample_session
                   (mkItem 5 "A1" "Bolt" None "Stk" 20)
                   (mkStorageLocation 1 "Hauptlager" None) _ _ _ _) _ _);
    try reflexivity; vm_compute; discriminate.
Defined.

(** C5: on a resolved item and location, with the engine accepting the
    writes, an ADJUSTMENT of a nonzero d with prior + d >= 0 leaves
    prior + d; an ADJUSTMENT with prior + d < 0 raises an invalid-input
    error and leaves the stock of the pair, the ledger and the committed
    state as they were; a quantity of 0, whatever the type, raises the
    invalid-input error "quantity must not be 0" and leaves the session
    as it was. *)
Theorem adjustment_adds_and_zero_is_rejected :
  forall integrity_ok now tin s item location,
    (forall d, integrity_ok d = true) ->
    find_item (working s) (in_item_id tin) = Some item ->
    find_location (working s) (in_location_id tin) = Some location ->
    let i := in_item_id tin in
    let l := in_location_id tin in
    let d := in_quantity tin in
    let prior := stock_quantity (working s) i l in
    let out := register_inventory_transaction integrity_ok now tin s in
    (in_transaction_type tin = ADJUSTMENT -> ~ d == 0 -> 0 <= prior + d ->
       exists tx, fst out = Ok tx /\
         stock_quantity (working (snd out)) i l = prior + d /\
         transactions (working (snd out)) = transactions (working s) ++ [tx] /\
         committed (snd out) = working (snd out)) /\
    (in_transaction_type tin = ADJUSTMENT -> prior + d < 0 ->
       exists m, fst out = Raise (CRUDException m) /\
         error_kind m = InvalidInput /\
         stock_quantity (working (snd out)) i l = prior /\
         transactions (working (snd out)) = transactions (working s) /\
         committed (snd out) = committed s) /\
    (d == 0 ->
       fst out = Raise (CRUDException QuantityIsZero) /\
       error_kind QuantityIsZero = InvalidInput /\
       stock_quantity (working (snd out)) i l = prior /\
       List.length (transactions (working (snd out)))
         = List.length (transactions (working s)) /\
       snd out = s).
Proof.
  intros ok now tin s item location Hok Hi Hl. cbv zeta.
  split; [|split].
  - intros Ht Hz Hn.
    destruct (register_inventory_transaction ok now tin s) as [r s'] eqn:E.
    apply (register_outcome _ _ _ _ _ _ _ _ Hi Hl) in E. cbv zeta in E.
    unfold rejected, applied in E. rewrite Ht in E. simpl.
    destruct E as [[_ [d Hd]] | [(m & -> & Hk & Hr & Hs & Htx & Hc)
                                | (tx & -> & (_ & _ & Ha) & _ & _ & Htx & Hc)]].
    + rewrite Hok in Hd. discriminate.
    + exfalso. destruct Hr as [Hr | Hr]; [contradiction | lra].
    + exists tx. tauto.
  - intros Ht Hn.
    destruct (register_inventory_transaction ok now tin s) as [r s'] eqn:E.
    apply (register_outcome _ _ _ _ _ _ _ _ Hi Hl) in E. cbv zeta in E.
    unfold rejected, applied in E. rewrite Ht in E. simpl.
    destruct E as [[_ [d Hd]] | [(m & -> & Hk & Hr & Hs & Htx & Hc)
                                | (tx & -> & (_ & Hp & _) & _)]].
    + rewrite Hok in Hd. discriminate.
    + exists m. tauto.
    + exfalso. lra.
  - intros Hz.
    rewrite (register_zero_quantity ok now tin s item location Hi Hl Hz).
    simpl. tauto.
Qed.

Lemma adjustment_witness :
  let out := register_inventory_transaction accept_all 0
               (movement 5 1 (-2) ADJUSTMENT) sample_session in
  exists tx, fst out = Ok tx /\
    stock_quantity (working (snd out)) 5 1 = 3 + (-2) /\
    transactions (working (snd out)) = transactions sample_db ++ [tx] /\
    committed (snd out) = working (snd out).
Proof.
  refine (proj1 (adjustment_adds_and_zero_is_rejected accept_all 0
                   (movement 5 1 (-2) ADJUSTMENT) sample_session
                   (mkItem 5 "A1" "Bolt" None "Stk" 20)
                   (mkStorageLocation 1 "Hauptlager" None) _ _ _) _ _ _);
    try reflexivity; vm_compute; discriminate.
Defined.

(** C1, as stated, fails: a SHIPMENT of 3 out of a stock of 3 lowers the
    stock by 3, and the transaction it appends stores 3, not -3. *)
Lemma shipment_stores_unsigned_quantity :
  let s := sample_session in
  let out := register_inventory_transaction accept_all 0
               (movement 5 1 3 SHIPMENT) s in
  exists tx, fst out = Ok tx /\
    stock_quantity (working (snd out)) 5 1 - stock_quantity (working s) 5 1 == -3 /\
    tx_quantity tx == 3 /\
    ~ tx_quantity tx
      == stock_quantity (working (snd out)) 5 1 - stock_quantity (working s) 5 1.
Proof.
  cbv zeta. eexists. split; [reflexivity|].
  split; [reflexivity|]. split; [reflexivity|].
  vm_compute. discriminate.
Qed.

(** C1, amended: the transaction appended by a successful call stores
    the input quantity as given, with the input type.  For a RECEIPT
    and an ADJUSTMENT that is the change of the stock level; for a
    SHIPMENT the stock level changes by its negation. *)
Theorem transaction_stores_input_quantity :
  forall integrity_ok now tin s tx s',
    register_inventory_transaction integrity_ok now tin s = (Ok tx, s') ->
    let i := in_item_id tin in
    let l := in_location_id tin in
    let delta := stock_quantity (working s') i l - stock_quantity (working s) i l in
    transactions (working s') = transactions (working s) ++ [tx] /\
    tx_quantity tx = in_quantity tin /\
    tx_transaction_type tx = in_transaction_type tin /\
    match in_transaction_type tin with
    | RECEIPT | ADJUSTMENT => delta == tx_quantity tx
    | SHIPMENT => delta == - tx_quantity tx /\ 0 < tx_quantity tx
    end.
Proof.
  intros ok now tin s tx s' E. cbv zeta.
  destruct (register_success_resolves _ _ _ _ _ _ E) as (item & location & Hi & Hl).
  apply (register_outcome _ _ _ _ _ _ _ _ Hi Hl) in E. cbv zeta in E.
  destruct E as [[E _] | [(m & E & _) | (tx' & E & Ha & Hq & Ht & Htx & _)]];
    try discriminate.
  injection E as <-. unfold applied in Ha. rewrite Hq.
  repeat split; try assumption.
  destruct (in_transaction_type tin); destruct Ha as [_ Ha].
  - destruct Ha as [_ ->]. ring.
  - destruct Ha as [Hp [_ ->]]. split; [ring | exact Hp].
  - destruct Ha as [_ ->]. ring.
Qed.

Lemma transaction_stores_input_quantity_witness :
  let tin := movement 5 1 3 SHIPMENT in
  let out := register_inventory_transaction accept_all 0 tin sample_session in
  exists tx, fst out = Ok tx /\
    tx_quantity tx = 3 /\
    stock_quantity (working (snd out)) 5 1 - stock_quantity sample_db 5 1
      == - tx_quantity tx.
Proof.
  cbv zeta. eexists. split; [reflexivity|].
  pose proof (transaction_stores_input_quantity accept_all 0
                (movement 5 1 3 SHIPMENT) sample_session _ _ eq_refl) as H.
  cbv zeta in H. destruct H as (_ & Hq & _ & Hd & _).
  split; [exact Hq | exact Hd].
Defined.

(** ** Received quantities *)

Lemma update_line_header id f o : same_header o (update_line id f o).
Proof. unfold same_header, update_line, set_lines. simpl. tauto. Qed.

Lemma update_line_lines id q ls :
  Forall2 (fun l l' =>
             same_line_but_received l l' /\
             received_quantity l' =
               if (line_id l =? id)%Z then q else received_quantity l)
    ls (map (fun l => if (line_id l =? id)%Z then set_received q l else l) ls).
Proof.
  induction ls as [|l ls IH]; simpl; constructor; [|exact IH].
  unfold same_line_but_received.
  destruct (line_id l =? id)%Z; simpl; tauto.
Qed.

(** C10: with the engine accepting the write, every received quantity
    of at least 0 is accepted, whatever the ordered quantity of the
    line; the call returns the line with that quantity and commits.  In
    the database every order keeps its header and every line keeps its
    id, item, description, ordered quantity and unit price; the received
    quantity of the line with the given id is the given one and that of
    every other line is unchanged; no other table changes. *)
Theorem received_quantity_is_stored_as_given :
  forall integrity_ok line received s,
    (forall d, integrity_ok d = true) ->
    0 <= received ->
    let out := set_purchase_order_line_received integrity_ok line received s in
    fst out = Ok (set_received received line) /\
    received_quantity (set_received received line) = received /\
    same_line_but_received line (set_received received line) /\
    Forall2 (fun o o' =>
               same_header o o' /\
               Forall2 (fun l l' =>
                          same_line_but_received l l' /\
                          received_quantity l' =
                            if (line_id l =? line_id line)%Z then received
                            else received_quantity l)
                 (po_lines o) (po_lines o'))
      (purchase_orders (working s)) (purchase_orders (working (snd out))) /\
    items (working (snd out)) = items (working s) /\
    suppliers (working (snd out)) = suppliers (working s) /\
    stock_levels (working (snd out)) = stock_levels (working s) /\
    transactions (working (snd out)) = transactions (working s) /\
    committed (snd out) = working (snd out).
Proof.
  intros ok line received s Hok Hr. cbv zeta.
  unfold set_purchase_order_line_received.
  apply Qle_bool_iff in Hr. rewrite Hr. simpl.
  unfold bind, modify, commit, ret. simpl. rewrite Hok. simpl.
  repeat split.
  induction (purchase_orders (working s)) as [|o os IH]; simpl; constructor.
  - split; [apply update_line_header | apply update_line_lines].
  - exact IH.
Qed.

Lemma received_above_ordered_witness :
  let line := mkPurchaseOrderLine 1 (Some 5%Z) None 10 4 None in
  let out := set_purchase_order_line_received accept_all line 25 sample_session in
  ordered_quantity line < 25 /\
  fst out = Ok (set_received 25 line) /\
  received_quantity (set_received 25 line) = 25.
Proof.
  cbv zeta. split; [reflexivity|].
  pose proof (received_quantity_is_stored_as_given accept_all
                (mkPurchaseOrderLine 1 (Some 5%Z) None 10 4 None) 25
                sample_session (fun _ => eq_refl)) as H.
  cbv zeta in H. destruct H as (H1 & H2 & _).
  - vm_compute. discriminate.
  - split; [exact H1 | exact H2].
Defined.

(** ** Suppliers *)

Lemma find_none_iff {A} (p : A -> bool) (l : list A) :
  find p l = None <-> forall x, In x l -> p x = false.
Proof.
  split.
  - intros H x Hx. exact (find_none p l H x Hx).
  - induction l as [|a l IH]; simpl; [reflexivity|].
    intros H. rewrite (H a (or_introl eq_refl)). apply IH.
    intros x Hx. apply H. now right.
Qed.

(** C9: with the engine accepting the writes, [create_supplier] raises
    "supplier exists" exactly when a supplier has literally the same
    name.  So when a supplier exists whose name has the same lower-case
    form as the new one, but none has the new name itself, the creation
    succeeds and appends a new row, while the lookup of the ERP import
    answers an existing row with that lower-case form and adds none. *)
Theorem supplier_names_local_exact_import_caseless :
  forall integrity_ok supplier_in s,
    (forall d, integrity_ok d = true) ->
    let name := sc_name supplier_in in
    (fst (create_supplier integrity_ok supplier_in s)
       = Raise (CRUDException SupplierExists) <->
     exists x, In x (suppliers (working s)) /\ supplier_name x = name) /\
    (forall existing,
       In existing (suppliers (working s)) ->
       lower (supplier_name existing) = lower name ->
       (forall x, In x (suppliers (working s)) -> supplier_name x <> name) ->
       (let out := create_supplier integrity_ok supplier_in s in
        exists row, fst out = Ok row /\ supplier_name row = name /\
          suppliers (working (snd out)) = suppliers (working s) ++ [row] /\
          committed (snd out) = working (snd out)) /\
       (let out := get_or_create_supplier_by_name integrity_ok name s in
        exists row, fst out = Ok row /\ In row (suppliers (working s)) /\
          lower (supplier_name row) = lower name /\ snd out = s)).
Proof.
  intros ok supplier_in s Hok. cbv zeta. split.
  - unfold create_supplier, bind, query, add_supplier, commit, raise, ret. simpl.
    destruct (find (fun x => String.eqb (supplier_name x) (sc_name supplier_in))
                (suppliers (working s))) as [x|] eqn:E; simpl.
    + split; [intros _|reflexivity].
      apply find_some in E. destruct E as [Hx E].
      apply String.eqb_eq in E. eauto.
    + rewrite Hok. simpl. split; [discriminate|].
      intros (x & Hx & Hn). exfalso.
      pose proof (find_none _ _ E x Hx) as F. simpl in F.
      apply String.eqb_neq in F. contradiction.
  - intros existing Hin Hlow Hnew. split.
    + unfold create_supplier, bind, query, add_supplier, commit, raise, ret. simpl.
      assert (E : find (fun x => String.eqb (supplier_name x) (sc_name supplier_in))
                    (suppliers (working s)) = None).
      { apply find_none_iff. intros x Hx. apply String.eqb_neq. now apply Hnew. }
      rewrite E. simpl. rewrite Hok. simpl. eexists. repeat split.
    + unfold get_or_create_supplier_by_name, get_supplier_by_name, bind, query, ret.
      simpl.
      destruct (find (fun x => String.eqb (lower (supplier_name x))
                                  (lower (sc_name supplier_in)))
                  (suppliers (working s))) as [row|] eqn:E.
      * apply find_some in E. destruct E as [Hrow E].
        apply String.eqb_eq in E. exists row. tauto.
      * exfalso. pose proof (find_none _ _ E existing Hin) as F. simpl in F.
        apply String.eqb_neq in F. contradiction.
Qed.

Lemma supplier_names_witness :
  let supplier_in := mkSupplierCreate "ACME" None None None in
  (let out := create_supplier accept_all supplier_in sample_session in
   exists row, fst out = Ok row /\ supplier_name row = "ACME" /\
     suppliers (working (snd out)) = suppliers sample_db ++ [row] /\
     committed (snd out) = working (snd out)) /\
  (let out := get_or_create_supplier_by_name accept_all "ACME" sample_session in
   exists row, fst out = Ok row /\ In row (suppliers sample_db) /\
     lower (supplier_name row) = lower "ACME" /\ snd out = sample_session).
Proof.
  refine (proj2 (supplier_names_local_exact_import_caseless accept_all
                   (mkSupplierCreate "ACME" None None None) sample_session
                   (fun _ => eq_refl))
            (mkSupplier 1 "Acme" None None None) _ _ _).
  - left. reflexivity.
  - reflexivity.
  - intros x [<- | []]. discriminate.
Defined.

(** ** Planning *)

(** C3: every item has a planning suggestion, whose on-hand quantity is
    the stock of the item summed over all locations, whose on-order
    quantity is the summed open purchase-order quantity of the item, and
    whose other fields are: coverage gap = reorder level - on hand,
    shortfall = max(0, coverage gap - on order), suggested order =
    shortfall, needs reorder exactly when shortfall > 0. *)
Theorem planning_suggestion_fields :
  forall d item,
    In item (items d) ->
    exists p, In p (get_planning_overview d) /\
      ps_item_id p = item_id item /\
      ps_reorder_level p = reorder_level item /\
      on_hand p = item_on_hand d item /\
      on_order p = item_on_order d item /\
      coverage_gap p = inject_Z (ps_reorder_level p) - on_hand p /\
      shortfall p = Qmax 0 (coverage_gap p - on_order p) /\
      suggested_order p = shortfall p /\
      (needs_reorder p = true <-> 0 < shortfall p).
Proof.
  intros d item Hin. exists (planning_suggestion d item).
  split; [unfold get_planning_overview; now apply in_map|].
  unfold planning_suggestion. simpl. repeat split.
  - intros H. apply Qle_bool_false. now apply negb_true_iff in H.
  - intros H. apply negb_true_iff. now apply Qle_bool_false.
Qed.

Lemma planning_scenario_witness :
  exists p, In p (get_planning_overview planning_db) /\
    ps_reorder_level p = 20%Z /\ on_hand p == 5 /\ on_order p == 10 /\
    coverage_gap p == 15 /\ shortfall p == 5 /\ suggested_order p == 5 /\
    needs_reorder p = true.
Proof.
  destruct (planning_suggestion_fields planning_db
              (mkItem 5 "A1" "Bolt" None "Stk" 20) (or_introl eq_refl))
    as (p & Hin & _ & Hr & Hh & Ho & Hg & Hs & Hso & Hn).
  exists p. split; [exact Hin|]. split; [exact Hr|].
  assert (E1 : on_hand p == 5) by (rewrite Hh; reflexivity).
  assert (E2 : on_order p == 10) by (rewrite Ho; reflexivity).
  assert (E3 : coverage_gap p == 15) by (rewrite Hg, Hr, E1; reflexivity).
  assert (E4 : shortfall p == 5).
  { rewrite Hs. rewrite (Q.max_r 0 (coverage_gap p - on_order p)).
    - rewrite E3, E2. reflexivity.
    - rewrite E3, E2. vm_compute. discriminate. }
  repeat split; try assumption.
  - rewrite Hso. exact E4.
  - apply Hn. rewrite E4. reflexivity.
Defined.

(** ** ERP import: the operations when no write is refused *)

Section Accepting.

Variable integrity_ok : DB -> bool.
Variable integrity_text : string.
Hypothesis accepts : forall d, integrity_ok d = true.

Lemma flush_accepting s : flush integrity_ok s = (Ok tt, s).
Proof. unfold flush. now rewrite accepts. Qed.

Lemma commit_accepting s :
  commit integrity_ok s = (Ok tt, mkSession (working s) (working s)).
Proof. unfold commit. now rewrite accepts. Qed.

Lemma get_or_create_supplier_accepting name s :
  get_or_create_supplier_by_name integrity_ok name s
  = (Ok (fst (resolve_supplier name (working s))),
     mkSession (committed s) (snd (resolve_supplier name (working s)))).
Proof.
  unfold get_or_create_supplier_by_name, get_supplier_by_name, resolve_supplier.
  unfold bind, query, ret, add_supplier. simpl.
  destruct (find _ (suppliers (working s))); simpl.
  - now destruct s.
  - now rewrite flush_accepting.
Qed.

Lemma get_or_create_item_accepting line s :
  get_or_create_item_by_sku integrity_ok (erp_sku line)
    (Some (mkItemDefaults (Some (erp_name line)) (erp_description line) None None)) s
  = (Ok (fst (resolve_item line (working s))),
     mkSession (committed s) (snd (resolve_item line (working s)))).
Proof.
  unfold get_or_create_item_by_sku, resolve_item.
  unfold bind, query, ret, add_item. simpl.
  destruct (find _ (items (working s))); simpl.
  - now destruct s.
  - now rewrite flush_accepting.
Qed.

Lemma materialize_transient lines : forall o s,
  materialize_lines integrity_ok (Transient o) lines s
  = (Ok (Transient (append_lines (fst (build_lines lines (working s))) o)),
     mkSession (committed s) (snd (build_lines lines (working s)))).
Proof.
  induction lines as [|line rest IH]; intros o s; simpl.
  - unfold ret, append_lines. rewrite app_nil_r. destruct s, o; reflexivity.
  - unfold bind. rewrite get_or_create_item_accepting. simpl.
    unfold ret. rewrite IH. simpl.
    destruct (resolve_item line (working s)) as [item d1]. simpl.
    destruct (build_lines rest d1) as [ls d2]. simpl.
    unfold append_lines, set_lines. simpl. now rewrite <- app_assoc.
Qed.

Lemma with_purchase_orders_twice G F d :
  with_purchase_orders G (with_purchase_orders F d)
  = with_purchase_orders (fun l => G (F l)) d.
Proof. reflexivity. Qed.

Lemma with_purchase_orders_ext F G d :
  F (purchase_orders d) = G (purchase_orders d) ->
  with_purchase_orders F d = with_purchase_orders G d.
Proof. unfold with_purchase_orders. now intros ->. Qed.

Lemma on_order_twice id f g o :
  (forall x, po_id (f x) = po_id x) ->
  on_order_with_id id g (on_order_with_id id f o)
  = on_order_with_id id (fun x => g (f x)) o.
Proof.
  intros Hf. unfold on_order_with_id.
  destruct (po_id o =? id)%Z eqn:E; [|now rewrite E].
  now rewrite Hf, E.
Qed.

Lemma map_on_order_twice id f g os :
  (forall x, po_id (f x) = po_id x) ->
  map (on_order_with_id id g) (map (on_order_with_id id f) os)
  = map (on_order_with_id id (fun x => g (f x))) os.
Proof.
  intros Hf. rewrite map_map. apply map_ext. intros o.
  now apply on_order_twice.
Qed.

Lemma resolve_item_orders F line d :
  resolve_item line (with_purchase_orders F d)
  = (fst (resolve_item line d), with_purchase_orders F (snd (resolve_item line d))).
Proof.
  unfold resolve_item. simpl. destruct (find _ (items d)); reflexivity.
Qed.

Lemma build_lines_orders F lines : forall d,
  build_lines lines (with_purchase_orders F d)
  = (fst (build_lines lines d), with_purchase_orders F (snd (build_lines lines d))).
Proof.
  induction lines as [|line rest IH]; intros d; simpl; [reflexivity|].
  rewrite resolve_item_orders.
  destruct (resolve_item line d) as [item d1]. simpl. rewrite IH.
  destruct (build_lines rest d1) as [ls d2]. reflexivity.
Qed.

Lemma materialize_persistent id lines : forall s,
  exists ls',
    map (set_line_id 0) ls' = fst (build_lines lines (working s)) /\
    materialize_lines integrity_ok (Persistent id) lines s
    = (Ok (Persistent id),
       mkSession (committed s)
         (with_purchase_orders (map (on_order_with_id id (append_lines ls')))
            (snd (build_lines lines (working s))))).
Proof.
  induction lines as [|line rest IH]; intros s; simpl.
  - exists []. split; [reflexivity|]. unfold ret. f_equal.
    destruct s as [c w]. simpl. f_equal. destruct w as [i l su sl t os].
    unfold with_purchase_orders. simpl. f_equal.
    rewrite <- (map_id os) at 1. apply map_ext. intros o.
    unfold on_order_with_id, append_lines, set_lines.
    destruct (po_id o =? id)%Z; [|reflexivity].
    rewrite app_nil_r. now destruct o.
  - unfold bind. rewrite get_or_create_item_accepting. simpl.
    destruct (resolve_item line (working s)) as [item d1] eqn:Er. simpl.
    match goal with |- context [materialize_lines _ _ _ ?s2] =>
      destruct (IH s2) as (ls2 & He & Hm); rewrite Hm; clear Hm end.
    simpl in *. rewrite build_lines_orders in He |- *. simpl in *.
    destruct (build_lines rest d1) as [ls d2] eqn:Eb. simpl in *.
    eexists (set_line_id _ (built_line item line) :: ls2).
    split.
    + simpl. rewrite He. reflexivity.
    + f_equal. f_equal. rewrite with_purchase_orders_twice.
      apply with_purchase_orders_ext.
      change (fun o : PurchaseOrder => set_lines (po_lines o ++ [?l]) o)
        with (append_lines [l]).
      rewrite map_on_order_twice by reflexivity.
      apply map_ext. intros o. unfold on_order_with_id.
      destruct (po_id o =? id)%Z; [|reflexivity].
      unfold append_lines, set_lines. simpl. now rewrite <- app_assoc.
Qed.

Lemma resolve_supplier_orders F name d :
  resolve_supplier name (with_purchase_orders F d)
  = (fst (resolve_supplier name d),
     with_purchase_orders F (snd (resolve_supplier name d))).
Proof.
  unfold resolve_supplier. simpl. destruct (find _ (suppliers d)); reflexivity.
Qed.

Lemma resolve_supplier_keeps_orders name d :
  purchase_orders (snd (resolve_supplier name d)) = purchase_orders d.
Proof.
  unfold resolve_supplier. destruct (find _ (suppliers d)); reflexivity.
Qed.

Lemma resolve_item_keeps_orders line d :
  purchase_orders (snd (resolve_item line d)) = purchase_orders d.
Proof.
  unfold resolve_item. destruct (find _ (items d)); reflexivity.
Qed.

Lemma build_lines_keeps_orders lines : forall d,
  purchase_orders (snd (build_lines lines d)) = purchase_orders d.
Proof.
  induction lines as [|line rest IH]; intros d; simpl; [reflexivity|].
  pose proof (resolve_item_keeps_orders line d) as H.
  destruct (resolve_item line d) as [item d1]. simpl in H.
  specialize (IH d1). destruct (build_lines rest d1) as [ls d2]. simpl in *.
  congruence.
Qed.

Lemma build_lines_unnumbered lines : forall d,
  map (set_line_id 0) (fst (build_lines lines d)) = fst (build_lines lines d).
Proof.
  induction lines as [|line rest IH]; intros d; simpl; [reflexivity|].
  destruct (resolve_item line d) as [item d1].
  specialize (IH d1). destruct (build_lines rest d1) as [ls d2]. simpl in *.
  now rewrite IH.
Qed.

Lemma number_lines_erased ls : forall base,
  map (set_line_id 0) (number_lines base ls) = map (set_line_id 0) ls.
Proof.
  induction ls as [|l ls IH]; intros base; simpl; [reflexivity|].
  now rewrite IH.
Qed.

Lemma find_order_erased number os :
  find_order number (map erase_line_ids os)
  = option_map erase_line_ids (find_order number os).
Proof.
  unfold find_order. induction os as [|o os IH]; simpl; [reflexivity|].
  destruct (String.eqb (order_number o) number); [reflexivity | exact IH].
Qed.

Lemma po_ids_erased os : map po_id (map erase_line_ids os) = map po_id os.
Proof. rewrite map_map. reflexivity. Qed.

(** One pass of the loop, when no write is refused: the order is
    counted once, the transaction is committed, and the contents of the
    database are those of [import_contents]. *)
Lemma import_order_accepting now order r s :
  exists d',
    import_order integrity_ok integrity_text now order r s
    = (Ok (count_order order (working s) r), mkSession d' d') /\
    contents d' = import_contents now order (contents (working s)).
Proof.
  unfold import_order, get_purchase_order_by_number, count_order, import_contents.
  unfold bind at 1. rewrite get_or_create_supplier_accepting.
  unfold contents at 2. rewrite resolve_supplier_orders.
  pose proof (resolve_supplier_keeps_orders (erp_supplier_name order) (working s))
    as Hos.
  destruct (resolve_supplier (erp_supplier_name order) (working s))
    as [supplier d1]. simpl in Hos.
  unfold bind at 1, query at 1. simpl. rewrite Hos.
  rewrite build_lines_orders. rewrite find_order_erased.
  destruct (find_order (erp_order_number order) (purchase_orders (working s)))
    as [existing|]; simpl.
  - (* the order exists: header and lines are replaced *)
    unfold _replace_purchase_order_lines, clear_lines.
    unfold bind, modify, ret, try_except_integrity. simpl.
    match goal with |- context [materialize_lines _ (Persistent ?i) ?l ?s2] =>
      destruct (materialize_persistent i l s2) as (ls' & He & Hm); rewrite Hm;
      clear Hm end.
    simpl in *. rewrite !build_lines_orders in *. simpl in *.
    rewrite flush_accepting, commit_accepting. simpl.
    eexists. split; [reflexivity|].
    unfold contents. rewrite !with_purchase_orders_twice.
    apply with_purchase_orders_ext. rewrite !map_map.
    apply map_ext. intros o.
    unfold on_order_with_id, erase_line_ids, replace_order, append_lines,
      set_lines, overwrite_header.
    destruct (po_id o =? po_id existing)%Z eqn:E;
      repeat (progress (simpl; rewrite ?E)); [|reflexivity].
    now rewrite He.
  - (* a new order *)
    unfold _replace_purchase_order_lines, clear_lines.
    unfold bind, ret, try_except_integrity. cbv beta.
    rewrite materialize_transient. cbv iota beta. rewrite flush_accepting.
    unfold add_purchase_order, modify. cbv iota beta.
    rewrite commit_accepting. simpl.
    eexists. split; [reflexivity|].
    pose proof (build_lines_keeps_orders (erp_lines order) d1) as Hk.
    pose proof (build_lines_unnumbered (erp_lines order) d1) as Hu.
    destruct (build_lines (erp_lines order) d1) as [ls d2]. simpl in *.
    unfold contents. rewrite !with_purchase_orders_twice.
    apply with_purchase_orders_ext. rewrite map_app. simpl.
    rewrite po_ids_erased. unfold erase_line_ids at 2. unfold set_lines. simpl.
    rewrite number_lines_erased, Hu, Hk, Hos. reflexivity.
Qed.

End Accepting.

(** ** Replacement of the first match *)

Lemma update_first_absorb {A} (p : A -> bool) (f g : A -> A) (l : list A) :
  (forall x, p (f x) = p x) ->
  (forall x, g (f x) = g x) ->
  update_first p g (update_first p f l) = update_first p g l.
Proof.
  intros Hp Hg. induction l as [|x l IH]; simpl; [reflexivity|].
  destruct (p x) eqn:E; simpl.
  - now rewrite Hp, E, Hg.
  - now rewrite E, IH.
Qed.

Lemma update_first_swap {A} (p q : A -> bool) (f g : A -> A) (l : list A) :
  (forall x, p x = true -> q x = false) ->
  (forall x, p (f x) = p x) -> (forall x, q (f x) = q x) ->
  (forall x, p (g x) = p x) -> (forall x, q (g x) = q x) ->
  update_first q g (update_first p f l) = update_first p f (update_first q g l).
Proof.
  intros Hd Hpf Hqf Hpg Hqg. induction l as [|x l IH]; simpl; [reflexivity|].
  destruct (p x) eqn:Ep; destruct (q x) eqn:Eq; simpl.
  - rewrite (Hd x Ep) in Eq. discriminate.
  - now rewrite Hqf, Eq, Ep.
  - now rewrite Hpg, Ep, Eq.
  - now rewrite Ep, Eq, IH.
Qed.

Lemma update_first_fixed {A} (p : A -> bool) (f : A -> A) (l : list A) x :
  find p l = Some x -> f x = x -> update_first p f l = l.
Proof.
  induction l as [|y l IH]; simpl; [discriminate|].
  destruct (p y); intros H Hf.
  - injection H as ->. now rewrite Hf.
  - now rewrite IH.
Qed.

Lemma find_update_first_same {A} (p : A -> bool) (f : A -> A) (l : list A) :
  (forall x, p (f x) = p x) ->
  find p (update_first p f l) = option_map f (find p l).
Proof.
  intros Hp. induction l as [|x l IH]; simpl; [reflexivity|].
  destruct (p x) eqn:E; simpl.
  - now rewrite Hp, E.
  - now rewrite E.
Qed.

Lemma find_update_first_other {A} (p q : A -> bool) (f : A -> A) (l : list A) :
  (forall x, q (f x) = q x) ->
  (forall x, p x = true -> q x = false) ->
  find q (update_first p f l) = find q l.
Proof.
  intros Hq Hd. induction l as [|x l IH]; simpl; [reflexivity|].
  destruct (p x) eqn:E; simpl.
  - now rewrite Hq, (Hd x E).
  - now rewrite IH.
Qed.

Lemma update_first_map {A B} (p : A -> bool) (f : A -> A) (g : A -> B) l :
  (forall x, g (f x) = g x) ->
  map g (update_first p f l) = map g l.
Proof.
  intros Hg. induction l as [|x l IH]; simpl; [reflexivity|].
  destruct (p x); simpl; [now rewrite Hg | now rewrite IH].
Qed.

Lemma on_order_other_ids id f os :
  ~ In id (map po_id os) -> map (on_order_with_id id f) os = os.
Proof.
  induction os as [|o os IH]; simpl; [reflexivity|].
  intros H. unfold on_order_with_id at 1.
  destruct (po_id o =? id)%Z eqn:E.
  - apply Z.eqb_eq in E. tauto.
  - rewrite IH; tauto.
Qed.

(** With primary keys that are unique, writing to the row a lookup by
    number found is replacing the first row with that number. *)
Lemma on_found_order_update_first number f os ex :
  NoDup (map po_id os) ->
  find_order number os = Some ex ->
  map (on_order_with_id (po_id ex) f) os = update_first (has_number number) f os.
Proof.
  unfold find_order, has_number.
  induction os as [|o os IH]; simpl; [discriminate|].
  intros Hnd H. inversion Hnd as [|? ? Hnotin Hnd']; subst.
  destruct (String.eqb (order_number o) number) eqn:E.
  - injection H as ->. unfold on_order_with_id at 1. rewrite Z.eqb_refl.
    now rewrite on_order_other_ids.
  - unfold on_order_with_id at 1.
    destruct (po_id o =? po_id ex)%Z eqn:Eid.
    + apply Z.eqb_eq in Eid. apply find_some in H. destruct H as [Hin _].
      exfalso. apply Hnotin. rewrite Eid. now apply in_map.
    + now rewrite IH.
Qed.

(** ** The catalog under the import *)

Lemma extends_refl d : extends d d.
Proof. split; exists []; now rewrite app_nil_r. Qed.

Lemma extends_trans d1 d2 d3 : extends d1 d2 -> extends d2 d3 -> extends d1 d3.
Proof.
  intros [[es1 H1] [ei1 G1]] [[es2 H2] [ei2 G2]]. split.
  - exists (es1 ++ es2). now rewrite H2, H1, app_assoc.
  - exists (ei1 ++ ei2). now rewrite G2, G1, app_assoc.
Qed.

Lemma resolve_supplier_stable name d x d1 d' :
  resolve_supplier name d = (x, d1) ->
  (exists es, suppliers d' = suppliers d1 ++ es) ->
  resolve_supplier name d' = (x, d').
Proof.
  unfold resolve_supplier. intros H [es He].
  destruct (find _ (suppliers d)) as [y|] eqn:E; inversion H; subst; clear H.
  - rewrite He, find_app_first, E. reflexivity.
  - rewrite He. simpl. rewrite !find_app_first, E. simpl.
    now rewrite String.eqb_refl.
Qed.

Lemma resolve_item_stable line d i d1 d' :
  resolve_item line d = (i, d1) ->
  (exists ei, items d' = items d1 ++ ei) ->
  resolve_item line d' = (i, d').
Proof.
  unfold resolve_item. intros H [ei He].
  destruct (find _ (items d)) as [y|] eqn:E; inversion H; subst; clear H.
  - rewrite He, find_app_first, E. reflexivity.
  - rewrite He. simpl. rewrite !find_app_first, E. simpl.
    now rewrite String.eqb_refl.
Qed.

Lemma resolve_supplier_extends name d : extends d (snd (resolve_supplier name d)).
Proof.
  unfold resolve_supplier. destruct (find _ (suppliers d)); simpl.
  - apply extends_refl.
  - split; [eexists; reflexivity | exists []; now rewrite app_nil_r].
Qed.

Lemma resolve_item_extends line d : extends d (snd (resolve_item line d)).
Proof.
  unfold resolve_item. destruct (find _ (items d)); simpl.
  - apply extends_refl.
  - split; [exists []; now rewrite app_nil_r | eexists; reflexivity].
Qed.

Lemma build_lines_extends lines : forall d, extends d (snd (build_lines lines d)).
Proof.
  induction lines as [|line rest IH]; intros d; simpl; [apply extends_refl|].
  pose proof (resolve_item_extends line d) as H.
  destruct (resolve_item line d) as [item d1]. simpl in H.
  specialize (IH d1). destruct (build_lines rest d1) as [ls d2]. simpl in *.
  eapply extends_trans; eassumption.
Qed.

Lemma build_lines_stable lines : forall d ls d2 d',
  build_lines lines d = (ls, d2) ->
  (exists ei, items d' = items d2 ++ ei) ->
  build_lines lines d' = (ls, d').
Proof.
  induction lines as [|line rest IH]; intros d ls d2 d' H He; simpl in *.
  - now inversion H.
  - destruct (resolve_item line d) as [item d1] eqn:Er.
    destruct (build_lines rest d1) as [ls1 d3] eqn:Eb.
    inversion H; subst; clear H.
    pose proof (build_lines_extends rest d1) as [_ [e1 H1]].
    rewrite Eb in H1. simpl in H1. destruct He as [ei He].
    rewrite (resolve_item_stable line d item d1 d' Er).
    + now rewrite (IH d1 ls1 d2 d' Eb (ex_intro _ ei He)).
    + exists (e1 ++ ei). now rewrite He, H1, app_assoc.
Qed.

Lemma resolve_supplier_keeps_items name d :
  items (snd (resolve_supplier name d)) = items d.
Proof. unfold resolve_supplier. destruct (find _ (suppliers d)); reflexivity. Qed.

Lemma resolve_item_keeps_suppliers line d :
  suppliers (snd (resolve_item line d)) = suppliers d.
Proof. unfold resolve_item. destruct (find _ (items d)); reflexivity. Qed.

Lemma build_lines_keeps_suppliers lines : forall d,
  suppliers (snd (build_lines lines d)) = suppliers d.
Proof.
  induction lines as [|line rest IH]; intros d; simpl; [reflexivity|].
  pose proof (resolve_item_keeps_suppliers line d) as H.
  destruct (resolve_item line d) as [item d1]. simpl in H.
  specialize (IH d1). destruct (build_lines rest d1) as [ls d2]. simpl in *.
  congruence.
Qed.

(** [build_lines] reads the items only. *)
Lemma build_lines_same_items lines : forall d d',
  items d = items d' ->
  fst (build_lines lines d) = fst (build_lines lines d') /\
  items (snd (build_lines lines d)) = items (snd (build_lines lines d')).
Proof.
  induction lines as [|line rest IH]; intros d d' H; simpl; [tauto|].
  assert (Hr : item_id (fst (resolve_item line d)) = item_id (fst (resolve_item line d'))
               /\ items (snd (resolve_item line d)) = items (snd (resolve_item line d'))).
  { unfold resolve_item. rewrite H.
    destruct (find _ (items d')); simpl; rewrite ?H; tauto. }
  destruct (resolve_item line d) as [i1 d1], (resolve_item line d') as [i2 d2].
  simpl in Hr. destruct Hr as [Hi Hd].
  specialize (IH d1 d2 Hd).
  destruct (build_lines rest d1) as [l1 e1], (build_lines rest d2) as [l2 e2].
  simpl in *. destruct IH as [-> ->]. unfold built_line. rewrite Hi. tauto.
Qed.

Lemma known_stable order d d' :
  known order d -> extends d d' ->
  known order d' /\ target order d' = target order d.
Proof.
  intros [Hs Hl] [He Hi]. unfold known, target.
  destruct (resolve_supplier (erp_supplier_name order) d) as [x d1] eqn:Er.
  destruct (build_lines (erp_lines order) d) as [ls d2] eqn:Eb.
  simpl in Hs, Hl. subst d1 d2.
  rewrite (resolve_supplier_stable _ _ _ _ d' Er He).
  rewrite (build_lines_stable _ _ _ _ d' Eb Hi). simpl. tauto.
Qed.

(** ** One imported order, on contents *)

Lemma import_contents_orders now order d :
  purchase_orders (import_contents now order d)
  = match find_order (erp_order_number order) (purchase_orders d) with
    | None =>
        purchase_orders d ++
        [target order d
           (mkPurchaseOrder (next_id (map po_id (purchase_orders d)))
              (erp_order_number order) None DRAFT None None now [])]
    | Some existing =>
        map (on_order_with_id (po_id existing) (target order d)) (purchase_orders d)
    end.
Proof.
  unfold import_contents, target.
  pose proof (resolve_supplier_keeps_orders (erp_supplier_name order) d) as Ho.
  pose proof (resolve_supplier_keeps_items (erp_supplier_name order) d) as Hi.
  destruct (resolve_supplier (erp_supplier_name order) d) as [x d1]. simpl in *.
  pose proof (build_lines_keeps_orders (erp_lines order) d1) as Hk.
  destruct (build_lines_same_items (erp_lines order) d1 d Hi) as [Hl _].
  destruct (build_lines (erp_lines order) d1) as [ls d2]. simpl in *.
  destruct (find_order (erp_order_number order) (purchase_orders d)); simpl;
    rewrite Hk, Ho, Hl; reflexivity.
Qed.

Lemma import_contents_catalog now order d :
  let d' := import_contents now order d in
  extends d d' /\ known order d' /\ target order d' = target order d /\
  stock_levels d' = stock_levels d /\ transactions d' = transactions d /\
  locations d' = locations d /\
  fst (resolve_supplier (erp_supplier_name order) d')
    = fst (resolve_supplier (erp_supplier_name order) d) /\
  items d' = items (snd (build_lines (erp_lines order) d)).
Proof.
  cbv zeta. unfold known, target.
  assert (H : exists G d1 d2 x ls,
             import_contents now order d = with_purchase_orders G d2 /\
             resolve_supplier (erp_supplier_name order) d = (x, d1) /\
             build_lines (erp_lines order) d1 = (ls, d2)).
  { unfold import_contents.
    destruct (resolve_supplier (erp_supplier_name order) d) as [x d1].
    destruct (build_lines (erp_lines order) d1) as [ls d2] eqn:Eb.
    destruct (find_order _ _); eexists; exists d1, d2, x, ls;
      repeat split; try reflexivity; exact Eb. }
  destruct H as (G & d1 & d2 & x & ls & -> & Er & Eb).
  pose proof (resolve_supplier_extends (erp_supplier_name order) d) as X1.
  pose proof (build_lines_extends (erp_lines order) d1) as X2.
  pose proof (build_lines_keeps_suppliers (erp_lines order) d1) as Ks.
  pose proof (resolve_supplier_keeps_items (erp_supplier_name order) d) as Ki.
  destruct (build_lines_same_items (erp_lines order) d1 d) as [Hl Hl2].
  { rewrite <- Ki, Er. reflexivity. }
  rewrite Er in X1, Ki |- *. rewrite Eb in X2, Ks, Hl, Hl2. simpl in *.
  rewrite (resolve_supplier_stable _ _ _ _ (with_purchase_orders G d2) Er)
    by (exists []; simpl; now rewrite Ks, app_nil_r).
  rewrite (build_lines_stable _ _ _ _ (with_purchase_orders G d2) Eb)
    by (exists []; simpl; now rewrite app_nil_r).
  simpl. rewrite <- Hl.
  assert (Hrest : stock_levels d2 = stock_levels d /\
                  transactions d2 = transactions d /\ locations d2 = locations d).
  { clear - Er Eb.
    assert (A : stock_levels d1 = stock_levels d /\
                transactions d1 = transactions d /\ locations d1 = locations d).
    { unfold resolve_supplier in Er. destruct (find _ (suppliers d));
        inversion Er; subst; simpl; tauto. }
    assert (B : forall lines e l e2, build_lines lines e = (l, e2) ->
                stock_levels e2 = stock_levels e /\
                transactions e2 = transactions e /\ locations e2 = locations e).
    { induction lines as [|line rest IH]; intros e l e2 H; simpl in H.
      - inversion H; subst; tauto.
      - destruct (resolve_item line e) as [i e1] eqn:Ei.
        destruct (build_lines rest e1) as [l1 e3] eqn:El.
        inversion H; subst. specialize (IH _ _ _ El).
        unfold resolve_item in Ei. destruct (find _ (items e));
          inversion Ei; subst; simpl in *; tauto. }
    specialize (B _ _ _ _ Eb). destruct A as (A1 & A2 & A3).
    destruct B as (B1 & B2 & B3). rewrite B1, B2, B3. tauto. }
  repeat split; try tauto.
  - destruct X1 as [[e1 H1] _]. exists e1. simpl. now rewrite Ks.
  - destruct X1 as [_ [e1 H1]], X2 as [_ [e2 H2]]. exists (e1 ++ e2). simpl.
    now rewrite H2, H1, app_assoc.
Qed.

Lemma next_id_fresh ids : ~ In (next_id ids) ids.
Proof.
  assert (H : forall x, In x ids -> (x <= fold_right Z.max 0 ids)%Z).
  { induction ids as [|y ids IH]; simpl; [tauto|].
    intros x [-> | Hx]; [lia|]. specialize (IH x Hx). lia. }
  intros Hin. apply H in Hin. unfold next_id in Hin. lia.
Qed.

Lemma target_twice order d order' d' x :
  target order d (target order' d' x) = target order d x.
Proof. reflexivity. Qed.

Lemma import_contents_settle now order d ex :
  NoDup (map po_id (purchase_orders d)) ->
  find_order (erp_order_number order) (purchase_orders d) = Some ex ->
  purchase_orders (import_contents now order d)
  = settle d (purchase_orders d) order.
Proof.
  intros Hnd Hf. rewrite import_contents_orders, Hf.
  now apply on_found_order_update_first.
Qed.

Lemma import_contents_nodup now order d :
  NoDup (map po_id (purchase_orders d)) ->
  NoDup (map po_id (purchase_orders (import_contents now order d))).
Proof.
  intros Hnd. rewrite import_contents_orders.
  destruct (find_order _ _) as [ex|].
  - rewrite map_map.
    replace (map (fun o => po_id (on_order_with_id (po_id ex) (target order d) o))
               (purchase_orders d)) with (map po_id (purchase_orders d)); [exact Hnd|].
    apply map_ext. intros o. unfold on_order_with_id.
    destruct (po_id o =? po_id ex)%Z; reflexivity.
  - rewrite map_app. simpl. apply NoDup_app; [exact Hnd | | ].
    + constructor; [simpl; tauto | constructor].
    + intros x Hx [<- | []]. now apply next_id_fresh in Hx.
Qed.

Lemma import_contents_found now order d :
  NoDup (map po_id (purchase_orders d)) ->
  let d' := import_contents now order d in
  exists ex, find_order (erp_order_number order) (purchase_orders d') = Some ex /\
             target order d' ex = ex.
Proof.
  intros Hnd. cbv zeta.
  destruct (import_contents_catalog now order d) as (_ & _ & -> & _).
  destruct (find_order (erp_order_number order) (purchase_orders d)) as [ex|] eqn:E.
  - rewrite (import_contents_settle now order d ex Hnd E). unfold settle, find_order.
    change (fun o => String.eqb (order_number o) (erp_order_number order))
      with (has_number (erp_order_number order)).
    rewrite find_update_first_same by reflexivity.
    unfold find_order in E.
    change (fun o => String.eqb (order_number o) (erp_order_number order))
      with (has_number (erp_order_number order)) in E.
    rewrite E. simpl. eexists. split; reflexivity.
  - rewrite import_contents_orders, E. unfold find_order in *.
    rewrite find_app_first, E. simpl. rewrite String.eqb_refl.
    eexists. split; reflexivity.
Qed.

Lemma import_contents_other now order d number :
  NoDup (map po_id (purchase_orders d)) ->
  erp_order_number order <> number ->
  find_order number (purchase_orders (import_contents now order d))
  = find_order number (purchase_orders d).
Proof.
  intros Hnd Hne.
  destruct (find_order (erp_order_number order) (purchase_orders d)) as [ex|] eqn:E.
  - rewrite (import_contents_settle now order d ex Hnd E). unfold settle, find_order.
    apply find_update_first_other; [reflexivity|].
    intros x Hx. unfold has_number in Hx. apply String.eqb_eq in Hx.
    apply String.eqb_neq. congruence.
  - rewrite import_contents_orders, E. unfold find_order. rewrite find_app_first.
    destruct (find _ (purchase_orders d)); [reflexivity|]. simpl.
    apply String.eqb_neq in Hne. now rewrite Hne.
Qed.

Lemma import_contents_keeps_found now order d number :
  NoDup (map po_id (purchase_orders d)) ->
  find_order number (purchase_orders d) <> None ->
  find_order number (purchase_orders (import_contents now order d)) <> None.
Proof.
  intros Hnd Hf.
  destruct (String.eqb_spec (erp_order_number order) number) as [<- | Hne].
  - destruct (import_contents_found now order d Hnd) as (ex & -> & _). discriminate.
  - now rewrite import_contents_other.
Qed.

(** ** A whole payload, on contents *)

Lemma import_all_extends now payload : forall d,
  extends d (import_all_contents now payload d).
Proof.
  unfold import_all_contents.
  induction payload as [|order rest IH]; intros d; simpl; [apply extends_refl|].
  eapply extends_trans; [|apply IH].
  now destruct (import_contents_catalog now order d) as (H & _).
Qed.

Lemma import_all_nodup now payload : forall d,
  NoDup (map po_id (purchase_orders d)) ->
  NoDup (map po_id (purchase_orders (import_all_contents now payload d))).
Proof.
  unfold import_all_contents.
  induction payload as [|order rest IH]; intros d H; simpl; [exact H|].
  apply IH. now apply import_contents_nodup.
Qed.

Lemma import_all_keeps_found now payload number : forall d,
  NoDup (map po_id (purchase_orders d)) ->
  find_order number (purchase_orders d) <> None ->
  find_order number (purchase_orders (import_all_contents now payload d)) <> None.
Proof.
  unfold import_all_contents.
  induction payload as [|order rest IH]; intros d Hnd H; simpl; [exact H|].
  apply IH; [now apply import_contents_nodup|].
  now apply import_contents_keeps_found.
Qed.

Lemma import_all_other now payload number : forall d,
  NoDup (map po_id (purchase_orders d)) ->
  existsb (fun o => String.eqb (erp_order_number o) number) payload = false ->
  find_order number (purchase_orders (import_all_contents now payload d))
  = find_order number (purchase_orders d).
Proof.
  unfold import_all_contents.
  induction payload as [|order rest IH]; intros d Hnd H; simpl in *; [reflexivity|].
  apply orb_false_iff in H. destruct H as [H1 H2].
  rewrite IH; [|now apply import_contents_nodup|exact H2].
  apply import_contents_other; [exact Hnd|]. now apply String.eqb_neq.
Qed.

(** After a payload has been imported, each of its orders has its
    supplier and items in the database and a row with its number, and
    the last order of each number is in the database as written. *)
Lemma import_all_settles now payload : forall d,
  NoDup (map po_id (purchase_orders d)) ->
  let d1 := import_all_contents now payload d in
  (forall o, In o payload ->
     known o d1 /\ find_order (erp_order_number o) (purchase_orders d1) <> None) /\
  last_writers_settled d1 payload.
Proof.
  induction payload as [|order rest IH]; intros d Hnd; cbv zeta.
  - split; [intros o []|exact I].
  - change (import_all_contents now (order :: rest) d)
      with (import_all_contents now rest (import_contents now order d)).
    pose proof (import_contents_nodup now order d Hnd) as Hnd'.
    destruct (IH _ Hnd') as [IH1 IH2]. clear IH.
    destruct (import_contents_catalog now order d) as (_ & Hk & _).
    destruct (import_contents_found now order d Hnd) as (ex & Hex & Htx).
    destruct (known_stable order _ _ Hk
                (import_all_extends now rest (import_contents now order d)))
      as [Hk1 Ht1].
    split.
    + intros o [<- | Ho]; [|now apply IH1]. split; [exact Hk1|].
      apply import_all_keeps_found; [exact Hnd'|]. rewrite Hex. discriminate.
    + simpl. split; [|exact IH2].
      destruct (existsb (same_number order) rest) eqn:El; [now left|]. right.
      exists ex. rewrite Ht1. split; [|exact Htx].
      rewrite import_all_other; [exact Hex | exact Hnd' | exact El].
Qed.

(** ** The import of orders that are all in the database *)

Lemma known_with_orders F order d :
  known order d ->
  known order (with_purchase_orders F d) /\
  target order (with_purchase_orders F d) = target order d.
Proof.
  intros [Hs Hl]. unfold known, target.
  rewrite resolve_supplier_orders, build_lines_orders. simpl.
  rewrite Hs, Hl. tauto.
Qed.

Lemma import_contents_resolved now order d ex :
  known order d ->
  NoDup (map po_id (purchase_orders d)) ->
  find_order (erp_order_number order) (purchase_orders d) = Some ex ->
  import_contents now order d
  = with_purchase_orders (fun os => settle d os order) d.
Proof.
  intros [Hs Hl] Hnd Hf. unfold import_contents, settle, target.
  destruct (resolve_supplier (erp_supplier_name order) d) as [x d1].
  simpl in Hs. subst d1.
  destruct (build_lines (erp_lines order) d) as [ls d2]. simpl in Hl. subst d2.
  rewrite Hf. apply with_purchase_orders_ext.
  now apply on_found_order_update_first.
Qed.

Lemma settle_nodup d os order :
  map po_id (settle d os order) = map po_id os.
Proof. unfold settle. now apply update_first_map. Qed.

Lemma settle_keeps_found d os order number :
  find_order number os <> None ->
  find_order number (settle d os order) <> None.
Proof.
  unfold settle, find_order. intros H.
  destruct (String.eqb_spec (erp_order_number order) number) as [<- | Hne].
  - change (fun o => String.eqb (order_number o) (erp_order_number order))
      with (has_number (erp_order_number order)) in *.
    rewrite find_update_first_same by reflexivity.
    destruct (find _ os); [discriminate | contradiction].
  - rewrite find_update_first_other; [exact H | reflexivity |].
    intros x Hx. unfold has_number in Hx. apply String.eqb_eq in Hx.
    apply String.eqb_neq. congruence.
Qed.

Lemma import_all_resolved now d payload : forall os,
  NoDup (map po_id os) ->
  (forall o, In o payload ->
     known o d /\ find_order (erp_order_number o) os <> None) ->
  import_all_contents now payload (with_purchase_orders (fun _ => os) d)
  = with_purchase_orders (fun _ => fold_left (settle d) payload os) d.
Proof.
  unfold import_all_contents.
  induction payload as [|order rest IH]; intros os Hnd H; simpl; [reflexivity|].
  destruct (H order (or_introl eq_refl)) as [Hk Hf].
  destruct (find_order (erp_order_number order) os) as [ex|] eqn:E;
    [clear Hf | contradiction].
  destruct (known_with_orders (fun _ => os) order d Hk) as [Hk' Ht'].
  rewrite (import_contents_resolved now order _ ex Hk' Hnd E).
  rewrite with_purchase_orders_twice. unfold settle at 1. rewrite Ht'.
  fold (settle d os order).
  change (with_purchase_orders (fun _ => settle d os order) d)
    with (with_purchase_orders (fun _ => settle d os order) d).
  rewrite <- IH.
  - reflexivity.
  - now rewrite settle_nodup.
  - intros o Ho. destruct (H o (or_intror Ho)) as [Hko Hfo].
    split; [exact Hko | now apply settle_keeps_found].
Qed.

Lemma settle_absorbed d order rest : forall os,
  existsb (same_number order) rest = true ->
  fold_left (settle d) rest (settle d os order) = fold_left (settle d) rest os.
Proof.
  induction rest as [|o1 rest IH]; intros os H; simpl in *; [discriminate|].
  destruct (same_number order o1) eqn:E; simpl in H.
  - f_equal. unfold same_number in E. apply String.eqb_eq in E.
    unfold settle. rewrite E.
    apply update_first_absorb; reflexivity.
  - rewrite <- (IH (settle d os o1) H). f_equal.
    unfold settle. apply update_first_swap; try reflexivity.
    intros x Hx. unfold has_number in *. apply String.eqb_eq in Hx.
    unfold same_number in E. apply String.eqb_neq in E.
    apply String.eqb_neq. congruence.
Qed.

Lemma settled_payload_fixed d payload :
  last_writers_settled d payload ->
  fold_left (settle d) payload (purchase_orders d) = purchase_orders d.
Proof.
  induction payload as [|order rest IH]; simpl; [reflexivity|].
  intros [[H | (ex & Hf & Ht)] Hrest].
  - rewrite settle_absorbed by exact H. now apply IH.
  - replace (settle d (purchase_orders d) order) with (purchase_orders d);
      [now apply IH|].
    symmetry. exact (update_first_fixed (has_number (erp_order_number order))
                       _ _ ex Hf Ht).
Qed.

(** Importing a payload again, on the contents the first import left,
    changes nothing. *)
Lemma import_all_again now now' payload d :
  NoDup (map po_id (purchase_orders d)) ->
  let d1 := import_all_contents now payload d in
  import_all_contents now' payload d1 = d1.
Proof.
  intros Hnd d1.
  destruct (import_all_settles now payload d Hnd) as [H1 H2]. fold d1 in H1, H2.
  pose proof (import_all_nodup now payload d Hnd) as Hnd1. fold d1 in Hnd1.
  assert (E : d1 = with_purchase_orders (fun _ => purchase_orders d1) d1)
    by now destruct d1.
  rewrite E at 1.
  rewrite (import_all_resolved now' d1 payload _ Hnd1 H1).
  rewrite (settled_payload_fixed d1 payload H2). now destruct d1.
Qed.

(** ** The import loop when no write is refused *)

Lemma count_order_contents order d r :
  count_order order (contents d) r = count_order order d r.
Proof.
  unfold count_order, contents. simpl. rewrite find_order_erased.
  destruct (find_order _ _); reflexivity.
Qed.

Lemma import_loop_accepting integrity_ok integrity_text now payload :
  (forall d, integrity_ok d = true) ->
  forall r s, exists s',
    import_loop integrity_ok integrity_text now payload r s
    = (Ok (count_all now payload (contents (working s)) r), s') /\
    contents (working s') = import_all_contents now payload (contents (working s)) /\
    (committed s = working s -> committed s' = working s').
Proof.
  intros Hok. unfold import_all_contents.
  induction payload as [|order rest IH]; intros r s; simpl.
  - exists s. unfold ret. tauto.
  - unfold bind.
    destruct (import_order_accepting integrity_ok integrity_text Hok now order r s)
      as (d' & E & C).
    rewrite E. destruct (IH (count_order order (working s) r) (mkSession d' d'))
      as (s' & E' & C' & K').
    exists s'. rewrite E'. simpl in *. rewrite C, count_order_contents in *.
    repeat split; try assumption. intros _. now apply K'.
Qed.

Lemma count_all_found now payload : forall d r,
  NoDup (map po_id (purchase_orders d)) ->
  (forall o, In o payload ->
     find_order (erp_order_number o) (purchase_orders d) <> None) ->
  let r' := count_all now payload d r in
  imported r' = imported r /\ skipped r' = skipped r /\ details r' = details r /\
  updated r' = (updated r + Z.of_nat (List.length payload))%Z.
Proof.
  induction payload as [|order rest IH]; intros d r Hnd H; cbv zeta.
  - simpl. repeat split. lia.
  - change (count_all now (order :: rest) d r)
      with (count_all now rest (import_contents now order d) (count_order order d r)).
    destruct (IH (import_contents now order d) (count_order order d r))
      as (I1 & I2 & I3 & I4).
    + now apply import_contents_nodup.
    + intros o Ho. apply import_contents_keeps_found; [exact Hnd|].
      apply H. now right.
    + rewrite I1, I2, I3, I4. unfold count_order.
      destruct (find_order (erp_order_number order) (purchase_orders d)) eqn:E.
      * simpl. repeat split.
        change (List.length (order :: rest)) with (S (List.length rest)). lia.
      * exfalso. apply (H order (or_introl eq_refl)). exact E.
Qed.

(** C7: with the engine accepting the writes and the primary keys of
    the orders unique, importing a payload and then importing the same
    payload again (at a later clock reading) succeeds both times, and
    the second import leaves the contents of the database as the first
    left them: the same items and suppliers, and the same orders with
    the same headers and the same lines (item, description, ordered
    quantity, received quantity 0, unit price), up to the ids of the
    lines, which are handed out afresh.  The second import counts every
    order as updated and none as imported or skipped. *)
Theorem import_twice_changes_nothing :
  forall integrity_ok integrity_text now now' payload s,
    (forall d, integrity_ok d = true) ->
    NoDup (map po_id (purchase_orders (working s))) ->
    let out1 := import_purchase_orders_from_payload integrity_ok integrity_text
                  now payload s in
    let out2 := import_purchase_orders_from_payload integrity_ok integrity_text
                  now' payload (snd out1) in
    exists r1 r2,
      fst out1 = Ok r1 /\ fst out2 = Ok r2 /\
      contents (working (snd out2)) = contents (working (snd out1)) /\
      items (working (snd out2)) = items (working (snd out1)) /\
      suppliers (working (snd out2)) = suppliers (working (snd out1)) /\
      map erase_line_ids (purchase_orders (working (snd out2)))
        = map erase_line_ids (purchase_orders (working (snd out1))) /\
      imported r2 = 0%Z /\ skipped r2 = 0%Z /\
      updated r2 = Z.of_nat (List.length payload).
Proof.
  intros ok txt now now' payload s Hok Hnd. cbv zeta.
  unfold import_purchase_orders_from_payload.
  destruct (import_loop_accepting ok txt now payload Hok
              (mkERPImportResult 0 0 0 []) s) as (s1 & E1 & C1 & _).
  rewrite E1. simpl.
  destruct (import_loop_accepting ok txt now' payload Hok
              (mkERPImportResult 0 0 0 []) s1) as (s2 & E2 & C2 & _).
  rewrite E2. simpl.
  assert (Hndc : NoDup (map po_id (purchase_orders (contents (working s))))).
  { unfold contents. simpl. now rewrite po_ids_erased. }
  assert (Hsame : contents (working s2) = contents (working s1)).
  { rewrite C2, C1. now apply import_all_again. }
  do 2 eexists. split; [reflexivity|]. split; [reflexivity|].
  split; [exact Hsame|].
  split; [exact (f_equal items Hsame)|].
  split; [exact (f_equal suppliers Hsame)|].
  split; [exact (f_equal purchase_orders Hsame)|].
  destruct (import_all_settles now payload _ Hndc) as [Hk _].
  rewrite <- C1 in Hk.
  destruct (count_all_found now' payload (contents (working s1))
              (mkERPImportResult 0 0 0 [])) as (I1 & I2 & _ & I4).
  - rewrite C1. now apply import_all_nodup.
  - intros o Ho. now apply Hk.
  - rewrite I1, I2, I4. simpl. tauto.
Qed.

Lemma import_twice_witness :
  let out1 := import_purchase_orders_from_payload accept_all "refused"
                0 sample_payload sample_session in
  let out2 := import_purchase_orders_from_payload accept_all "refused"
                1 sample_payload (snd out1) in
  exists r1 r2,
    fst out1 = Ok r1 /\ fst out2 = Ok r2 /\
    contents (working (snd out2)) = contents (working (snd out1)) /\
    items (working (snd out2)) = items (working (snd out1)) /\
    suppliers (working (snd out2)) = suppliers (working (snd out1)) /\
    map erase_line_ids (purchase_orders (working (snd out2)))
      = map erase_line_ids (purchase_orders (working (snd out1))) /\
    imported r2 = 0%Z /\ skipped r2 = 0%Z /\
    updated r2 = Z.of_nat (List.length sample_payload).
Proof.
  apply (import_twice_changes_nothing accept_all "refused" 0 1 sample_payload
           sample_session (fun _ => eq_refl)).
  simpl. constructor; [intros [] | constructor].
Defined.

(** ** An incoming order whose number exists *)

Lemma resolve_supplier_spec name d :
  let x := fst (resolve_supplier name d) in
  In x (suppliers (snd (resolve_supplier name d))) /\
  lower (supplier_name x) = lower name.
Proof.
  cbv zeta. unfold resolve_supplier.
  destruct (find _ (suppliers d)) as [y|] eqn:E; simpl.
  - apply find_some in E. destruct E as [Hin E].
    now apply String.eqb_eq in E.
  - split; [|reflexivity]. apply in_or_app. right. now left.
Qed.

Lemma find_none_prefix {A} (p : A -> bool) (l ext : list A) :
  find p (l ++ ext) = None -> find p l = None.
Proof. rewrite find_app_first. now destruct (find p l). Qed.

Lemma resolve_item_spec line d :
  let i := fst (resolve_item line d) in
  sku i = erp_sku line /\
  ((In i (items d) /\ items (snd (resolve_item line d)) = items d) \/
   (find (fun j => String.eqb (sku j) (erp_sku line)) (items d) = None /\
    created_for line i /\ items (snd (resolve_item line d)) = items d ++ [i])).
Proof.
  cbv zeta. unfold resolve_item.
  destruct (find _ (items d)) as [y|] eqn:E; simpl.
  - apply find_some in E. destruct E as [Hin E]. apply String.eqb_eq in E. tauto.
  - split; [reflexivity|]. right. unfold created_for. simpl. tauto.
Qed.

Lemma build_lines_spec lines : forall d,
  Forall2 (imported_line (items d) (items (snd (build_lines lines d))) lines)
    lines (fst (build_lines lines d)).
Proof.
  induction lines as [|line rest IH]; intros d; simpl; [constructor|].
  pose proof (resolve_item_spec line d) as Hi. cbv zeta in Hi.
  destruct (resolve_item line d) as [i d1]. simpl in Hi.
  pose proof (build_lines_extends rest d1) as [_ [e2 X2]].
  specialize (IH d1). destruct (build_lines rest d1) as [ls d2]. simpl in *.
  destruct Hi as (Hsku & Horigin).
  assert (Hin : In i (items d1)).
  { destruct Horigin as [[H ->] | (_ & _ & ->)]; [exact H|].
    apply in_or_app. right. now left. }
  constructor.
  - unfold imported_line, built_line. simpl. repeat split. exists i.
    split; [rewrite X2; apply in_or_app; now left|].
    split; [reflexivity|]. split; [exact Hsku|].
    destruct Horigin as [[H _] | (Hn & Hc & _)]; [now left|]. right.
    split; [exact Hn|]. exists line. split; [now left | exact Hc].
  - eapply Forall2_impl; [|exact IH]. intros line' l' (R1 & R2 & R3 & R4 & R5).
    unfold imported_line. repeat split; try assumption.
    destruct R5 as (item & I1 & I2 & I3 & I4). exists item.
    split; [exact I1|]. split; [exact I2|]. split; [exact I3|].
    destruct I4 as [Hb | (Hn' & line0 & Hl0 & Hc0)].
    + destruct Horigin as [[_ X1] | (Hn & Hc & X1)]; rewrite X1 in Hb.
      * now left.
      * apply in_app_or in Hb. destruct Hb as [Hb | [<- | []]]; [now left|].
        right. split; [now rewrite <- I3, Hsku|].
        exists line. split; [now left | exact Hc].
    + right. split.
      * destruct Horigin as [[_ X1] | (_ & _ & X1)]; rewrite X1 in Hn';
          [exact Hn' | now apply find_none_prefix in Hn'].
      * exists line0. split; [now right | exact Hc0].
Qed.

Lemma Forall2_through_map {A B} (R : A -> B -> Prop) (f : B -> B) l : forall l',
  (forall a b, R a (f b) -> R a b) ->
  Forall2 R l (map f l') -> Forall2 R l l'.
Proof.
  induction l as [|a l IH]; intros [|b l'] Hf H; inversion H; subst;
    constructor; auto.
Qed.

Lemma imported_line_numbered before after payload_lines line id l :
  imported_line before after payload_lines line (set_line_id id l) ->
  imported_line before after payload_lines line l.
Proof. unfold imported_line. simpl. tauto. Qed.

(** C6: with the engine accepting the writes, a pass of the import over
    an incoming order whose number is in the database counts it as
    updated and commits; afterwards the row with that number is the same
    row (same id, same number), its supplier is a supplier of the
    database whose lower-cased name is that of the incoming supplier
    name, its status, expected date and notes are the incoming ones, and
    its lines are, one for one and in order, the incoming lines: nothing
    received, the incoming description, quantity and price, and an item
    with the incoming SKU that either was in the database or was created
    for a line of the payload with that SKU (name and description of
    that line, unit "Stk", reorder level 0) when the SKU was unknown. *)
Theorem import_replaces_existing_order :
  forall integrity_ok integrity_text now order r s existing,
    (forall d, integrity_ok d = true) ->
    find_order (erp_order_number order) (purchase_orders (working s))
      = Some existing ->
    let out := import_order integrity_ok integrity_text now order r s in
    fst out = Ok (count_updated r) /\
    committed (snd out) = working (snd out) /\
    exists o' supplier,
      find_order (erp_order_number order) (purchase_orders (working (snd out)))
        = Some o' /\
      po_id o' = po_id existing /\
      order_number o' = order_number existing /\
      po_created_at o' = po_created_at existing /\
      In supplier (suppliers (working (snd out))) /\
      lower (supplier_name supplier) = lower (erp_supplier_name order) /\
      po_supplier_id o' = Some (supplier_id supplier) /\
      po_status o' = erp_status order /\
      expected_date o' = erp_expected_date order /\
      po_notes o' = erp_notes order /\
      Forall2 (imported_line (items (working s)) (items (working (snd out)))
                 (erp_lines order))
        (erp_lines order) (po_lines o').
Proof.
  intros ok txt now order r s existing Hok Hf. cbv zeta.
  destruct (import_order_accepting ok txt Hok now order r s) as (d' & E & C).
  rewrite E. simpl. unfold count_order. rewrite Hf.
  split; [reflexivity|]. split; [reflexivity|].
  set (v := contents (working s)) in *.
  assert (Hfv : find_order (erp_order_number order) (purchase_orders v)
                = Some (erase_line_ids existing)).
  { unfold v, contents. simpl. now rewrite find_order_erased, Hf. }
  pose proof (import_contents_orders now order v) as Ho.
  rewrite <- C, Hfv in Ho.
  pose proof (f_equal (find_order (erp_order_number order)) Ho) as Hfind.
  unfold contents in Hfind at 1. simpl in Hfind.
  rewrite find_order_erased in Hfind. unfold find_order in Hfind at 2.
  rewrite find_map_same in Hfind.
  2:{ intros x. unfold on_order_with_id. now destruct (po_id x =? _)%Z. }
  change (find (fun o => String.eqb (order_number o) (erp_order_number order))
            (map erase_line_ids (purchase_orders (working s))))
    with (find_order (erp_order_number order)
            (map erase_line_ids (purchase_orders (working s)))) in Hfind.
  rewrite find_order_erased, Hf in Hfind. simpl in Hfind.
  unfold on_order_with_id in Hfind. simpl in Hfind.
  rewrite Z.eqb_refl in Hfind.
  destruct (find_order (erp_order_number order) (purchase_orders d')) as [o'|];
    [|discriminate].
  simpl in Hfind.
  injection Hfind as Hid Hnum Hsid Hstatus Hdate Hnotes Hcreated Hlines.
  destruct (import_contents_catalog now order v)
    as (_ & [Hks _] & _ & _ & _ & _ & Hsup & Hitems).
  rewrite <- C in Hks, Hsup, Hitems.
  pose proof (resolve_supplier_spec (erp_supplier_name order) (contents d'))
    as [Hin Hlow]. rewrite Hks, Hsup in Hin. rewrite Hsup in Hlow.
  exists o', (fst (resolve_supplier (erp_supplier_name order) v)).
  split; [reflexivity|].
  split; [exact Hid|]. split; [exact Hnum|]. split; [exact Hcreated|].
  split; [exact Hin|]. split; [exact Hlow|].
  split; [exact Hsid|]. split; [exact Hstatus|].
  split; [exact Hdate|]. split; [exact Hnotes|].
  pose proof (build_lines_spec (erp_lines order) v) as Hspec.
  rewrite <- Hlines, <- Hitems in Hspec.
  apply Forall2_through_map in Hspec; [exact Hspec|].
  intros a b. apply imported_line_numbered.
Qed.

Lemma import_replaces_existing_order_witness :
  let order :=
    mkERPPurchaseOrder "PO-1" "ACME" (Some 20261224%Z) COMPLETED (Some "changed")
      [mkERPPurchaseOrderLine "A1" "Bolt M8" 7 (Some (1 # 2)) None;
       mkERPPurchaseOrderLine "B7" "Nut" 3 None (Some "hex")] in
  let out := import_order accept_all "refused" 0 order
               (mkERPImportResult 0 0 0 []) sample_session in
  fst out = Ok (mkERPImportResult 0 1 0 []) /\
  exists o', find_order "PO-1" (purchase_orders (working (snd out))) = Some o' /\
    po_id o' = 1%Z /\ po_status o' = COMPLETED /\
    po_supplier_id o' = Some 1%Z /\
    map received_quantity (po_lines o') = [0; 0] /\
    map ordered_quantity (po_lines o') = [7; 3].
Proof.
  cbv zeta.
  pose proof (import_replaces_existing_order accept_all "refused" 0
                (hd (mkERPPurchaseOrder "" "" None DRAFT None []) sample_payload)
                (mkERPImportResult 0 0 0 []) sample_session
                (mkPurchaseOrder 1 "PO-1" (Some 1%Z) RELEASED None None 0
                   [mkPurchaseOrderLine 1 (Some 5%Z) None 10 4 None])
                (fun _ => eq_refl) eq_refl) as H.
  cbv zeta in H. destruct H as (H1 & _ & _).
  split; [exact H1|]. eexists. repeat split.
Defined.

(** ** A refused commit *)

(** C2, at a failing input: the first of two new orders is refused at
    its commit.  The refusal is caught and rolled back (the order, and
    the supplier and item created for it, are not in the database), the
    second order is imported, and one detail message is recorded; but
    the refused order is counted under [imported] as well as under
    [skipped]: two orders give imported = 2 and skipped = 1. *)
Theorem import_counts_refused_order_twice :
  let out := import_purchase_orders_from_payload refuses_po9 "refused" 0
               refused_payload sample_session in
  exists r, fst out = Ok r /\
    imported r = 2%Z /\ updated r = 0%Z /\ skipped r = 1%Z /\
    details r = ["Bestellung PO-9 konnte nicht gespeichert werden: refused"%string] /\
    (imported r + updated r + skipped r)%Z <> Z.of_nat (List.length refused_payload) /\
    find_order "PO-9" (purchase_orders (working (snd out))) = None /\
    find_order "PO-2" (purchase_orders (working (snd out))) <> None /\
    suppliers (working (snd out)) = suppliers sample_db /\
    items (working (snd out)) = items sample_db /\
    committed (snd out) = working (snd out).
Proof.
  cbv zeta. eexists. split; [reflexivity|].
  repeat split; try reflexivity; vm_compute; discriminate.
Qed.

(** Whatever the engine decides, a pass of the loop that ends in a
    result has counted the order under [imported] or [updated]; when
    its commit is refused it has counted it under [skipped] too, with a
    message that is not empty. *)
Lemma import_order_counts integrity_ok integrity_text now order r s r' s' :
  import_order integrity_ok integrity_text now order r s = (Ok r', s') ->
  (imported r' + updated r' = imported r + updated r + 1)%Z /\
  (skipped r' = skipped r /\ details r' = details r \/
   skipped r' = (skipped r + 1)%Z /\
   details r' = details r ++ [skip_detail integrity_text order] /\
   skip_detail integrity_text order <> ""%string /\
   working s' = committed s').
Proof.
  unfold import_order. unfold bind at 1.
  destruct (get_or_create_supplier_by_name _ _ s) as [[supplier|e] s1];
    [|discriminate].
  unfold bind at 1.
  destruct (get_purchase_order_by_number _ s1) as [[existing|e] s2];
    [|discriminate].
  unfold bind at 1.
  match goal with |- context [match ?m s2 with _ => _ end] =>
    destruct (m s2) as [[r1|e] s3] eqn:E1 end; [|discriminate].
  assert (H1 : r1 = count_imported r \/ r1 = count_updated r).
  { destruct existing as [ex|]; unfold bind, ret in E1.
    - destruct (modify _ s2) as [[[]|e] s4]; [|discriminate].
      destruct (_replace_purchase_order_lines _ _ _ s4) as [[ref|e] s5];
        [|discriminate].
      injection E1 as <- _. now right.
    - destruct (_replace_purchase_order_lines _ _ _ s2) as [[ref|e] s4];
        [|discriminate].
      destruct (add_purchase_order ref s4) as [[[]|e] s5]; [|discriminate].
      injection E1 as <- _. now left. }
  unfold try_except_integrity, bind, commit, rollback, ret.
  destruct (integrity_ok (working s3)); simpl; intros H; injection H as <- <-.
  - split; [destruct H1 as [-> | ->]; simpl; lia|]. left.
    destruct H1 as [-> | ->]; simpl; tauto.
  - split; [destruct H1 as [-> | ->]; simpl; lia|]. right.
    split; [destruct H1 as [-> | ->]; reflexivity|].
    split; [destruct H1 as [-> | ->]; reflexivity|].
    split; [discriminate | reflexivity].
Qed.

(** The writes of the update branch are flushed inside
    [_replace_purchase_order_lines], before the [try]: when the engine
    refuses them, [IntegrityError] leaves the loop and no result is
    returned. *)
Lemma refused_update_leaves_the_loop :
  let out := import_purchase_orders_from_payload refuses_completed_po1 "refused" 0
               sample_payload sample_session in
  fst out = Raise IntegrityError /\
  working (snd out) = sample_db /\ committed (snd out) = sample_db.
Proof. cbv zeta. repeat split. Qed.

(** ** The scenarios of the specification *)

(** Stock 3 at (item 5, location 1): a SHIPMENT of 3 leaves 0, and a
    further SHIPMENT of 1/2 is rejected and leaves 0. *)
Example shipment_scenario :
  let out1 := register_inventory_transaction accept_all 0
                (movement 5 1 3 SHIPMENT) sample_session in
  let out2 := register_inventory_transaction accept_all 1
                (movement 5 1 (1 # 2) SHIPMENT) (snd out1) in
  (exists tx, fst out1 = Ok tx) /\
  stock_quantity (working (snd out1)) 5 1 == 0 /\
  fst out2 = Raise (CRUDException StockWouldBeNegative) /\
  stock_quantity (working (snd out2)) 5 1 == 0 /\
  committed (snd out2) = committed (snd out1).
Proof.
  cbv zeta. split; [eexists; reflexivity|]. repeat split.
Qed.

(** An unknown SKU "A1" in an order "PO-1" of "Acme": one order
    imported, the item "A1"/"Bolt" created with unit "Stk" and reorder
    level 0, the supplier created, and the order stored with one line
    with nothing received. *)
Example import_scenario :
  let out := import_purchase_orders_from_payload accept_all "refused" 0
               [scenario_order] (mkSession fresh_db fresh_db) in
  fst out = Ok (mkERPImportResult 1 0 0 []) /\
  items (working (snd out)) = [mkItem 1 "A1" "Bolt" None "Stk" 0] /\
  suppliers (working (snd out)) = [mkSupplier 1 "Acme" None None None] /\
  purchase_orders (working (snd out))
    = [mkPurchaseOrder 1 "PO-1" (Some 1%Z) RELEASED None None 0
         [mkPurchaseOrderLine 1 (Some 1%Z) None 10 0 None]] /\
  committed (snd out) = working (snd out).
Proof. cbv zeta. repeat split. Qed.

(** * Further properties *)

(** ** The effect of a ledger call on the session *)

Lemma register_effect integrity_ok now tin s r s' :
  register_inventory_transaction integrity_ok now tin s = (r, s') ->
  let i := in_item_id tin in
  let l := in_location_id tin in
  (exists m, r = Raise (CRUDException m) /\ s' = s) \/
  (r = Raise IntegrityError /\ s' = mkSession (committed s) (committed s)) \/
  (exists m, r = Raise (CRUDException m) /\
     find_stock_level (working s) i l = None /\
     s' = mkSession (committed s) (with_new_stock_row (working s) i l)) \/
  (exists w0 sl q,
     (w0 = working s \/
      find_stock_level (working s) i l = None /\
      w0 = with_new_stock_row (working s) i l) /\
     find_stock_level w0 i l = Some sl /\
     (0 <= sl_quantity sl -> 0 <= q) /\
     r = Ok (ledger_entry now tin w0) /\
     s' = mkSession (ledger_write now tin w0 sl q) (ledger_write now tin w0 sl q)).
Proof.
  unfold register_inventory_transaction. step_session.
  destruct (find_item (working s) (in_item_id tin)) as [item|] eqn:Hi;
    [|intros H; injection H as <- <-; left; eauto].
  destruct (find_location (working s) (in_location_id tin)) as [location|] eqn:Hl;
    [|intros H; injection H as <- <-; left; eauto].
  rewrite (find_item_id _ _ _ Hi), (find_location_id _ _ _ Hl).
  destruct (Qeq_bool (in_quantity tin) 0);
    [intros H; injection H as <- <-; left; eauto|].
  destruct (find_stock_level (working s) (in_item_id tin) (in_location_id tin))
    as [sl|] eqn:Hsl.
  - (* the pair has a row *)
    destruct (in_transaction_type tin) eqn:Ht.
    + destruct (Qle_bool (in_quantity tin) 0) eqn:Hq;
        [intros H; injection H as <- <-; left; eauto|].
      apply Qle_bool_false in Hq. simpl.
      match goal with |- context [integrity_ok ?d] => destruct (integrity_ok d) end;
        intros H; injection H as <- <-; [|right; left; tauto].
      right; right; right.
      exists (working s), sl, (sl_quantity sl + in_quantity tin).
      unfold ledger_write, ledger_entry. rewrite Ht.
      repeat split; [now left | exact Hsl | intros; lra].
    + destruct (Qle_bool (in_quantity tin) 0) eqn:Hq;
        [intros H; injection H as <- <-; left; eauto|].
      destruct (Qle_bool 0 (sl_quantity sl - in_quantity tin)) eqn:Hn; simpl;
        [|intros H; injection H as <- <-; left; eauto].
      apply Qle_bool_iff in Hn.
      match goal with |- context [integrity_ok ?d] => destruct (integrity_ok d) end;
        intros H; injection H as <- <-; [|right; left; tauto].
      right; right; right.
      exists (working s), sl, (sl_quantity sl - in_quantity tin).
      unfold ledger_write, ledger_entry. rewrite Ht.
      repeat split; [now left | exact Hsl | intros; exact Hn].
    + destruct (Qle_bool 0 (sl_quantity sl + in_quantity tin)) eqn:Hn; simpl;
        [|intros H; injection H as <- <-; left; eauto].
      apply Qle_bool_iff in Hn.
      match goal with |- context [integrity_ok ?d] => destruct (integrity_ok d) end;
        intros H; injection H as <- <-; [|right; left; tauto].
      right; right; right.
      exists (working s), sl, (sl_quantity sl + in_quantity tin).
      unfold ledger_write, ledger_entry. rewrite Ht.
      repeat split; [now left | exact Hsl | intros; exact Hn].
  - (* the pair gets its row *)
    fold (new_stock_row (working s) (in_item_id tin) (in_location_id tin)).
    fold (with_new_stock_row (working s) (in_item_id tin) (in_location_id tin)).
    set (w0 := with_new_stock_row (working s) (in_item_id tin) (in_location_id tin)).
    destruct (integrity_ok w0);
      [|intros H; injection H as <- <-; right; left; tauto].
    set (row := new_stock_row (working s) (in_item_id tin) (in_location_id tin)).
    assert (Hrow : find_stock_level w0 (in_item_id tin) (in_location_id tin)
                   = Some row).
    { unfold w0, with_new_stock_row, find_stock_level in *. simpl.
      rewrite find_app_first, Hsl. simpl. now rewrite !Z.eqb_refl. }
    destruct (in_transaction_type tin) eqn:Ht; simpl.
    + destruct (Qle_bool (in_quantity tin) 0) eqn:Hq;
        [intros H; injection H as <- <-; right; right; left; eauto|].
      apply Qle_bool_false in Hq. simpl.
      match goal with |- context [integrity_ok ?d] => destruct (integrity_ok d) end;
        intros H; injection H as <- <-; [|right; left; tauto].
      right; right; right. exists w0, row, (0 + in_quantity tin).
      unfold ledger_write, ledger_entry. rewrite Ht.
      repeat split; [now right | exact Hrow | intros; lra].
    + destruct (Qle_bool (in_quantity tin) 0) eqn:Hq;
        [intros H; injection H as <- <-; right; right; left; eauto|].
      destruct (Qle_bool 0 (0 - in_quantity tin)) eqn:Hn; simpl;
        [|intros H; injection H as <- <-; right; right; left; eauto].
      apply Qle_bool_iff in Hn.
      match goal with |- context [integrity_ok ?d] => destruct (integrity_ok d) end;
        intros H; injection H as <- <-; [|right; left; tauto].
      right; right; right. exists w0, row, (0 - in_quantity tin).
      unfold ledger_write, ledger_entry. rewrite Ht.
      repeat split; [now right | exact Hrow | intros; exact Hn].
    + destruct (Qle_bool 0 (0 + in_quantity tin)) eqn:Hn; simpl;
        [|intros H; injection H as <- <-; right; right; left; eauto].
      apply Qle_bool_iff in Hn.
      match goal with |- context [integrity_ok ?d] => destruct (integrity_ok d) end;
        intros H; injection H as <- <-; [|right; left; tauto].
      right; right; right. exists w0, row, (0 + in_quantity tin).
      unfold ledger_write, ledger_entry. rewrite Ht.
      repeat split; [now right | exact Hrow | intros; exact Hn].
Qed.


Lemma assign_quantity_id id q sl : sl_id (assign_quantity id q sl) = sl_id sl.
Proof. unfold assign_quantity. now destruct (sl_id sl =? id)%Z. Qed.

Lemma NoDup_map_eq {A B} (f : A -> B) (l : list A) x y :
  NoDup (map f l) -> In x l -> In y l -> f x = f y -> x = y.
Proof.
  induction l as [|a l IH]; simpl; [tauto|].
  intros Hnd Hx Hy E. inversion Hnd as [|? ? Hn Hnd']; subst.
  destruct Hx as [<- | Hx], Hy as [<- | Hy]; auto.
  - exfalso. apply Hn. rewrite E. now apply in_map.
  - exfalso. apply Hn. rewrite <- E. now apply in_map.
Qed.

Lemma find_stock_level_pair d i l sl :
  find_stock_level d i l = Some sl ->
  In sl (stock_levels d) /\ stock_pair sl = (i, l).
Proof.
  unfold find_stock_level, stock_pair. intros H. apply find_some in H.
  destruct H as [Hin H]. apply andb_true_iff in H. destruct H as [H1 H2].
  apply Z.eqb_eq in H1, H2. now rewrite H1, H2.
Qed.


(** X2: whatever the input, the engine's verdict and the outcome, a
    ledger call leaves no negative stock level, neither in the open
    transaction nor committed, when there was none before. *)
Theorem stock_never_negative :
  forall integrity_ok now tin s r s',
    register_inventory_transaction integrity_ok now tin s = (r, s') ->
    Forall nonnegative (stock_levels (working s)) ->
    Forall nonnegative (stock_levels (committed s)) ->
    Forall nonnegative (stock_levels (working s')) /\
    Forall nonnegative (stock_levels (committed s')).
Proof.
  intros ok now tin s r s' E Hw Hc.
  assert (Hg : Forall nonnegative
                 (stock_levels (with_new_stock_row (working s) (in_item_id tin)
                                  (in_location_id tin)))).
  { unfold with_new_stock_row. simpl. apply Forall_app. split; [exact Hw|].
    constructor; [|constructor]. unfold nonnegative. simpl. lra. }
  apply register_effect in E. cbv zeta in E.
  destruct E as [(m & _ & ->) | [[_ ->] | [(m & _ & _ & ->)
               | (w0 & sl & q & Hw0 & Hf & Hq & _ & ->)]]]; simpl; try tauto.
  assert (H0 : Forall nonnegative (stock_levels w0))
    by (destruct Hw0 as [-> | [_ ->]]; assumption).
  assert (Hall : Forall nonnegative
                   (map (assign_quantity (sl_id sl) q) (stock_levels w0))).
  { apply find_stock_level_pair in Hf. destruct Hf as [Hin _].
    rewrite Forall_forall in H0. apply Forall_forall. intros x Hx.
    apply in_map_iff in Hx. destruct Hx as (y & <- & Hy).
    unfold assign_quantity. destruct (sl_id y =? sl_id sl)%Z; [|now apply H0].
    unfold nonnegative. simpl. apply Hq. now apply (H0 sl). }
  tauto.
Qed.

Lemma stock_never_negative_witness :
  let out := register_inventory_transaction accept_all 0
               (movement 5 1 (-1) ADJUSTMENT) sample_session in
  Forall nonnegative (stock_levels (working (snd out))) /\
  Forall nonnegative (stock_levels (committed (snd out))).
Proof.
  assert (H : Forall nonnegative (stock_levels sample_db)).
  { repeat constructor. unfold nonnegative. simpl. lra. }
  exact (stock_never_negative accept_all 0 (movement 5 1 (-1) ADJUSTMENT)
           sample_session _ _ eq_refl H H).
Defined.





(** X5: the ledger is append-only.  From a session with nothing
    pending, a successful call appends exactly the transaction it
    returns and a failed call appends nothing; no recorded transaction
    is changed or removed. *)
Theorem ledger_is_append_only :
  forall integrity_ok now tin s r s',
    register_inventory_transaction integrity_ok now tin s = (r, s') ->
    clean s ->
    transactions (working s')
    = transactions (working s) ++
      match r with Ok tx => [tx] | Raise _ => [] end.
Proof.
  intros ok now tin s r s' E Hclean. unfold clean in Hclean.
  apply register_effect in E. cbv zeta in E.
  destruct E as [(m & -> & ->) | [[-> ->] | [(m & -> & _ & ->)
               | (w0 & sl & q & Hw0 & _ & _ & -> & ->)]]]; simpl;
    rewrite ?Hclean, ?app_nil_r; auto.
  destruct Hw0 as [-> | [_ ->]]; reflexivity.
Qed.

Lemma ledger_is_append_only_witness :
  let out := register_inventory_transaction accept_all 0
               (movement 5 1 9 SHIPMENT) sample_session in
  transactions (working (snd out))
  = transactions sample_db ++ match fst out with Ok tx => [tx] | Raise _ => [] end.
Proof.
  exact (ledger_is_append_only accept_all 0 (movement 5 1 9 SHIPMENT)
           sample_session _ _ eq_refl eq_refl).
Defined.

(** X1: on a resolved item and location, with the engine accepting the
    writes, a RECEIPT of q > 0 leaves prior + q and appends a
    transaction of type RECEIPT with quantity q; a RECEIPT of q <= 0 is
    rejected as invalid input and leaves the stock of the pair, the
    ledger and the committed state as they were. *)
Theorem receipt_adds_or_is_rejected :
  forall integrity_ok now tin s item location,
    (forall d, integrity_ok d = true) ->
    find_item (working s) (in_item_id tin) = Some item ->
    find_location (working s) (in_location_id tin) = Some location ->
    in_transaction_type tin = RECEIPT ->
    let i := in_item_id tin in
    let l := in_location_id tin in
    let q := in_quantity tin in
    let prior := stock_quantity (working s) i l in
    let out := register_inventory_transaction integrity_ok now tin s in
    (0 < q ->
       exists tx, fst out = Ok tx /\
         tx_quantity tx = q /\ tx_transaction_type tx = RECEIPT /\
         stock_quantity (working (snd out)) i l = prior + q /\
         transactions (working (snd out)) = transactions (working s) ++ [tx] /\
         committed (snd out) = working (snd out)) /\
    (q <= 0 ->
       exists m, fst out = Raise (CRUDException m) /\
         error_kind m = InvalidInput /\
         stock_quantity (working (snd out)) i l = prior /\
         transactions (working (snd out)) = transactions (working s) /\
         committed (snd out) = committed s).
Proof.
  intros ok now tin s item location Hok Hi Hl Ht. cbv zeta.
  destruct (register_inventory_transaction ok now tin s) as [r s'] eqn:E.
  apply (register_outcome _ _ _ _ _ _ _ _ Hi Hl) in E. cbv zeta in E.
  unfold rejected, applied in E. rewrite Ht in E. simpl.
  destruct E as [[_ [d Hd]] | [(m & -> & Hk & Hr & Hs & Htx & Hc)
                              | (tx & -> & (Hz & Hq & Ha) & Hqt & Htt & Htx & Hc)]].
  - rewrite Hok in Hd. discriminate.
  - split.
    + intros Hpos. exfalso. destruct Hr as [Hr | Hr]; lra.
    + intros _. exists m. tauto.
  - split.
    + intros _. exists tx. tauto.
    + intros Hle. exfalso. lra.
Qed.

Lemma receipt_witness :
  let out := register_inventory_transaction accept_all 0
               (movement 5 1 4 RECEIPT) sample_session in
  exists tx, fst out = Ok tx /\
    tx_quantity tx = 4 /\ tx_transaction_type tx = RECEIPT /\
    stock_quantity (working (snd out)) 5 1 = 3 + 4 /\
    transactions (working (snd out)) = transactions sample_db ++ [tx] /\
    committed (snd out) = working (snd out).
Proof.
  refine (proj1 (receipt_adds_or_is_rejected accept_all 0
                   (movement 5 1 4 RECEIPT) sample_session
                   (mkItem 5 "A1" "Bolt" None "Stk" 20)
                   (mkStorageLocation 1 "Hauptlager" None) _ _ _ _) _);
    reflexivity.
Defined.



(** ** Sorting *)

Lemma insert_by_perm {A} (leb : A -> A -> bool) x l :
  Permutation (insert_by leb x l) (x :: l).
Proof.
  induction l as [|y l IH]; simpl; [reflexivity|].
  destruct (leb x y); [reflexivity|].
  rewrite IH. apply perm_swap.
Qed.

Lemma sort_by_perm {A} (leb : A -> A -> bool) l : Permutation (sort_by leb l) l.
Proof.
  induction l as [|x l IH]; simpl; [reflexivity|].
  rewrite insert_by_perm. now constructor.
Qed.

Lemma insert_by_sorted {A} (leb : A -> A -> bool) x l :
  (forall a b, leb a b = true \/ leb b a = true) ->
  Sorted (fun a b => leb a b = true) l ->
  Sorted (fun a b => leb a b = true) (insert_by leb x l).
Proof.
  intros Htot. induction l as [|y l IH]; intros Hs; simpl.
  - repeat constructor.
  - destruct (leb x y) eqn:E.
    + constructor; [exact Hs | now constructor].
    + inversion Hs as [|? ? Hs' Hd]; subst. constructor; [now apply IH|].
      destruct l as [|z l]; simpl.
      * constructor. destruct (Htot x y); congruence.
      * destruct (leb x z); constructor.
        -- destruct (Htot x y); congruence.
        -- now inversion Hd.
Qed.

Lemma sort_by_sorted {A} (leb : A -> A -> bool) l :
  (forall a b, leb a b = true \/ leb b a = true) ->
  Sorted (fun a b => leb a b = true) (sort_by leb l).
Proof.
  intros Htot. induction l as [|x l IH]; simpl; [constructor|].
  now apply insert_by_sorted.
Qed.

Lemma sort_by_in {A} (leb : A -> A -> bool) l x : In x (sort_by leb l) <-> In x l.
Proof.
  split; apply Permutation_in; [|symmetry]; apply sort_by_perm.
Qed.

Lemma sort_by_length {A} (leb : A -> A -> bool) l :
  List.length (sort_by leb l) = List.length l.
Proof. apply Permutation_length, sort_by_perm. Qed.

(** ** Recent transactions *)

Lemma newest_first_total (a b : InventoryTransaction) :
  (tx_created_at b <=? tx_created_at a)%Z = true \/
  (tx_created_at a <=? tx_created_at b)%Z = true.
Proof.
  destruct (Z.le_ge_cases (tx_created_at a) (tx_created_at b)) as [H | H];
    apply Z.leb_le in H; tauto.
Qed.

(** X7: [list_transactions] answers the [limit] newest transactions:
    at most [limit] of them, newest first, all of them in the ledger,
    and none of the transactions left out is newer than one listed. *)
Theorem list_transactions_newest :
  forall d limit,
    let listed := list_transactions d limit in
    List.length listed = Nat.min limit (List.length (transactions d)) /\
    StronglySorted (fun a b => (tx_created_at b <= tx_created_at a)%Z) listed /\
    exists left_out,
      Permutation (transactions d) (listed ++ left_out) /\
      forall x y, In x listed -> In y left_out ->
        (tx_created_at y <= tx_created_at x)%Z.
Proof.
  intros d limit. cbv zeta. unfold list_transactions.
  set (leb := fun a b : InventoryTransaction =>
                (tx_created_at b <=? tx_created_at a)%Z).
  set (sorted := sort_by leb (transactions d)).
  assert (Hs : StronglySorted (fun a b => (tx_created_at b <= tx_created_at a)%Z)
                 sorted).
  { apply Sorted_StronglySorted; [intros a b c; lia|].
    pose proof (sort_by_sorted leb (transactions d) newest_first_total) as H.
    fold sorted in H. clearbody sorted.
    induction H as [|x l Hl IH Hd]; constructor; [exact IH|].
    destruct Hd as [|y l' Hy]; constructor. unfold leb in Hy.
    now apply Z.leb_le in Hy. }
  split; [|split].
  - rewrite length_firstn. unfold sorted. now rewrite sort_by_length.
  - rewrite <- (firstn_skipn limit sorted) in Hs.
    clear -Hs. induction (firstn limit sorted) as [|x l IH]; [constructor|].
    simpl in Hs. inversion Hs as [|? ? Hs' Hall]; subst.
    constructor; [now apply IH|]. apply Forall_app in Hall. tauto.
  - exists (skipn limit sorted). split.
    + rewrite firstn_skipn. symmetry. apply sort_by_perm.
    + rewrite <- (firstn_skipn limit sorted) in Hs.
      clear -Hs. induction (firstn limit sorted) as [|z l IH]; [intros ? ? []|].
      simpl in Hs. inversion Hs as [|? ? Hs' Hall]; subst.
      intros x y [<- | Hx] Hy; [|now apply IH].
      apply Forall_app in Hall. destruct Hall as [_ Hall].
      rewrite Forall_forall in Hall. now apply Hall.
Qed.

(** ** The dashboard *)

Lemma by_name_total (a b : Item) :
  String.leb (item_name a) (item_name b) = true \/
  String.leb (item_name b) (item_name a) = true.
Proof. apply String.leb_total. Qed.

(** X8: the low-stock list of the dashboard has exactly the items whose
    stock, summed over all locations, is at most their reorder level,
    each with that sum, ordered by name; an item without any stock
    level is listed as soon as its reorder level is not negative. *)
Theorem low_stock_lists_items_at_or_below_reorder_level :
  forall d,
    let listed := low_stock (get_inventory_overview d) in
    (forall e, In e listed <->
       exists i, In i (items d) /\
         item_on_hand d i <= inject_Z (reorder_level i) /\
         e = low_stock_entry d i) /\
    Sorted (fun a b => String.leb (low_name a) (low_name b) = true) listed /\
    (forall i, In i (items d) ->
       (forall sl, In sl (stock_levels d) -> sl_item_id sl <> item_id i) ->
       (0 <= reorder_level i)%Z ->
       In (low_stock_entry d i) listed).
Proof.
  intros d. cbv zeta. unfold get_inventory_overview. simpl.
  assert (Hin : forall e,
            In e (map (low_stock_entry d)
                    (sort_by (fun a b => String.leb (item_name a) (item_name b))
                       (filter (is_low d) (items d)))) <->
            exists i, In i (items d) /\
              item_on_hand d i <= inject_Z (reorder_level i) /\
              e = low_stock_entry d i).
  { intros e. rewrite in_map_iff. split.
    - intros (i & <- & Hi). apply sort_by_in, filter_In in Hi.
      destruct Hi as [Hi Hlow]. apply Qle_bool_iff in Hlow. eauto.
    - intros (i & Hi & Hlow & ->). exists i. split; [reflexivity|].
      apply sort_by_in, filter_In. split; [exact Hi|]. now apply Qle_bool_iff. }
  split; [exact Hin|]. split.
  - pose proof (sort_by_sorted (fun a b => String.leb (item_name a) (item_name b))
                  (filter (is_low d) (items d)) by_name_total) as H.
    clear Hin. induction H as [|x l Hl IH Hd]; simpl; [constructor|].
    constructor; [exact IH|]. destruct Hd; simpl; constructor. assumption.
  - intros i Hi Hnone Hlevel. apply Hin. exists i. split; [exact Hi|].
    split; [|reflexivity]. unfold item_on_hand.
    replace (filter (fun sl => (sl_item_id sl =? item_id i)%Z) (stock_levels d))
      with (@nil StockLevel).
    + simpl. unfold Qle. simpl. lia.
    + symmetry. induction (stock_levels d) as [|sl l IH]; simpl; [reflexivity|].
      destruct (sl_item_id sl =? item_id i)%Z eqn:E.
      * apply Z.eqb_eq in E. exfalso. apply (Hnone sl); [now left | exact E].
      * apply IH. intros sl' Hsl'. apply Hnone. now right.
Qed.

Lemma low_stock_witness :
  let d := mkDB [mkItem 1 "Z9" "Washer" None "Stk" 0] [] [] [] [] [] in
  In (low_stock_entry d (mkItem 1 "Z9" "Washer" None "Stk" 0))
     (low_stock (get_inventory_overview d)).
Proof.
  cbv zeta.
  apply (proj2 (proj2 (low_stock_lists_items_at_or_below_reorder_level
                         (mkDB [mkItem 1 "Z9" "Washer" None "Stk" 0] [] [] [] [] []))));
    simpl; [now left | intros ? [] | lia].
Defined.

(** ** Open orders of the planning page *)

Lemma count_outstanding_spec ls : forall r n,
  fst (count_outstanding ls r n)
    == r + Qsum (map open_quantity (filter is_outstanding ls)) /\
  snd (count_outstanding ls r n)
    = (n + Z.of_nat (List.length (filter is_outstanding ls)))%Z.
Proof.
  induction ls as [|l rest IH]; intros r n; simpl.
  - split; [ring | lia].
  - change (negb (Qle_bool (open_quantity l) 0)) with (is_outstanding l).
    destruct (is_outstanding l).
    + destruct (IH (r + open_quantity l) (n + 1)%Z) as [H1 H2].
      rewrite H1, H2. split; [simpl; ring|].
      change (List.length (l :: filter is_outstanding rest))
        with (S (List.length (filter is_outstanding rest))). lia.
    + apply IH.
Qed.

Lemma positive_gaps_sum ls :
  0 <= Qsum (map open_quantity (filter is_outstanding ls)) /\
  (filter is_outstanding ls <> [] ->
   0 < Qsum (map open_quantity (filter is_outstanding ls))).
Proof.
  induction ls as [|l rest [IH1 IH2]]; simpl.
  - split; [lra | congruence].
  - destruct (is_outstanding l) eqn:E; simpl; [|tauto].
    unfold is_outstanding in E. apply negb_true_iff, Qle_bool_false in E.
    split; [lra | intros _; lra].
Qed.

Lemma keep_some_in {A B} (f : A -> option B) l e :
  In e (keep_some (map f l)) <-> exists x, In x l /\ f x = Some e.
Proof.
  induction l as [|a l IH]; simpl.
  - split; [tauto | intros (x & [] & _)].
  - destruct (f a) as [b|] eqn:E; simpl; rewrite IH; split.
    + intros [<- | (x & Hx & Hf)]; eauto.
    + intros (x & [<- | Hx] & Hf); [left; congruence | eauto].
    + intros (x & Hx & Hf). eauto.
    + intros (x & [<- | Hx] & Hf); [congruence | eauto].
Qed.

(** X9: an order is on the planning page exactly when its status is
    DRAFT or RELEASED and one of its lines has received less than was
    ordered.  Its remaining quantity is then positive and is the sum of
    the open quantities of those lines alone (a line that received more
    than was ordered takes nothing off), and its number of outstanding
    lines is their number. *)
Theorem planning_lists_orders_with_open_lines :
  forall d e,
    In e (open_orders_data d) <->
    exists o, In o (purchase_orders d) /\
      open_order e = o /\
      status_is_open (po_status o) = true /\
      (exists l, In l (po_lines o) /\ received_quantity l < ordered_quantity l) /\
      remaining e = fst (outstanding (po_lines o)) /\
      outstanding_lines e = snd (outstanding (po_lines o)) /\
      0 < remaining e /\
      remaining e == Qsum (map open_quantity (filter is_outstanding (po_lines o))) /\
      outstanding_lines e
        = Z.of_nat (List.length (filter is_outstanding (po_lines o))).
Proof.
  intros d e. unfold open_orders_data. rewrite sort_by_in, keep_some_in.
  assert (Hentry : forall o,
            planning_entry o = Some e <->
            open_order e = o /\ status_is_open (po_status o) = true /\
            (exists l, In l (po_lines o) /\ received_quantity l < ordered_quantity l) /\
            remaining e = fst (outstanding (po_lines o)) /\
            outstanding_lines e = snd (outstanding (po_lines o))).
  { intros o. unfold planning_entry, outstanding.
    destruct (count_outstanding_spec (po_lines o) 0 0%Z) as [Hr Hn].
    pose proof (positive_gaps_sum (po_lines o)) as [Hs0 Hs1].
    assert (Hex : (exists l, In l (po_lines o) /\
                     received_quantity l < ordered_quantity l) <->
                  filter is_outstanding (po_lines o) <> []).
    { split.
      - intros (l & Hl & Hlt) Hnil.
        assert (Hin : In l (filter is_outstanding (po_lines o))).
        { apply filter_In. split; [exact Hl|]. unfold is_outstanding.
          apply negb_true_iff, Qle_bool_false. unfold open_quantity. lra. }
        rewrite Hnil in Hin. destruct Hin.
      - destruct (filter is_outstanding (po_lines o)) as [|l ls] eqn:Ef;
          [congruence|]. intros _. exists l.
        assert (Hin : In l (filter is_outstanding (po_lines o)))
          by (rewrite Ef; now left).
        apply filter_In in Hin. destruct Hin as [Hl Ho]. split; [exact Hl|].
        unfold is_outstanding in Ho. apply negb_true_iff, Qle_bool_false in Ho.
        unfold open_quantity in Ho. lra. }
    destruct (count_outstanding (po_lines o) 0 0%Z) as [r n]. simpl in *.
    destruct (po_status o); simpl;
      try (split; [discriminate | intros (_ & H & _); discriminate]).
    - destruct ((n =? 0)%Z && Qle_bool r 0)%bool eqn:Ec.
      + split; [discriminate|]. intros (_ & _ & Hl & _). exfalso.
        apply andb_true_iff in Ec. destruct Ec as [Ec _]. apply Z.eqb_eq in Ec.
        apply Hex in Hl. destruct (filter is_outstanding (po_lines o));
          [congruence | simpl in Hn; lia].
      + split.
        * intros H. injection H as <-. simpl. repeat split. apply Hex.
          intros Hnil. rewrite Hnil in Hr, Hn. simpl in Hr, Hn.
          apply andb_false_iff in Ec. destruct Ec as [Ec | Ec].
          -- apply Z.eqb_neq in Ec. lia.
          -- apply Qle_bool_false in Ec. lra.
        * intros (<- & _ & _ & H1 & H2). destruct e as [eo er en]. simpl in *.
          now subst.
    - destruct ((n =? 0)%Z && Qle_bool r 0)%bool eqn:Ec.
      + split; [discriminate|]. intros (_ & _ & Hl & _). exfalso.
        apply andb_true_iff in Ec. destruct Ec as [Ec _]. apply Z.eqb_eq in Ec.
        apply Hex in Hl. destruct (filter is_outstanding (po_lines o));
          [congruence | simpl in Hn; lia].
      + split.
        * intros H. injection H as <-. simpl. repeat split. apply Hex.
          intros Hnil. rewrite Hnil in Hr, Hn. simpl in Hr, Hn.
          apply andb_false_iff in Ec. destruct Ec as [Ec | Ec].
          -- apply Z.eqb_neq in Ec. lia.
          -- apply Qle_bool_false in Ec. lra.
        * intros (<- & _ & _ & H1 & H2). destruct e as [eo er en]. simpl in *.
          now subst. }
  split.
  - intros (o & Ho & He). apply sort_by_in in Ho. apply Hentry in He.
    destruct He as (E1 & E2 & E3 & E4 & E5). exists o.
    destruct (count_outstanding_spec (po_lines o) 0 0%Z) as [Hr Hn].
    pose proof (positive_gaps_sum (po_lines o)) as [_ Hs1].
    fold (outstanding (po_lines o)) in Hr, Hn. rewrite <- E4 in Hr.
    rewrite <- E5 in Hn.
    assert (Hpos : 0 < remaining e).
    { rewrite Hr. destruct E3 as (l & Hl & Hlt).
      assert (Hin : In l (filter is_outstanding (po_lines o))).
      { apply filter_In. split; [exact Hl|]. unfold is_outstanding.
        apply negb_true_iff, Qle_bool_false. unfold open_quantity. lra. }
      assert (Hne : filter is_outstanding (po_lines o) <> [])
        by (intros Hnil; rewrite Hnil in Hin; destruct Hin).
      specialize (Hs1 Hne). lra. }
    repeat split; try assumption.
    + rewrite Hr. ring.
  - intros (o & Ho & E1 & E2 & E3 & E4 & E5 & _). exists o.
    split; [now apply sort_by_in | apply Hentry; tauto].
Qed.

Lemma filter_length_perm {A} (p : A -> bool) (l l' : list A) :
  Permutation l l' -> List.length (filter p l) = List.length (filter p l').
Proof.
  induction 1 as [|x l l' _ IH|x y l|l l' l'' _ IH1 _ IH2]; simpl.
  - reflexivity.
  - destruct (p x); simpl; now rewrite IH.
  - destruct (p x), (p y); reflexivity.
  - now rewrite IH1.
Qed.

Lemma keep_some_length {A B} (f : A -> option B) (p : A -> bool) l :
  (forall x b, f x = Some b -> p x = true) ->
  (List.length (keep_some (map f l)) <= List.length (filter p l))%nat.
Proof.
  intros H. induction l as [|a l IH]; simpl; [lia|].
  destruct (f a) as [b|] eqn:E.
  - rewrite (H a b E). simpl. lia.
  - destruct (p a); simpl; lia.
Qed.

(** X10: the planning page never lists more open orders than the
    dashboard counts: the dashboard counts every order that is not
    COMPLETED, cancelled and fully received ones included, and every
    order of the planning page is among them. *)
Theorem planning_open_orders_within_dashboard_count :
  forall d,
    (Z.of_nat (List.length (open_orders_data d))
     <= open_orders (get_inventory_overview d))%Z /\
    forall e, In e (open_orders_data d) ->
      In (open_order e) (filter not_completed (purchase_orders d)).
Proof.
  intros d. split.
  - unfold open_orders_data, get_inventory_overview. simpl.
    rewrite sort_by_length.
    rewrite (filter_length_perm not_completed (purchase_orders d)
               (list_purchase_orders d))
      by (symmetry; apply sort_by_perm).
    apply inj_le, keep_some_length.
    intros o b. unfold planning_entry, not_completed.
    destruct (po_status o); try discriminate; reflexivity.
  - intros e He. unfold open_orders_data in He.
    apply sort_by_in, keep_some_in in He. destruct He as (o & Ho & He).
    apply (proj1 (sort_by_in _ _ _)) in Ho. unfold planning_entry in He.
    destruct (outstanding (po_lines o)) as [r n].
    destruct (po_status o) eqn:Es; try discriminate;
      destruct ((n =? 0)%Z && Qle_bool r 0)%bool; try discriminate;
      injection He as <-; simpl; apply filter_In; (split; [exact Ho|]);
      unfold not_completed; now rewrite Es.
Qed.

(** ** Inventory snapshot *)

Lemma all_some_map {A B} (f : A -> option B) (g : B -> Q) (h : A -> Q) l :
  (forall a, In a l -> exists b, f a = Some b /\ g b = h a) ->
  exists bs, all_some (map f l) = Some bs /\ map g bs = map h l.
Proof.
  induction l as [|a l IH]; intros H; simpl.
  - exists []. split; reflexivity.
  - destruct (H a (or_introl eq_refl)) as (b & -> & Hb).
    destruct IH as (bs & -> & Hbs); [intros x Hx; apply H; now right|].
    exists (b :: bs). simpl. now rewrite Hb, Hbs.
Qed.

Lemma Qsum_perm l l' : Permutation l l' -> Qsum l == Qsum l'.
Proof.
  induction 1 as [|x l l' _ IH|x y l|l l' l'' _ IH1 _ IH2]; simpl.
  - reflexivity.
  - now rewrite IH.
  - ring.
  - now rewrite IH1.
Qed.

(** X11: when every stock level names an item and a location of the
    database, the snapshot has one entry per stock level, in the order
    of the stock-level ids and with its quantity, so that the snapshot
    adds up to the total quantity of the dashboard; when a stock level
    names no item or no location, no snapshot is built. *)
Theorem snapshot_has_every_stock_level :
  forall now d,
    (references_resolve d ->
     exists snapshot,
       build_inventory_snapshot now d = Some snapshot /\
       map entry_quantity (entries snapshot)
         = map sl_quantity (list_stock_levels d) /\
       List.length (entries snapshot) = List.length (stock_levels d) /\
       Qsum (map entry_quantity (entries snapshot))
         == total_quantity (get_inventory_overview d)) /\
    (~ references_resolve d -> build_inventory_snapshot now d = None).
Proof.
  intros now d. split.
  - intros Href. unfold build_inventory_snapshot.
    destruct (all_some_map (snapshot_entry d) entry_quantity sl_quantity
                (list_stock_levels d)) as (es & -> & Hes).
    { intros sl Hsl. apply sort_by_in in Hsl. destruct (Href sl Hsl) as [Hi Hl].
      unfold snapshot_entry.
      destruct (find_item d (sl_item_id sl)); [|congruence].
      destruct (find_location d (sl_location_id sl)); [|congruence].
      eexists. split; reflexivity. }
    eexists. split; [reflexivity|]. simpl. split; [exact Hes|]. split.
    + rewrite <- (length_map entry_quantity), Hes, length_map.
      apply sort_by_length.
    + rewrite Hes. apply Qsum_perm, Permutation_map, sort_by_perm.
  - intros Hnot. unfold build_inventory_snapshot.
    destruct (all_some (map (snapshot_entry d) (list_stock_levels d)))
      as [es|] eqn:E; [|reflexivity].
    exfalso. apply Hnot. intros sl Hsl.
    apply (proj2 (sort_by_in (fun a b => (sl_id a <=? sl_id b)%Z) _ _)) in Hsl.
    fold (list_stock_levels d) in Hsl. revert es E. induction (list_stock_levels d) as [|x l IH]; [destruct Hsl|].
    simpl. intros es.
    destruct (snapshot_entry d x) as [b|] eqn:Ex; [|discriminate].
    destruct (all_some (map (snapshot_entry d) l)) as [bs|] eqn:El; [|discriminate].
    intros _. destruct Hsl as [<- | Hsl]; [|now apply (IH Hsl bs)].
    unfold snapshot_entry in Ex.
    destruct (find_item d (sl_item_id x)); [|discriminate].
    destruct (find_location d (sl_location_id x)); [|discriminate].
    split; discriminate.
Qed.

Lemma snapshot_witness :
  exists snapshot,
    build_inventory_snapshot 0 sample_db = Some snapshot /\
    map entry_quantity (entries snapshot) = [3] /\
    List.length (entries snapshot) = 1%nat.
Proof.
  destruct (proj1 (snapshot_has_every_stock_level 0 sample_db))
    as (snapshot & H1 & H2 & H3 & _).
  - intros sl [<- | []]. split; discriminate.
  - exists snapshot. split; [exact H1|]. split; [exact H2 | exact H3].
Defined.

(** ** Items *)

Lemma find_sku_none skus_of (l : list Item) sku0 :
  skus_of = map sku l ->
  find (fun i => String.eqb (sku i) sku0) l = None <-> ~ In sku0 skus_of.
Proof.
  intros ->. rewrite find_none_iff. split.
  - intros H Hin. apply in_map_iff in Hin. destruct Hin as (i & <- & Hi).
    specialize (H i Hi). simpl in H. now rewrite String.eqb_refl in H.
  - intros H i Hi. apply String.eqb_neq. intros E. apply H. rewrite <- E.
    now apply in_map.
Qed.

(** X12: [create_item] refuses a SKU that an item already has and
    leaves the session as it was; otherwise, with the engine accepting
    the write, it appends the item with the given fields and commits.
    Either way, and whatever the engine decides, the SKUs of a session
    with nothing pending stay unique. *)
Theorem create_item_keeps_skus_unique :
  forall integrity_ok item_in s,
    let out := create_item integrity_ok item_in s in
    ((exists i, In i (items (working s)) /\ sku i = ic_sku item_in) ->
       fst out = Failed (CRUDFailed ItemExists) /\ snd out = s) /\
    ((forall i, In i (items (working s)) -> sku i <> ic_sku item_in) ->
     (forall d, integrity_ok d = true) ->
       exists item, fst out = Done item /\
         sku item = ic_sku item_in /\ item_name item = ic_name item_in /\
         item_description item = ic_description item_in /\
         unit_of_measure item = ic_unit_of_measure item_in /\
         reorder_level item = ic_reorder_level item_in /\
         items (working (snd out)) = items (working s) ++ [item] /\
         committed (snd out) = working (snd out)) /\
    (clean s -> NoDup (map sku (items (working s))) ->
       NoDup (map sku (items (working (snd out)))) /\
       NoDup (map sku (items (committed (snd out))))).
Proof.
  intros ok item_in s. cbv zeta.
  unfold create_item, and_then, lift, query, add_item, commit, fail, done. simpl.
  destruct (find (fun i => String.eqb (sku i) (ic_sku item_in)) (items (working s)))
    as [found|] eqn:E; simpl.
  - split; [tauto|]. split.
    + intros Hnone. exfalso. apply find_some in E. destruct E as [Hin E].
      apply String.eqb_eq in E. exact (Hnone found Hin E).
    + intros Hclean Hnd. unfold clean in Hclean. now rewrite Hclean.
  - split; [|split].
    + intros (i & Hi & Hs). exfalso. pose proof (find_none _ _ E i Hi) as F.
      simpl in F. apply String.eqb_neq in F. contradiction.
    + intros _ Hok. rewrite Hok. simpl. eexists. repeat split.
    + intros Hclean Hnd. unfold clean in Hclean.
      assert (Hnew : NoDup (map sku (items (working s) ++
                       [mkItem (next_id (map item_id (items (working s))))
                          (ic_sku item_in) (ic_name item_in) (ic_description item_in)
                          (ic_unit_of_measure item_in) (ic_reorder_level item_in)]))).
      { rewrite map_app. simpl.
        apply NoDup_app; [exact Hnd | constructor; [simpl; tauto | constructor] |].
        intros x Hx [<- | []].
        now apply (find_sku_none _ _ _ eq_refl) in E. }
      destruct (ok _); simpl; rewrite ?Hclean; tauto.
Qed.

Lemma create_item_witness :
  let out := create_item accept_all (mkItemCreate "A1" "Other bolt" None "Stk" 0)
               sample_session in
  fst out = Failed (CRUDFailed ItemExists) /\ snd out = sample_session.
Proof.
  apply (proj1 (create_item_keeps_skus_unique accept_all
                  (mkItemCreate "A1" "Other bolt" None "Stk" 0) sample_session)).
  eexists. split; [left; reflexivity | reflexivity].
Defined.

(** X13: an item created by [create_item] is the one the ERP import
    resolves for its SKU: [get_or_create_item_by_sku] then answers that
    item, whatever defaults it is given, and writes nothing. *)
Theorem created_item_is_reused_by_import :
  forall integrity_ok item_in defaults s item s',
    create_item integrity_ok item_in s = (Done item, s') ->
    get_or_create_item_by_sku integrity_ok (ic_sku item_in) defaults s'
    = (Ok item, s').
Proof.
  intros ok item_in defaults s item s'.
  unfold create_item, and_then, lift, query, add_item, commit, fail, done. simpl.
  destruct (find (fun i => String.eqb (sku i) (ic_sku item_in)) (items (working s)))
    as [found|] eqn:E; simpl; [discriminate|].
  destruct (ok _); simpl; [|discriminate].
  intros H. injection H as <- <-.
  unfold get_or_create_item_by_sku, bind, query, ret. simpl.
  rewrite find_app_first, E. simpl. now rewrite String.eqb_refl.
Qed.

Lemma created_item_is_reused_witness :
  let out := create_item accept_all (mkItemCreate "C3" "Spring" None "Stk" 5)
               sample_session in
  get_or_create_item_by_sku accept_all "C3" None (snd out)
  = (Ok (mkItem 6 "C3" "Spring" None "Stk" 5), snd out).
Proof.
  apply (created_item_is_reused_by_import accept_all
           (mkItemCreate "C3" "Spring" None "Stk" 5) None sample_session).
  reflexivity.
Defined.

(** ** Locations *)

Lemma first_location_least ls m :
  first_location ls = Some m ->
  In m ls /\ forall l, In l ls -> (location_id m <= location_id l)%Z.
Proof.
  revert m. induction ls as [|x ls IH]; simpl; [discriminate|].
  intros m. destruct (first_location ls) as [y|] eqn:E.
  - destruct (IH y eq_refl) as [Hy Hmin].
    destruct (location_id x <=? location_id y)%Z eqn:C; intros H; injection H as <-.
    + apply Z.leb_le in C. split; [now left|].
      intros l [<- | Hl]; [lia|]. specialize (Hmin l Hl). lia.
    + apply Z.leb_gt in C. split; [now right|].
      intros l [<- | Hl]; [lia | now apply Hmin].
  - intros H. injection H as <-. split; [now left|].
    destruct ls as [|z ls]; [intros l [<- | []]; lia|].
    simpl in E. destruct (first_location ls); [destruct (_ <=? _)%Z|]; discriminate.
Qed.

Lemma first_location_none ls : first_location ls = None -> ls = [].
Proof.
  destruct ls as [|x ls]; [reflexivity|]. simpl.
  destruct (first_location ls); [destruct (_ <=? _)%Z|]; discriminate.
Qed.

(** X14: when [ensure_default_location] answers a location, that
    location is in the database and has the least id of all; it was
    created, named "Hauptlager", only if there was none.  Calling it
    again on the session it leaves answers the same location and
    changes nothing. *)
Theorem ensure_default_location_is_idempotent :
  forall integrity_ok s location s',
    ensure_default_location integrity_ok s = (Ok location, s') ->
    In location (locations (working s')) /\
    (forall l, In l (locations (working s')) ->
       (location_id location <= location_id l)%Z) /\
    (locations (working s) <> [] -> s' = s) /\
    (locations (working s) = [] -> location_name location = "Hauptlager"%string /\
       locations (working s') = [location] /\ committed s' = working s') /\
    ensure_default_location integrity_ok s' = (Ok location, s').
Proof.
  intros ok s location s'.
  unfold ensure_default_location, bind, query, ret, add_location, commit. simpl.
  destruct (first_location (locations (working s))) as [m|] eqn:E.
  - intros H. injection H as <- <-. rewrite E.
    destruct (first_location_least _ _ E) as [Hin Hmin].
    split; [exact Hin|]. split; [exact Hmin|]. split; [reflexivity|].
    split; [|reflexivity].
    intros Hnil. rewrite Hnil in Hin. destruct Hin.
  - apply first_location_none in E. rewrite E. simpl.
    destruct (ok _); [|discriminate]. intros H. injection H as <- <-. simpl.
    split; [now left|]. split; [intros l [<- | []]; simpl; lia|].
    split; [intros Hne; now contradiction Hne|].
    split; [intros _; repeat split | reflexivity].
Qed.

Lemma ensure_default_location_witness :
  let out := ensure_default_location accept_all
               (mkSession (mkDB [] [] [] [] [] []) (mkDB [] [] [] [] [] [])) in
  exists location, fst out = Ok location /\
    location_name location = "Hauptlager"%string /\
    ensure_default_location accept_all (snd out) = (Ok location, snd out).
Proof.
  cbv zeta. eexists. split; [reflexivity|].
  destruct (ensure_default_location_is_idempotent accept_all
              (mkSession (mkDB [] [] [] [] [] []) (mkDB [] [] [] [] [] []))
              _ _ eq_refl) as (_ & _ & _ & H & Hagain).
  split; [exact (proj1 (H eq_refl)) | exact Hagain].
Defined.

(** X15: [create_location] refuses a name that a location already has
    (compared literally) and leaves the session as it was; otherwise,
    with the engine accepting the write, it appends the location and
    commits.  The names of a session with nothing pending stay unique. *)
Theorem create_location_keeps_names_unique :
  forall integrity_ok location_in s,
    let out := create_location integrity_ok location_in s in
    ((exists l, In l (locations (working s)) /\
        location_name l = lc_name location_in) ->
       fst out = Failed (CRUDFailed LocationExists) /\ snd out = s) /\
    ((forall l, In l (locations (working s)) ->
        location_name l <> lc_name location_in) ->
     (forall d, integrity_ok d = true) ->
       exists location, fst out = Done location /\
         location_name location = lc_name location_in /\
         location_description location = lc_description location_in /\
         locations (working (snd out)) = locations (working s) ++ [location] /\
         committed (snd out) = working (snd out)) /\
    (clean s -> NoDup (map location_name (locations (working s))) ->
       NoDup (map location_name (locations (working (snd out))))).
Proof.
  intros ok location_in s. cbv zeta.
  unfold create_location, and_then, lift, query, add_location, commit, fail, done.
  simpl.
  destruct (find (fun l => String.eqb (location_name l) (lc_name location_in))
              (locations (working s))) as [found|] eqn:E; simpl.
  - split; [tauto|]. split; [|tauto].
    intros Hnone. exfalso. apply find_some in E. destruct E as [Hin E].
    apply String.eqb_eq in E. exact (Hnone found Hin E).
  - split; [|split].
    + intros (l & Hl & Hs). exfalso. pose proof (find_none _ _ E l Hl) as F.
      simpl in F. apply String.eqb_neq in F. contradiction.
    + intros _ Hok. rewrite Hok. simpl. eexists. repeat split.
    + intros Hclean Hnd. unfold clean in Hclean.
      destruct (ok _); simpl; [|now rewrite Hclean].
      rewrite map_app. simpl.
      apply NoDup_app; [exact Hnd | constructor; [simpl; tauto | constructor] |].
      intros x Hx [<- | []]. apply in_map_iff in Hx. destruct Hx as (l & El & Hl).
      pose proof (find_none _ _ E l Hl) as F. simpl in F.
      apply String.eqb_neq in F. contradiction.
Qed.

Lemma create_location_witness :
  let out := create_location accept_all
               (mkStorageLocationCreate "Hauptlager" (Some "again")) sample_session in
  fst out = Failed (CRUDFailed LocationExists) /\ snd out = sample_session.
Proof.
  apply (proj1 (create_location_keeps_names_unique accept_all
                  (mkStorageLocationCreate "Hauptlager" (Some "again"))
                  sample_session)).
  eexists. split; [left; reflexivity | reflexivity].
Defined.

(** ** Purchase orders *)

(** Building the lines of an order reads the items and writes nothing. *)
Lemma build_order_lines_effect lines : forall s,
  (exists ls,
     build_order_lines lines s = (Done ls, s) /\
     Forall2 (fun line_in l =>
                line_id l = 0%Z /\ line_item_id l = plc_item_id line_in /\
                line_description l = plc_description line_in /\
                ordered_quantity l = plc_ordered_quantity line_in /\
                received_quantity l = 0 /\
                unit_price l = plc_unit_price line_in)
       lines ls /\
     forall line_in id, In line_in lines -> plc_item_id line_in = Some id ->
       find_item (working s) id <> None) \/
  (build_order_lines lines s = (Failed (CRUDFailed LineItemNotFound), s) /\
   exists line_in id, In line_in lines /\ plc_item_id line_in = Some id /\
     find_item (working s) id = None).
Proof.
  induction lines as [|line_in rest IH]; intros s; simpl.
  - left. exists []. unfold done. split; [reflexivity|].
    split; [constructor | intros ? ? []].
  - unfold and_then at 1. unfold _build_purchase_order_line, and_then, lift,
      get_item, query, done, fail.
    destruct (plc_item_id line_in) as [id|] eqn:Eid; simpl.
    + destruct (find_item (working s) id) as [item|] eqn:Ef; simpl.
      * pose proof (find_item_id _ _ _ Ef) as Hid.
        destruct (IH s) as [(ls & -> & Hall & Hres) | (-> & line0 & id0 & H0)].
        -- left. eexists. split; [reflexivity|]. split.
           ++ constructor; [simpl; rewrite Hid, Eid; tauto | exact Hall].
           ++ intros l0 i0 [<- | Hl0] Hi0; [|now apply (Hres l0)].
              rewrite Eid in Hi0. injection Hi0 as <-. congruence.
        -- right. split; [reflexivity|]. exists line0, id0. tauto.
      * right. split; [reflexivity|]. exists line_in, id. tauto.
    + destruct (IH s) as [(ls & -> & Hall & Hres) | (-> & line0 & id0 & H0)].
      * left. eexists. split; [reflexivity|]. split.
        -- constructor; [simpl; rewrite Eid; tauto | exact Hall].
        -- intros l0 i0 [<- | Hl0] Hi0; [congruence | now apply (Hres l0)].
      * right. split; [reflexivity|]. exists line0, id0. tauto.
Qed.

(** X16: [create_purchase_order] is all or nothing.  An order number
    that exists, or a line that names an unknown item, fails and leaves
    the session as it was, even when earlier lines were well formed;
    otherwise, with the engine accepting the write, the order is
    appended with the given header and one line per incoming line, in
    order, each with nothing received, and committed. *)
Theorem create_purchase_order_is_all_or_nothing :
  forall integrity_ok now order_in s,
    let out := create_purchase_order integrity_ok now order_in s in
    let lines := or_default (poc_lines order_in) [] in
    (forall m, fst out = Failed (CRUDFailed m) -> snd out = s) /\
    (find_order (poc_order_number order_in) (purchase_orders (working s)) <> None ->
       fst out = Failed (CRUDFailed OrderNumberExists)) /\
    (find_order (poc_order_number order_in) (purchase_orders (working s)) = None ->
     (exists line_in id, In line_in lines /\ plc_item_id line_in = Some id /\
        find_item (working s) id = None) ->
       fst out = Failed (CRUDFailed LineItemNotFound)) /\
    (find_order (poc_order_number order_in) (purchase_orders (working s)) = None ->
     (forall line_in id, In line_in lines -> plc_item_id line_in = Some id ->
        find_item (working s) id <> None) ->
     (forall d, integrity_ok d = true) ->
       exists o, fst out = Done o /\
         purchase_orders (working (snd out)) = purchase_orders (working s) ++ [o] /\
         order_number o = poc_order_number order_in /\
         po_supplier_id o = poc_supplier_id order_in /\
         po_status o = poc_status order_in /\
         expected_date o = poc_expected_date order_in /\
         po_notes o = poc_notes order_in /\
         Forall2 (fun line_in l =>
                    line_item_id l = plc_item_id line_in /\
                    line_description l = plc_description line_in /\
                    ordered_quantity l = plc_ordered_quantity line_in /\
                    received_quantity l = 0 /\
                    unit_price l = plc_unit_price line_in)
           lines (po_lines o) /\
         committed (snd out) = working (snd out)).
Proof.
  intros ok now order_in s. cbv zeta.
  destruct (create_purchase_order ok now order_in s) as [r s'] eqn:Eout. simpl.
  unfold create_purchase_order, get_purchase_order_by_number in Eout.
  unfold and_then at 1 in Eout. unfold lift at 1, query at 1 in Eout.
  simpl in Eout.
  destruct (find_order (poc_order_number order_in) (purchase_orders (working s)))
    as [found|] eqn:E.
  { unfold fail in Eout. injection Eout as <- <-.
    split; [reflexivity|]. split; [reflexivity|].
    split; intros; congruence. }
  unfold and_then at 1 in Eout.
  destruct (build_order_lines_effect (or_default (poc_lines order_in) []) s)
    as [(ls & Eb & Hall & Hres) | (Eb & line0 & id0 & H0 & H1 & H2)];
    rewrite Eb in Eout.
  - unfold and_then, lift, query, add_purchase_order, modify, commit, done in Eout.
    simpl in Eout.
    destruct (ok _) eqn:Eok; simpl in Eout; injection Eout as <- <-.
    + split; [discriminate|]. split; [congruence|]. split.
      * intros _ (line_in & id & Hl & Hid & Hnone). exfalso.
        exact (Hres line_in id Hl Hid Hnone).
      * intros _ _ _. eexists. split; [reflexivity|]. simpl.
        repeat split.
        clear -Hall. generalize (next_id (all_line_ids (working s))).
        induction Hall as [|line_in l lines ls H Hall IH]; intros base; simpl;
          constructor; [simpl; tauto | apply IH].
    + split; [discriminate|]. split; [congruence|]. split.
      * intros _ (line_in & id & Hl & Hid & Hnone). exfalso.
        exact (Hres line_in id Hl Hid Hnone).
      * intros _ _ Hok. rewrite Hok in Eok. discriminate.
  - injection Eout as <- <-.
    split; [reflexivity|]. split; [congruence|]. split; [reflexivity|].
    intros _ Hres. exfalso. exact (Hres line0 id0 H0 H1 H2).
Qed.

Lemma create_purchase_order_witness :
  let order_in :=
    mkPurchaseOrderCreate "PO-7" (Some 1%Z) DRAFT None None
      (Some [mkPurchaseOrderLineCreate (Some 5%Z) None 2 None;
             mkPurchaseOrderLineCreate (Some 77%Z) None 1 None]) in
  let out := create_purchase_order accept_all 0 order_in sample_session in
  fst out = Failed (CRUDFailed LineItemNotFound) /\ snd out = sample_session.
Proof.
  cbv zeta.
  destruct (create_purchase_order_is_all_or_nothing accept_all 0
              (mkPurchaseOrderCreate "PO-7" (Some 1%Z) DRAFT None None
                 (Some [mkPurchaseOrderLineCreate (Some 5%Z) None 2 None;
                        mkPurchaseOrderLineCreate (Some 77%Z) None 1 None]))
              sample_session) as (Hsame & _ & Hline & _).
  cbv zeta in Hsame, Hline.
  assert (H : fst (create_purchase_order accept_all 0
                     (mkPurchaseOrderCreate "PO-7" (Some 1%Z) DRAFT None None
                        (Some [mkPurchaseOrderLineCreate (Some 5%Z) None 2 None;
                               mkPurchaseOrderLineCreate (Some 77%Z) None 1 None]))
                     sample_session)
              = Failed (CRUDFailed LineItemNotFound)).
  { apply Hline; [reflexivity|].
    exists (mkPurchaseOrderLineCreate (Some 77%Z) None 1 None), 77%Z.
    split; [right; left; reflexivity | split; reflexivity]. }
  split; [exact H | exact (Hsame _ H)].
Defined.

(** X17: [update_purchase_order] changes the fields that are given and
    leaves the others, the order number, the creation time and the
    lines as they are.  An optional field can be set but not cleared:
    after the update it is empty only if it was empty and none was
    given.  Applying the same update twice is applying it once, and with
    the engine accepting the write the rows with another id are
    untouched. *)
Theorem update_purchase_order_is_partial :
  forall integrity_ok purchase_order order_in s,
    (forall d, integrity_ok d = true) ->
    let out := update_purchase_order integrity_ok purchase_order order_in s in
    let o' := apply_order_update order_in purchase_order in
    fst out = Ok o' /\
    po_id o' = po_id purchase_order /\
    order_number o' = order_number purchase_order /\
    po_created_at o' = po_created_at purchase_order /\
    po_lines o' = po_lines purchase_order /\
    (forall st, pou_status order_in = Some st -> po_status o' = st) /\
    (pou_status order_in = None -> po_status o' = po_status purchase_order) /\
    (po_supplier_id o' = None ->
       po_supplier_id purchase_order = None /\ pou_supplier_id order_in = None) /\
    (expected_date o' = None ->
       expected_date purchase_order = None /\ pou_expected_date order_in = None) /\
    (po_notes o' = None ->
       po_notes purchase_order = None /\ pou_notes order_in = None) /\
    apply_order_update order_in o' = o' /\
    purchase_orders (working (snd out))
      = map (on_order_with_id (po_id purchase_order) (apply_order_update order_in))
          (purchase_orders (working s)) /\
    (forall o, In o (purchase_orders (working s)) ->
       po_id o <> po_id purchase_order ->
       In o (purchase_orders (working (snd out)))) /\
    committed (snd out) = working (snd out).
Proof.
  intros ok po u s Hok. cbv zeta.
  unfold update_purchase_order, bind, modify, commit, ret. simpl.
  rewrite Hok. simpl. unfold apply_order_update. simpl.
  split; [reflexivity|]. do 4 (split; [reflexivity|]).
  split; [intros st ->; reflexivity|].
  split; [intros ->; reflexivity|].
  split; [destruct (pou_supplier_id u); [discriminate | tauto]|].
  split; [destruct (pou_expected_date u); [discriminate | tauto]|].
  split; [destruct (pou_notes u); [discriminate | tauto]|].
  split.
  { destruct (pou_supplier_id u), (pou_status u), (pou_expected_date u),
      (pou_notes u); reflexivity. }
  split; [reflexivity|]. split; [|reflexivity].
  intros o Ho Hne. apply in_map_iff. exists o. split; [|exact Ho].
  unfold on_order_with_id. apply Z.eqb_neq in Hne. now rewrite Hne.
Qed.

Lemma update_purchase_order_witness :
  let po := mkPurchaseOrder 1 "PO-1" (Some 1%Z) RELEASED None None 0
              [mkPurchaseOrderLine 1 (Some 5%Z) None 10 4 None] in
  let out := update_purchase_order accept_all po
               (mkPurchaseOrderUpdate None (Some COMPLETED) None None)
               sample_session in
  fst out = Ok (mkPurchaseOrder 1 "PO-1" (Some 1%Z) COMPLETED None None 0
                  [mkPurchaseOrderLine 1 (Some 5%Z) None 10 4 None]).
Proof.
  exact (proj1 (update_purchase_order_is_partial accept_all
                  (mkPurchaseOrder 1 "PO-1" (Some 1%Z) RELEASED None None 0
                     [mkPurchaseOrderLine 1 (Some 5%Z) None 10 4 None])
                  (mkPurchaseOrderUpdate None (Some COMPLETED) None None)
                  sample_session (fun _ => eq_refl))).
Defined.

(** X18: [update_item] never changes the id or the SKU of an item;
    a field that is not given keeps its value, a description can be
    set but not cleared, and with the engine accepting the write the
    SKUs of the database are the same, in the same order, after the
    update. *)
Theorem update_item_keeps_sku :
  forall integrity_ok item item_in s,
    (forall d, integrity_ok d = true) ->
    let out := update_item integrity_ok item item_in s in
    let i' := apply_item_update item_in item in
    fst out = Ok i' /\
    item_id i' = item_id item /\ sku i' = sku item /\
    (iu_name item_in = None -> item_name i' = item_name item) /\
    (iu_unit_of_measure item_in = None ->
       unit_of_measure i' = unit_of_measure item) /\
    (iu_reorder_level item_in = None -> reorder_level i' = reorder_level item) /\
    (item_description i' = None ->
       item_description item = None /\ iu_description item_in = None) /\
    map sku (items (working (snd out))) = map sku (items (working s)) /\
    map item_id (items (working (snd out))) = map item_id (items (working s)) /\
    committed (snd out) = working (snd out).
Proof.
  intros ok item u s Hok. cbv zeta.
  unfold update_item, bind, modify, commit, ret. simpl. rewrite Hok. simpl.
  unfold apply_item_update. simpl.
  split; [reflexivity|]. do 2 (split; [reflexivity|]).
  split; [intros ->; reflexivity|].
  split; [intros ->; reflexivity|].
  split; [intros ->; reflexivity|].
  split; [destruct (iu_description u); [discriminate | tauto]|].
  split; [|split; [|reflexivity]].
  - rewrite map_map. apply map_ext. intros i. unfold on_item_with_id.
    now destruct (item_id i =? item_id item)%Z.
  - rewrite map_map. apply map_ext. intros i. unfold on_item_with_id.
    now destruct (item_id i =? item_id item)%Z.
Qed.

Lemma update_item_witness :
  let out := update_item accept_all (mkItem 5 "A1" "Bolt" None "Stk" 20)
               (mkItemUpdate (Some "Bolt M8") None None (Some 30%Z)) sample_session in
  fst out = Ok (mkItem 5 "A1" "Bolt M8" None "Stk" 30).
Proof.
  exact (proj1 (update_item_keeps_sku accept_all (mkItem 5 "A1" "Bolt" None "Stk" 20)
                  (mkItemUpdate (Some "Bolt M8") None None (Some 30%Z))
                  sample_session (fun _ => eq_refl))).
Defined.

(** ** Deleting an item *)



(** ** Lines of an order *)

(** X20: [add_purchase_order_line] with a line that names an unknown
    item fails and leaves the session as it was, whatever the engine.
    Otherwise, with the engine accepting the write, the order with the
    id of the given one gets one more line at the end of its lines and
    the other orders are untouched; the new line has an id that no line
    had, nothing received, and the item, description, quantity and
    price that were given. *)
Theorem add_purchase_order_line_appends_or_fails :
  forall integrity_ok purchase_order line_in s,
    let out := add_purchase_order_line integrity_ok purchase_order line_in s in
    let d := working s in
    ((exists id, plc_item_id line_in = Some id /\ find_item d id = None) ->
       out = (Failed (CRUDFailed LineItemNotFound), s)) /\
    ((forall id, plc_item_id line_in = Some id -> find_item d id <> None) ->
     (forall d, integrity_ok d = true) ->
       exists line, fst out = Done line /\
         ~ In (line_id line) (all_line_ids d) /\
         line_item_id line = plc_item_id line_in /\
         line_description line = plc_description line_in /\
         ordered_quantity line = plc_ordered_quantity line_in /\
         received_quantity line = 0 /\
         unit_price line = plc_unit_price line_in /\
         purchase_orders (working (snd out))
           = map (on_order_with_id (po_id purchase_order)
                    (fun o => set_lines (po_lines o ++ [line]) o))
               (purchase_orders d) /\
         (forall o, In o (purchase_orders d) -> po_id o <> po_id purchase_order ->
            In o (purchase_orders (working (snd out)))) /\
         committed (snd out) = working (snd out)).
Proof.
  intros ok po line_in s. cbv zeta.
  unfold add_purchase_order_line, _build_purchase_order_line.
  split.
  - intros (id & -> & Hnone).
    unfold and_then, lift, get_item, query, fail. simpl. now rewrite Hnone.
  - intros Hres Hok.
    assert (E : (match plc_item_id line_in with
                 | Some id =>
                     and_then (lift (get_item id))
                       (fun item => match item with
                                    | Some item => done (Some (item_id item))
                                    | None => fail LineItemNotFound
                                    end)
                 | None => done None
                 end) s = (Done (plc_item_id line_in), s)).
    { destruct (plc_item_id line_in) as [id|] eqn:Eid; [|reflexivity].
      unfold and_then, lift, get_item, query, done, fail. simpl.
      destruct (find_item (working s) id) as [item|] eqn:Ef.
      - now rewrite (find_item_id _ _ _ Ef).
      - exfalso. exact (Hres id eq_refl Ef). }
    set (out := and_then _ _ s).
    pose proof (eq_refl out) as Eout. unfold out at 2 in Eout. clearbody out.
    unfold and_then at 1 2 in Eout. rewrite E in Eout.
    unfold and_then, lift, query, append_line, commit, done in Eout.
    simpl in Eout. rewrite Hok in Eout. simpl in Eout. subst out.
    eexists. split; [reflexivity|]. simpl.
    split; [apply next_id_fresh|]. do 5 (split; [reflexivity|]).
    split; [reflexivity|]. split; [|reflexivity].
    intros o Ho Hne. apply in_map_iff. exists o. split; [|exact Ho].
    unfold on_order_with_id. apply Z.eqb_neq in Hne. now rewrite Hne.
Qed.

Lemma add_purchase_order_line_witness :
  let po := mkPurchaseOrder 1 "PO-1" (Some 1%Z) RELEASED None None 0
              [mkPurchaseOrderLine 1 (Some 5%Z) None 10 4 None] in
  add_purchase_order_line accept_all po
    (mkPurchaseOrderLineCreate (Some 77%Z) None 1 None) sample_session
  = (Failed (CRUDFailed LineItemNotFound), sample_session).
Proof.
  cbv zeta.
  apply (proj1 (add_purchase_order_line_appends_or_fails accept_all
                  (mkPurchaseOrder 1 "PO-1" (Some 1%Z) RELEASED None None 0
                     [mkPurchaseOrderLine 1 (Some 5%Z) None 10 4 None])
                  (mkPurchaseOrderLineCreate (Some 77%Z) None 1 None)
                  sample_session)).
  exists 77%Z. split; reflexivity.
Defined.

Lemma update_line_twice id f g o :
  update_line id g (update_line id f o)
  = update_line id (fun l => if (line_id (f l) =? id)%Z then g (f l) else f l) o.
Proof.
  unfold update_line, set_lines. simpl. rewrite map_map. f_equal.
  apply map_ext. intros l. destruct (line_id l =? id)%Z eqn:E; [reflexivity|].
  now rewrite E.
Qed.

(** X21: [set_purchase_order_line_received] rejects a negative quantity
    and leaves the session as it was, whatever the engine.  Of two
    accepted writes to the same line the second wins: the database is
    the one the second write alone would give. *)
Theorem received_quantity_last_write_wins :
  forall integrity_ok line q1 q2 s,
    (q1 < 0 ->
       set_purchase_order_line_received integrity_ok line q1 s
       = (Raise (CRUDException ReceivedIsNegative), s)) /\
    ((forall d, integrity_ok d = true) -> 0 <= q1 -> 0 <= q2 ->
       let out1 := set_purchase_order_line_received integrity_ok line q1 s in
       exists line1, fst out1 = Ok line1 /\
         set_purchase_order_line_received integrity_ok line1 q2 (snd out1)
         = set_purchase_order_line_received integrity_ok line q2 s).
Proof.
  intros ok line q1 q2 s. split.
  - intros Hneg. unfold set_purchase_order_line_received.
    destruct (Qle_bool 0 q1) eqn:E; [|reflexivity].
    apply Qle_bool_iff in E. exfalso. apply (Qlt_not_le _ _ Hneg E).
  - intros Hok H1 H2. cbv zeta. unfold set_purchase_order_line_received.
    apply Qle_bool_iff in H1, H2. rewrite H1, H2. simpl.
    unfold bind, modify, commit, ret. simpl. rewrite !Hok. simpl.
    eexists. split; [reflexivity|]. simpl. rewrite Hok. simpl.
    assert (E : map (update_line (line_id line) (set_received q2))
                  (map (update_line (line_id line) (set_received q1))
                     (purchase_orders (working s)))
                = map (update_line (line_id line) (set_received q2))
                    (purchase_orders (working s))).
    { rewrite map_map. apply map_ext. intros o. rewrite update_line_twice.
      unfold update_line. f_equal. apply map_ext. intros l.
      destruct (line_id l =? line_id line)%Z eqn:E; [|reflexivity].
      simpl. now rewrite E. }
    unfold with_purchase_orders. simpl. rewrite E. reflexivity.
Qed.

Lemma received_quantity_last_write_wins_witness :
  set_purchase_order_line_received accept_all
    (mkPurchaseOrderLine 1 (Some 5%Z) None 10 4 None) (-1) sample_session
  = (Raise (CRUDException ReceivedIsNegative), sample_session).
Proof.
  apply (proj1 (received_quantity_last_write_wins accept_all
                  (mkPurchaseOrderLine 1 (Some 5%Z) None 10 4 None) (-1) 0
                  sample_session)).
  reflexivity.
Defined.

(** ** The counters of an import *)

Lemma is_new_contents d order : is_new (contents d) order = is_new d order.
Proof.
  unfold is_new, contents. simpl. rewrite find_order_erased.
  now destruct (find_order _ _).
Qed.

Lemma count_all_split now payload : forall d r,
  NoDup (map po_id (purchase_orders d)) ->
  NoDup (map erp_order_number payload) ->
  let r' := count_all now payload d r in
  imported r' = (imported r + Z.of_nat (List.length (filter (is_new d) payload)))%Z /\
  updated r'
    = (updated r
       + Z.of_nat (List.length (filter (fun o => negb (is_new d o)) payload)))%Z /\
  skipped r' = skipped r /\ details r' = details r.
Proof.
  induction payload as [|order rest IH]; intros d r Hnd Hp; cbv zeta.
  - simpl. repeat split; lia.
  - change (count_all now (order :: rest) d r)
      with (count_all now rest (import_contents now order d) (count_order order d r)).
    inversion Hp as [|? ? Hnotin Hp']; subst.
    destruct (IH (import_contents now order d) (count_order order d r))
      as (I1 & I2 & I3 & I4);
      [now apply import_contents_nodup | exact Hp' |].
    assert (Hsame : forall o, In o rest ->
              is_new (import_contents now order d) o = is_new d o).
    { intros o Ho. unfold is_new. rewrite import_contents_other; [reflexivity|exact Hnd|].
      intros E. apply Hnotin. rewrite E. now apply in_map. }
    rewrite I1, I2, I3, I4.
    rewrite (filter_ext_in _ (is_new d) rest Hsame).
    rewrite (filter_ext_in (fun o => negb (is_new (import_contents now order d) o))
               (fun o => negb (is_new d o)) rest)
      by (intros o Ho; now rewrite Hsame).
    simpl. unfold count_order, is_new.
    destruct (find_order (erp_order_number order) (purchase_orders d)); simpl;
      repeat split; try reflexivity;
      change (List.length (order :: ?l)) with (S (List.length l)); lia.
Qed.

(** X22: with the engine accepting the writes, the primary keys of the
    orders unique and no order number twice in the payload, the import
    returns its counters with nothing skipped and no detail; [imported]
    is the number of incoming orders whose number no order had,
    [updated] the number of those whose number an order had, and the
    two add up to the length of the payload. *)
Theorem import_counts_new_and_known_orders :
  forall integrity_ok integrity_text now payload s,
    (forall d, integrity_ok d = true) ->
    NoDup (map po_id (purchase_orders (working s))) ->
    NoDup (map erp_order_number payload) ->
    let out := import_purchase_orders_from_payload integrity_ok integrity_text
                 now payload s in
    exists r, fst out = Ok r /\
      imported r = Z.of_nat (List.length (filter (is_new (working s)) payload)) /\
      updated r
        = Z.of_nat (List.length
                      (filter (fun o => negb (is_new (working s) o)) payload)) /\
      (imported r + updated r)%Z = Z.of_nat (List.length payload) /\
      skipped r = 0%Z /\ details r = [].
Proof.
  intros ok txt now payload s Hok Hnd Hp. cbv zeta.
  unfold import_purchase_orders_from_payload.
  destruct (import_loop_accepting ok txt now payload Hok
              (mkERPImportResult 0 0 0 []) s) as (s1 & E1 & _).
  rewrite E1. simpl. eexists. split; [reflexivity|].
  destruct (count_all_split now payload (contents (working s))
              (mkERPImportResult 0 0 0 [])) as (I1 & I2 & I3 & I4);
    [unfold contents; simpl; now rewrite po_ids_erased | exact Hp |].
  rewrite I1, I2, I3, I4. simpl.
  rewrite (filter_ext _ (is_new (working s)) (is_new_contents (working s))).
  rewrite (filter_ext (fun o => negb (is_new (contents (working s)) o))
             (fun o => negb (is_new (working s) o)))
    by (intros o; now rewrite is_new_contents).
  repeat split.
  rewrite <- Nat2Z.inj_add. f_equal.
  clear. induction payload as [|o rest IH]; simpl; [reflexivity|].
  destruct (is_new (working s) o); simpl; lia.
Qed.

Lemma import_counts_witness :
  let out := import_purchase_orders_from_payload accept_all "refused" 0
               sample_payload sample_session in
  exists r, fst out = Ok r /\
    imported r = 1%Z /\ updated r = 1%Z /\
    (imported r + updated r)%Z = 2%Z /\ skipped r = 0%Z /\ details r = [].
Proof.
  apply (import_counts_new_and_known_orders accept_all "refused" 0 sample_payload
           sample_session (fun _ => eq_refl)).
  - simpl. constructor; [intros [] | constructor].
  - simpl. constructor; [|constructor; [intros [] | constructor]].
    intros [H | []]. discriminate.
Defined.

(** ** What an import leaves in place *)

Lemma import_contents_keys now order d :
  exists new,
    map order_key (purchase_orders (import_contents now order d))
    = map order_key (purchase_orders d) ++ new.
Proof.
  rewrite import_contents_orders.
  destruct (find_order _ _) as [ex|].
  - exists []. rewrite app_nil_r, map_map. apply map_ext. intros o.
    unfold on_order_with_id. now destruct (po_id o =? po_id ex)%Z.
  - eexists. rewrite map_app. reflexivity.
Qed.

Lemma import_all_frame now payload : forall d,
  let d' := import_all_contents now payload d in
  stock_levels d' = stock_levels d /\ transactions d' = transactions d /\
  locations d' = locations d /\
  exists new, map order_key (purchase_orders d') = map order_key (purchase_orders d) ++ new.
Proof.
  unfold import_all_contents.
  induction payload as [|order rest IH]; intros d; simpl.
  - repeat split. exists []. now rewrite app_nil_r.
  - destruct (IH (import_contents now order d)) as (I1 & I2 & I3 & new & I4).
    destruct (import_contents_catalog now order d) as (_ & _ & _ & C1 & C2 & C3 & _).
    destruct (import_contents_keys now order d) as (new0 & K).
    rewrite I1, I2, I3, I4, C1, C2, C3, K. repeat split.
    exists (new0 ++ new). now rewrite app_assoc.
Qed.

(** X23: with the engine accepting the writes, an import leaves the
    stock levels, the transactions and the locations as they were; the
    items and the suppliers that were there keep their rows and their
    place, new ones being appended; and no order is removed or
    renumbered: the orders that were there keep their place, id, number
    and creation time, and new ones are appended. *)
Theorem import_only_appends_to_the_catalog :
  forall integrity_ok integrity_text now payload s,
    (forall d, integrity_ok d = true) ->
    let out := import_purchase_orders_from_payload integrity_ok integrity_text
                 now payload s in
    let d := working s in
    let d' := working (snd out) in
    stock_levels d' = stock_levels d /\
    transactions d' = transactions d /\
    locations d' = locations d /\
    (exists new, items d' = items d ++ new) /\
    (exists new, suppliers d' = suppliers d ++ new) /\
    (exists new,
       map order_key (purchase_orders d') = map order_key (purchase_orders d) ++ new).
Proof.
  intros ok txt now payload s Hok. cbv zeta.
  unfold import_purchase_orders_from_payload.
  destruct (import_loop_accepting ok txt now payload Hok
              (mkERPImportResult 0 0 0 []) s) as (s1 & E1 & C1 & _).
  rewrite E1. simpl.
  destruct (import_all_frame now payload (contents (working s)))
    as (F1 & F2 & F3 & new & F4).
  destruct (import_all_extends now payload (contents (working s)))
    as [[es Hs] [ei Hi]].
  rewrite <- C1 in F1, F2, F3, F4, Hs, Hi. unfold contents in *. simpl in *.
  split; [exact F1|]. split; [exact F2|]. split; [exact F3|].
  split; [now exists ei|]. split; [now exists es|].
  exists new. rewrite !map_map in F4. exact F4.
Qed.

Lemma import_only_appends_witness :
  let out := import_purchase_orders_from_payload accept_all "refused" 0
               sample_payload sample_session in
  stock_levels (working (snd out)) = stock_levels sample_db /\
  transactions (working (snd out)) = transactions sample_db /\
  locations (working (snd out)) = locations sample_db.
Proof.
  cbv zeta.
  destruct (import_only_appends_to_the_catalog accept_all "refused" 0 sample_payload
              sample_session (fun _ => eq_refl)) as (H1 & H2 & H3 & _).
  split; [exact H1 | split; [exact H2 | exact H3]].
Defined.

(** ** The import under any engine *)

Section AnyEngine.

Variable integrity_ok : DB -> bool.
Variable integrity_text : string.

Lemma pending_ret {A} (a : A) : pending_only (ret a).
Proof. intros s. simpl. tauto. Qed.

Lemma pending_query {A} (f : DB -> A) : pending_only (query f).
Proof. intros s. simpl. tauto. Qed.

Lemma pending_modify f : pending_only (modify f).
Proof. intros s. simpl. tauto. Qed.

Lemma pending_flush : pending_only (flush integrity_ok).
Proof.
  intros s. unfold flush. destruct (integrity_ok (working s)); simpl; tauto.
Qed.

Lemma pending_bind {A B} (m : M A) (k : A -> M B) :
  pending_only m -> (forall a, pending_only (k a)) -> pending_only (bind m k).
Proof.
  intros Hm Hk s. unfold bind. specialize (Hm s).
  destruct (m s) as [[a|e] s1]; simpl in *.
  - destruct Hm as [Hc _]. specialize (Hk a s1). rewrite Hc in Hk. exact Hk.
  - exact Hm.
Qed.

Lemma pending_get_or_create_supplier name :
  pending_only (get_or_create_supplier_by_name integrity_ok name).
Proof.
  unfold get_or_create_supplier_by_name, get_supplier_by_name.
  apply pending_bind; [apply pending_query|]. intros [x|]; [apply pending_ret|].
  apply pending_bind; [intros s; simpl; tauto|]. intros x.
  apply pending_bind; [apply pending_flush|]. intros _. apply pending_ret.
Qed.

Lemma pending_get_or_create_item sku0 defaults :
  pending_only (get_or_create_item_by_sku integrity_ok sku0 defaults).
Proof.
  unfold get_or_create_item_by_sku.
  apply pending_bind; [apply pending_query|]. intros [x|]; [apply pending_ret|].
  apply pending_bind; [intros s; simpl; tauto|]. intros x.
  apply pending_bind; [apply pending_flush|]. intros _. apply pending_ret.
Qed.

Lemma pending_append_line ref line : pending_only (append_line ref line).
Proof. destruct ref; intros s; simpl; tauto. Qed.

Lemma pending_materialize_lines lines : forall ref,
  pending_only (materialize_lines integrity_ok ref lines).
Proof.
  induction lines as [|line rest IH]; intros ref; simpl; [apply pending_ret|].
  apply pending_bind; [apply pending_get_or_create_item|]. intros item.
  apply pending_bind; [apply pending_append_line|]. intros ref'. apply IH.
Qed.

Lemma pending_replace_lines ref lines :
  pending_only (_replace_purchase_order_lines integrity_ok ref lines).
Proof.
  unfold _replace_purchase_order_lines.
  apply pending_bind.
  { destruct ref; simpl; [apply pending_ret|].
    apply pending_bind; [apply pending_modify|]. intros _. apply pending_ret. }
  intros ref1. apply pending_bind; [apply pending_materialize_lines|].
  intros ref2. apply pending_bind; [apply pending_flush|]. intros _.
  apply pending_ret.
Qed.

Lemma settles_bind {A B} (m : M A) (k : A -> M B) :
  pending_only m -> (forall a, settles (k a)) -> settles (bind m k).
Proof.
  intros Hm Hk s. unfold bind. specialize (Hm s).
  destruct (m s) as [[a|e] s1]; simpl in *.
  - apply Hk.
  - destruct Hm as (Hc & -> & Hw). split; [|discriminate].
    unfold clean. congruence.
Qed.

(** Every pass of the loop ends in a commit, in a rollback or in a
    refused flush. *)
Lemma import_order_settles now order r :
  settles (import_order integrity_ok integrity_text now order r).
Proof.
  unfold import_order.
  apply settles_bind; [apply pending_get_or_create_supplier|]. intros supplier.
  apply settles_bind; [apply pending_query|]. intros existing.
  apply settles_bind.
  { destruct existing as [ex|].
    - apply pending_bind; [apply pending_modify|]. intros _.
      apply pending_bind; [apply pending_replace_lines|]. intros _.
      apply pending_ret.
    - apply pending_bind; [apply pending_replace_lines|]. intros ref.
      apply pending_bind; [|intros _; apply pending_ret].
      destruct ref; [apply pending_modify | apply pending_ret]. }
  intros r1 s. unfold try_except_integrity, bind, commit, rollback, ret.
  destruct (integrity_ok (working s)); simpl; split; try reflexivity; discriminate.
Qed.

Lemma import_loop_settles now payload : forall r s,
  clean s ->
  let out := import_loop integrity_ok integrity_text now payload r s in
  clean (snd out) /\
  (forall x, fst out <> Raise (CRUDException x)) /\
  (forall r', fst out = Ok r' ->
     (imported r' + updated r'
      = imported r + updated r + Z.of_nat (List.length payload))%Z /\
     (skipped r' - Z.of_nat (List.length (details r'))
      = skipped r - Z.of_nat (List.length (details r)))%Z /\
     (skipped r <= skipped r' <= skipped r + Z.of_nat (List.length payload))%Z).
Proof.
  induction payload as [|order rest IH]; intros r s Hs; cbv zeta.
  - simpl. split; [exact Hs|]. split; [discriminate|].
    intros r' H. injection H as <-. lia.
  - change (import_loop integrity_ok integrity_text now (order :: rest) r s)
      with (bind (import_order integrity_ok integrity_text now order r)
              (import_loop integrity_ok integrity_text now rest) s).
    unfold bind.
    destruct (import_order_settles now order r s) as [Hc Hx].
    destruct (import_order integrity_ok integrity_text now order r s)
      as [[r1|e] s1] eqn:E; simpl in Hc, Hx.
    + destruct (IH r1 s1 Hc) as (I1 & I2 & I3).
      split; [exact I1|]. split; [exact I2|]. intros r' Hr'.
      destruct (I3 r' Hr') as (J1 & J2 & J3).
      destruct (import_order_counts _ _ _ _ _ _ _ _ E) as (K1 & K2).
      change (List.length (order :: rest)) with (S (List.length rest)).
      destruct K2 as [(K2 & K3) | (K2 & K3 & _)]; rewrite K3 in *.
      * lia.
      * rewrite length_app in *. simpl in *. lia.
    + simpl. split; [exact Hc|]. split; [exact Hx | discriminate].
Qed.

End AnyEngine.

(** X24: whatever the engine decides, an import that starts with
    nothing pending ends with nothing pending, and it never raises a
    [CRUDException]: it returns its counters or lets an
    [IntegrityError] through.  When it returns, every incoming order is
    counted under [imported] or [updated], also those that are counted
    under [skipped]; there is one detail message for each skipped
    order, and at most as many skipped orders as incoming ones. *)
Theorem import_ends_with_nothing_pending :
  forall integrity_ok integrity_text now payload s,
    clean s ->
    let out := import_purchase_orders_from_payload integrity_ok integrity_text
                 now payload s in
    clean (snd out) /\
    (forall x, fst out <> Raise (CRUDException x)) /\
    (forall r, fst out = Ok r ->
       (imported r + updated r)%Z = Z.of_nat (List.length payload) /\
       skipped r = Z.of_nat (List.length (details r)) /\
       (0 <= skipped r <= Z.of_nat (List.length payload))%Z).
Proof.
  intros ok txt now payload s Hs. cbv zeta.
  unfold import_purchase_orders_from_payload.
  destruct (import_loop_settles ok txt now payload (mkERPImportResult 0 0 0 []) s Hs)
    as (H1 & H2 & H3).
  split; [exact H1|]. split; [exact H2|]. intros r Hr.
  destruct (H3 r Hr) as (J1 & J2 & J3). simpl in *. lia.
Qed.

Lemma import_ends_with_nothing_pending_witness :
  let out := import_purchase_orders_from_payload refuses_po9 "refused" 0
               refused_payload sample_session in
  clean (snd out) /\
  exists r, fst out = Ok r /\
    (imported r + updated r)%Z = 2%Z /\ skipped r = 1%Z.
Proof.
  cbv zeta.
  destruct (import_ends_with_nothing_pending refuses_po9 "refused" 0 refused_payload
              sample_session eq_refl) as (H1 & _ & H3).
  split; [exact H1|]. eexists. split; [reflexivity|].
  destruct (H3 _ eq_refl) as (J1 & J2 & _). split; [exact J1 | exact J2].
Defined.

(** ** The unique keys under the import *)

Lemma NoDup_snoc {A} (l : list A) x : NoDup l -> ~ In x l -> NoDup (l ++ [x]).
Proof.
  intros Hl Hx. apply NoDup_app; [exact Hl | | ].
  - constructor; [intros [] | constructor].
  - intros y Hy [<- | []]. exact (Hx Hy).
Qed.

Lemma resolve_item_unique line d :
  let d1 := snd (resolve_item line d) in
  (NoDup (map sku (items d)) -> NoDup (map sku (items d1))) /\
  (NoDup (map item_id (items d)) -> NoDup (map item_id (items d1))).
Proof.
  cbv zeta. unfold resolve_item.
  destruct (find _ (items d)) as [i|] eqn:E; simpl; [tauto|].
  rewrite !map_app. simpl. split; intros H; apply NoDup_snoc; try exact H.
  - now apply (find_sku_none (map sku (items d)) (items d) (erp_sku line) eq_refl).
  - apply next_id_fresh.
Qed.

Lemma build_lines_unique lines : forall d,
  let d2 := snd (build_lines lines d) in
  (NoDup (map sku (items d)) -> NoDup (map sku (items d2))) /\
  (NoDup (map item_id (items d)) -> NoDup (map item_id (items d2))).
Proof.
  induction lines as [|line rest IH]; intros d; cbv zeta; simpl; [tauto|].
  pose proof (resolve_item_unique line d) as H. cbv zeta in H.
  destruct (resolve_item line d) as [item d1]. simpl in H.
  specialize (IH d1). cbv zeta in IH.
  destruct (build_lines rest d1) as [ls d2]. simpl in *. tauto.
Qed.

Lemma resolve_supplier_unique name d :
  let d1 := snd (resolve_supplier name d) in
  (NoDup (map supplier_name (suppliers d)) ->
   NoDup (map supplier_name (suppliers d1))) /\
  (NoDup (map supplier_id (suppliers d)) -> NoDup (map supplier_id (suppliers d1))).
Proof.
  cbv zeta. unfold resolve_supplier.
  destruct (find _ (suppliers d)) as [x|] eqn:E; simpl; [tauto|].
  rewrite !map_app. simpl. split; intros H; apply NoDup_snoc; try exact H.
  - intros Hin. apply in_map_iff in Hin. destruct Hin as (x & Hx & Hin).
    pose proof (find_none _ _ E x Hin) as Hne. simpl in Hne.
    rewrite Hx, String.eqb_refl in Hne. discriminate.
  - apply next_id_fresh.
Qed.

Lemma import_contents_suppliers now order d :
  suppliers (import_contents now order d)
  = suppliers (snd (resolve_supplier (erp_supplier_name order) d)).
Proof.
  unfold import_contents.
  destruct (resolve_supplier (erp_supplier_name order) d) as [x d1].
  pose proof (build_lines_keeps_suppliers (erp_lines order) d1) as H.
  destruct (build_lines (erp_lines order) d1) as [ls d2]. simpl in *.
  now destruct (find_order _ _).
Qed.

Lemma import_contents_unique now order d :
  unique_keys d -> unique_keys (import_contents now order d).
Proof.
  intros [U1 U2 U3 U4 U5 U6].
  destruct (import_contents_catalog now order d) as (_ & _ & _ & _ & _ & _ & _ & Hi).
  destruct (build_lines_unique (erp_lines order) d) as [B1 B2].
  destruct (resolve_supplier_unique (erp_supplier_name order) d) as [S1 S2].
  constructor.
  - rewrite Hi. now apply B1.
  - rewrite Hi. now apply B2.
  - rewrite import_contents_suppliers. now apply S1.
  - rewrite import_contents_suppliers. now apply S2.
  - rewrite import_contents_orders.
    destruct (find_order _ _) as [ex|] eqn:E.
    + rewrite map_map.
      replace (map (fun o => order_number
                               (on_order_with_id (po_id ex) (target order d) o))
                 (purchase_orders d))
        with (map order_number (purchase_orders d)); [exact U5|].
      apply map_ext. intros o. unfold on_order_with_id.
      now destruct (po_id o =? po_id ex)%Z.
    + rewrite map_app. apply NoDup_snoc; [exact U5|]. simpl.
      intros Hin. apply in_map_iff in Hin. destruct Hin as (o & Ho & Hin).
      unfold find_order in E. pose proof (find_none _ _ E o Hin) as Hne.
      simpl in Hne. rewrite Ho, String.eqb_refl in Hne. discriminate.
  - now apply import_contents_nodup.
Qed.

Lemma import_all_unique now payload : forall d,
  unique_keys d -> unique_keys (import_all_contents now payload d).
Proof.
  unfold import_all_contents.
  induction payload as [|order rest IH]; intros d H; simpl; [exact H|].
  apply IH. now apply import_contents_unique.
Qed.

Lemma unique_keys_contents d : unique_keys (contents d) <-> unique_keys d.
Proof.
  split; intros [U1 U2 U3 U4 U5 U6]; constructor; try assumption;
    unfold contents in *; simpl in *; rewrite ?map_map in *; assumption.
Qed.

(** X25: with the engine accepting the writes, an import keeps the
    keys of the tables it writes unique: when no two items share a SKU
    or an id, no two suppliers a name or an id and no two orders a
    number or an id before the import, the same holds after it. *)
Theorem import_keeps_keys_unique :
  forall integrity_ok integrity_text now payload s,
    (forall d, integrity_ok d = true) ->
    unique_keys (working s) ->
    let out := import_purchase_orders_from_payload integrity_ok integrity_text
                 now payload s in
    unique_keys (working (snd out)).
Proof.
  intros ok txt now payload s Hok Hu. cbv zeta.
  unfold import_purchase_orders_from_payload.
  destruct (import_loop_accepting ok txt now payload Hok
              (mkERPImportResult 0 0 0 []) s) as (s1 & E1 & C1 & _).
  rewrite E1. simpl. apply unique_keys_contents. rewrite C1.
  apply import_all_unique. now apply unique_keys_contents.
Qed.

Lemma import_keeps_keys_unique_witness :
  unique_keys (working (snd (import_purchase_orders_from_payload accept_all "refused"
                               0 sample_payload sample_session))).
Proof.
  apply (import_keeps_keys_unique accept_all "refused" 0 sample_payload
           sample_session (fun _ => eq_refl)).
  constructor; simpl; (constructor; [intros [] | constructor]).
Defined.

(** ** An item through its life *)

(** X26: with the engine accepting the writes, a created item is the
    one [get_item] answers for its id, and [list_items] lists it
    together with the items that were listed, every item once, in the
    order of the names. *)
Theorem created_item_is_found_and_listed :
  forall integrity_ok item_in s,
    (forall d, integrity_ok d = true) ->
    find (fun i => String.eqb (sku i) (ic_sku item_in)) (items (working s)) = None ->
    let out := create_item integrity_ok item_in s in
    exists item, fst out = Done item /\
      fst (get_item (item_id item) (snd out)) = Ok (Some item) /\
      Permutation (list_items (working (snd out)))
                  (item :: list_items (working s)) /\
      Sorted (fun a b => String.leb (item_name a) (item_name b) = true)
             (list_items (working (snd out))).
Proof.
  intros ok item_in s Hok Hnone. cbv zeta.
  unfold create_item, and_then, lift, query, add_item, commit, done. simpl.
  rewrite Hnone. simpl. rewrite Hok. simpl. eexists. split; [reflexivity|].
  split; [|split].
  - unfold get_item, query, find_item. simpl. rewrite find_app_first.
    assert (E : find (fun i => (item_id i =? next_id (map item_id (items (working s))))%Z)
                  (items (working s)) = None).
    { apply find_none_iff. intros i Hi. apply Z.eqb_neq. intros E.
      apply (next_id_fresh (map item_id (items (working s)))). rewrite <- E.
      now apply in_map. }
    rewrite E. simpl. now rewrite Z.eqb_refl.
  - unfold list_items. simpl.
    etransitivity; [apply sort_by_perm|].
    etransitivity; [apply Permutation_app_comm|]. simpl. constructor.
    symmetry. apply sort_by_perm.
  - apply sort_by_sorted. intros a b. apply String.leb_total.
Qed.

Lemma created_item_is_found_witness :
  let out := create_item accept_all (mkItemCreate "B7" "Anchor" None "Stk" 0)
               sample_session in
  exists item, fst out = Done item /\
    fst (get_item (item_id item) (snd out)) = Ok (Some item) /\
    map item_name (list_items (working (snd out))) = ["Anchor"; "Bolt"]%string.
Proof.
  cbv zeta.
  destruct (created_item_is_found_and_listed accept_all
              (mkItemCreate "B7" "Anchor" None "Stk" 0) sample_session
              (fun _ => eq_refl) eq_refl) as (item & H1 & H2 & _).
  exists item. split; [exact H1|]. split; [exact H2 | reflexivity].
Defined.

(** X27: with the engine accepting the writes, an item of a database
    with unique SKUs that is deleted is no longer found by its id, has
    no stock at any location, and leaves its SKU free: [create_item]
    with that SKU is accepted afterwards. *)
Theorem deleted_item_is_gone_and_its_sku_free :
  forall integrity_ok item item_in s,
    (forall d, integrity_ok d = true) ->
    In item (items (working s)) ->
    NoDup (map sku (items (working s))) ->
    ic_sku item_in = sku item ->
    let s1 := snd (delete_item integrity_ok item s) in
    fst (get_item (item_id item) s1) = Ok None /\
    (forall location, stock_quantity (working s1) (item_id item) location == 0) /\
    exists created, fst (create_item integrity_ok item_in s1) = Done created /\
      sku created = sku item.
Proof.
  intros ok item item_in s Hok Hin Hnd Hsku. cbv zeta.
  unfold delete_item, bind, modify, commit. simpl. rewrite Hok. simpl.
  split; [|split].
  - unfold get_item, query, find_item. simpl. f_equal.
    apply find_none_iff. intros i Hi. apply filter_In in Hi.
    destruct Hi as [_ Hi]. now apply negb_true_iff in Hi.
  - intros location. unfold stock_quantity, find_stock_level. simpl.
    match goal with |- context [find ?p ?l] =>
      assert (E : find p l = None) end.
    { apply find_none_iff. intros sl Hsl. apply filter_In in Hsl.
      destruct Hsl as [_ Hsl]. apply negb_true_iff in Hsl. simpl.
      now rewrite Hsl. }
    rewrite E. reflexivity.
  - unfold create_item, and_then, lift, query, add_item, commit, done. simpl.
    match goal with |- context [find ?p ?l] =>
      assert (E : find p l = None) end.
    { apply find_none_iff. intros i Hi. apply filter_In in Hi.
      destruct Hi as [Hi Hid]. apply negb_true_iff, Z.eqb_neq in Hid.
      apply String.eqb_neq. intros Es. apply Hid.
      rewrite (NoDup_map_eq sku (items (working s)) i item); try assumption;
        [reflexivity | congruence]. }
    rewrite E. simpl. rewrite Hok. simpl. eexists. split; [reflexivity|].
    exact Hsku.
Qed.

Lemma deleted_item_witness :
  let item := mkItem 5 "A1" "Bolt" None "Stk" 20 in
  let s1 := snd (delete_item accept_all item sample_session) in
  fst (get_item 5 s1) = Ok None /\
  stock_quantity (working s1) 5 1 == 0 /\
  exists created,
    fst (create_item accept_all (mkItemCreate "A1" "Bolt again" None "Stk" 0) s1)
    = Done created /\ sku created = "A1"%string.
Proof.
  cbv zeta.
  destruct (deleted_item_is_gone_and_its_sku_free accept_all
              (mkItem 5 "A1" "Bolt" None "Stk" 20)
              (mkItemCreate "A1" "Bolt again" None "Stk" 0) sample_session
              (fun _ => eq_refl)) as (H1 & H2 & H3).
  - simpl. left. reflexivity.
  - simpl. constructor; [intros [] | constructor].
  - reflexivity.
  - split; [exact H1|]. split; [exact (H2 1%Z) | exact H3].
Defined.
